(** * ReactorAsterix: a shallow embedding of the ASTERIX decoder

    The development follows the layers of the C++ library:
    - machine integers and byte views;
    - the time reconciler [Asterix1Handler::expandTruncatedTime];
    - the data item handlers (fixed and FX-extended length);
    - the category handler template (handler table, mandatory FSPEC mask,
      FSPEC walk);
    - the packet handler (blocks, records, diagnostics counters).

    Bytes are integers in [0, 256); a [std::string_view] is the list of the
    bytes it still covers; unsigned machine integers are integers with the
    wrap-around written where the C++ arithmetic can wrap. *)

From Stdlib Require Import ZArith Lia Bool List String.
From stdpp Require Import base option list gmap.

Local Open Scope Z_scope.

(** ** Machine integers *)

Definition wrap8  (z : Z) : Z := z mod 2 ^ 8.
Definition wrap16 (z : Z) : Z := z mod 2 ^ 16.
Definition wrap32 (z : Z) : Z := z mod 2 ^ 32.
Definition wrap64 (z : Z) : Z := z mod 2 ^ 64.

(** A byte view: what is left of the borrowed buffer. *)
Abbreviation view := (list Z) (only parsing).

Definition view_size (v : view) : Z := Z.of_nat (length v).

(** [sv[i]] for an index the caller has bounds-checked; 0 stands for a read
    that the C++ code never performs. *)
Definition byte_at (v : view) (i : Z) : Z :=
  if i <? 0 then 0 else default 0 (v !! Z.to_nat i).

(** ** Time reconciler (Asterix1Handler::expandTruncatedTime) *)

Module Tod.

Definition maxTOD   : Z := 86400 * 128.
Definition kMspMask : Z := 0xFFFF0000.
Definition kWindow  : Z := 0x00010000.
Definition kTopMsp  : Z := Z.land (maxTOD - 1) kMspMask.
Definition HALF_DAY : Z := maxTOD / 2.

(** The lambda [getDist] of the source, closed over [refTOD]. *)
Definition getDist (refTOD T : Z) : Z :=
  if T >=? maxTOD then maxTOD
  else
    let d := if T >? refTOD then wrap32 (T - refTOD) else wrap32 (refTOD - T) in
    if d >? HALF_DAY then wrap32 (maxTOD - d) else d.

Definition expandTruncatedTime (todLSP refTOD : Z) : Z :=
  let refMSP := Z.land refTOD kMspMask in
  let lsp    := todLSP in
  let todA   := Z.lor refMSP lsp in
  let todB   := if refMSP >? 0 then wrap32 (todA - kWindow) else Z.lor kTopMsp lsp in
  let todC   := if refMSP <? kTopMsp then wrap32 (todA + kWindow) else lsp in
  let bestT   := todA in
  let minDist := getDist refTOD todA in
  let dB := getDist refTOD todB in
  let '(minDist, bestT) := if dB <? minDist then (dB, todB) else (minDist, bestT) in
  let dC := getDist refTOD todC in
  if dC <? minDist then todC else bestT.

(** *** The reconciler as the specification words it *)

(** Distance between two instants on the circle of [maxTOD] ticks. *)
Definition circular_distance (T ref : Z) : Z :=
  Z.min (Z.abs (T - ref)) (maxTOD - Z.abs (T - ref)).

Definition candidateA (lsp ref : Z) : Z := Z.lor (Z.land ref kMspMask) lsp.

Definition candidateB (lsp ref : Z) : Z :=
  if 0 <? Z.land ref kMspMask then candidateA lsp ref - kWindow
  else Z.lor kTopMsp lsp.

Definition candidateC (lsp ref : Z) : Z :=
  if Z.land ref kMspMask <? kTopMsp then candidateA lsp ref + kWindow
  else lsp.

(** Candidates at or beyond [maxTOD] are rejected with distance [maxTOD]. *)
Definition candidate_distance (ref T : Z) : Z :=
  if maxTOD <=? T then maxTOD else circular_distance T ref.

(** Closest candidate, ties to A, then to B. *)
Definition closest_candidate (lsp ref : Z) : Z :=
  let a := candidateA lsp ref in
  let b := candidateB lsp ref in
  let c := candidateC lsp ref in
  let da := candidate_distance ref a in
  let db := candidate_distance ref b in
  let dc := candidate_distance ref c in
  if (da <=? db) && (da <=? dc) then a
  else if db <=? dc then b else c.

End Tod.


(** ** Diagnostics (AsterixStats) *)

Record AsterixStats := mkStats {
  totalPackets        : Z;
  trailingBytesCount  : Z;
  unhandledCategories : Z;
  malformedBlocks     : Z;
  malformedRecords    : Z;
  recordParseErrors   : Z;
  protocolViolations  : Z;
  unhandledItems      : Z
}.

(** A reference to one of the atomic counters, as [abortWithStat] takes it. *)
Inductive Counter :=
| TotalPackets | TrailingBytesCount | UnhandledCategories | MalformedBlocks
| MalformedRecords | RecordParseErrors | ProtocolViolations | UnhandledItems.

Definition counter (c : Counter) (s : AsterixStats) : Z :=
  match c with
  | TotalPackets => totalPackets s
  | TrailingBytesCount => trailingBytesCount s
  | UnhandledCategories => unhandledCategories s
  | MalformedBlocks => malformedBlocks s
  | MalformedRecords => malformedRecords s
  | RecordParseErrors => recordParseErrors s
  | ProtocolViolations => protocolViolations s
  | UnhandledItems => unhandledItems s
  end.

(** [counter.fetch_add(n, relaxed)] on a 64-bit unsigned counter. *)
Definition fetch_add (c : Counter) (n : Z) (s : AsterixStats) : AsterixStats :=
  let v := wrap64 (counter c s + n) in
  match c with
  | TotalPackets =>
      mkStats v (trailingBytesCount s) (unhandledCategories s) (malformedBlocks s)
        (malformedRecords s) (recordParseErrors s) (protocolViolations s) (unhandledItems s)
  | TrailingBytesCount =>
      mkStats (totalPackets s) v (unhandledCategories s) (malformedBlocks s)
        (malformedRecords s) (recordParseErrors s) (protocolViolations s) (unhandledItems s)
  | UnhandledCategories =>
      mkStats (totalPackets s) (trailingBytesCount s) v (malformedBlocks s)
        (malformedRecords s) (recordParseErrors s) (protocolViolations s) (unhandledItems s)
  | MalformedBlocks =>
      mkStats (totalPackets s) (trailingBytesCount s) (unhandledCategories s) v
        (malformedRecords s) (recordParseErrors s) (protocolViolations s) (unhandledItems s)
  | MalformedRecords =>
      mkStats (totalPackets s) (trailingBytesCount s) (unhandledCategories s) (malformedBlocks s)
        v (recordParseErrors s) (protocolViolations s) (unhandledItems s)
  | RecordParseErrors =>
      mkStats (totalPackets s) (trailingBytesCount s) (unhandledCategories s) (malformedBlocks s)
        (malformedRecords s) v (protocolViolations s) (unhandledItems s)
  | ProtocolViolations =>
      mkStats (totalPackets s) (trailingBytesCount s) (unhandledCategories s) (malformedBlocks s)
        (malformedRecords s) (recordParseErrors s) v (unhandledItems s)
  | UnhandledItems =>
      mkStats (totalPackets s) (trailingBytesCount s) (unhandledCategories s) (malformedBlocks s)
        (malformedRecords s) (recordParseErrors s) (protocolViolations s) v
  end.

Arguments fetch_add : simpl never.

Definition zero_stats : AsterixStats := mkStats 0 0 0 0 0 0 0 0.

(** ** Reports *)

(** (SAC, SIC). *)
Definition SourceIdentifier : Type := Z * Z.

(** Category 001 report. The scaled floating point fields of the source
    ([range], [azimuth], [SSRHeight::height]) are kept as the raw integers
    they are computed from. *)
Record Asterix1Report := mkReport1 {
  r1_sourceIdentifier : SourceIdentifier;
  r1_TOD         : Z;
  r1_rawRange    : Z;
  r1_rawAzimuth  : Z;
  r1_mode3A      : option (Z * bool * bool * bool);
  r1_ssrHeight   : option (Z * bool * bool);
  r1_todLSP      : Z;
  r1_ssrpsr      : Z;
  r1_ds1ds2      : Z;
  r1_spi         : bool;
  r1_hasLspClock : bool
}.

Definition new_Asterix1Report : Asterix1Report :=
  mkReport1 (0, 0) 0 0 0 None None 0 0 0 false false.

(** Category 002 report; [antennaSpeed] is kept as the raw 16-bit value. *)
Record Asterix2Report := mkReport2 {
  r2_sourceIdentifier : SourceIdentifier;
  r2_TOD             : Z;
  r2_rawAntennaSpeed : Z
}.

Definition new_Asterix2Report : Asterix2Report := mkReport2 (0, 0) 0 0.

(** ** The world a packet is decoded in *)

(** The counters of the packet handler, the shared [SourceStateManager], the
    system clock read by [calculateCurrentTod] (microseconds since the
    epoch), and the reports handed to listeners, in delivery order, each
    with the listener that received it. *)
Record World := mkWorld {
  stats      : AsterixStats;
  sources    : gmap (Z * Z) Z;
  now_micros : Z;
  delivered1 : list (nat * Asterix1Report);
  delivered2 : list (nat * Asterix2Report)
}.

Definition set_stats (f : AsterixStats -> AsterixStats) (w : World) : World :=
  mkWorld (f (stats w)) (sources w) (now_micros w) (delivered1 w) (delivered2 w).

Definition initial_world : World := mkWorld zero_stats ∅ 0 [] [].

(** asterixExceptions.h *)
Inductive exn := notEnoughData | uninterpretedItem | mandatoryItemMissing.

(** A call returns, leaves by an exception, or never comes back. *)
Inductive Outcome (A : Type) :=
| Returned (a : A) (w : World)
| Thrown (e : exn) (w : World)
| Diverges.
Arguments Returned {A} a w.
Arguments Thrown {A} e w.
Arguments Diverges {A}.

Definition M (A : Type) : Type := World -> Outcome A.

Definition ret {A} (a : A) : M A := fun w => Returned a w.

Definition bind {A B} (m : M A) (k : A -> M B) : M B :=
  fun w =>
    match m w with
    | Returned a w' => k a w'
    | Thrown e w' => Thrown e w'
    | Diverges => Diverges
    end.

Definition throw {A} (e : exn) : M A := fun w => Thrown e w.
Definition diverge {A} : M A := fun _ => Diverges.
Definition bump (c : Counter) (n : Z) : M unit :=
  fun w => Returned tt (set_stats (fetch_add c n) w).

Declare Scope asterix_scope.
Delimit Scope asterix_scope with asterix.
Notation "'do' x <- m ; k" := (bind m (fun x => k))
  (at level 10, x name, m at level 100, k at level 200) : asterix_scope.
Notation "'run' m ; k" := (bind m (fun _ => k))
  (at level 10, m at level 100, k at level 200) : asterix_scope.
Local Open Scope asterix_scope.

(** ** Data item handlers *)

(** IAsterixDataItemHandler<T>. [getSize] yields a [size_t], and is [None]
    when the scan of the source never returns; [decode] either updates the
    context or throws. *)
Record IAsterixDataItemHandler (T : Type) := mkItemHandler {
  getName     : string;
  isMandatory : bool;
  getSize     : view -> option N;
  decode      : T -> view -> exn + T
}.
Arguments mkItemHandler {T}.
Arguments getName {T}.
Arguments isMandatory {T}.
Arguments getSize {T}.
Arguments decode {T}.

(** AsterixDataItemHandlerBase<T>::decode does nothing. *)
Definition decode_nothing {T} (context : T) (data : view) : exn + T := inr context.

(** AsterixDataItemHandlerFixedLength<T>::getSize of a handler constructed
    with [length]. The constructor parameter and the member [fixedSize] are
    [uint8_t]: the length is narrowed to a byte when the handler is built. *)
Definition fixed_getSize (length : Z) (data : view) : option Z :=
  let fixedSize := wrap8 length in
  Some fixedSize.

(** The [while] of AsterixDataItemHandlerExtendedLength<T>::getSize; the
    result is [currentPos] at loop exit. [fuel] bounds the number of turns:
    with a positive increment [S (length data)] turns are enough
    ([ext_scan_total]), so [None] only arises for an increment of 0, where
    the source loops forever. *)
Fixpoint ext_scan (fuel : nat) (i : Z) (data : view) (currentPos : Z) : option Z :=
  match fuel with
  | O => None
  | S fuel' =>
      if currentPos <? view_size data then
        let byte := byte_at data currentPos in
        if Z.land byte 0x01 =? 0 then Some currentPos
        else ext_scan fuel' i data (wrap64 (currentPos + i))
      else Some currentPos
  end.

(** AsterixDataItemHandlerExtendedLength<T>::getSize, for members [k], [i]. *)
Definition ext_getSize (k i : Z) (data : view) : option Z :=
  let currentPos := wrap64 (k - 1) in
  match ext_scan (S (length data)) i data currentPos with
  | None => None
  | Some currentPos =>
      let totalSize := wrap64 (currentPos + 1) in
      Some (if totalSize <=? view_size data then totalSize else 0)
  end.

Definition FixedLength {T} (name : string) (mandatory : bool) (length : Z)
    (dec : T -> view -> exn + T) : IAsterixDataItemHandler T :=
  mkItemHandler name mandatory (fun data => Z.to_N <$> fixed_getSize length data) dec.

Definition ExtendedLength {T} (name : string) (mandatory : bool) (k i : Z)
    (dec : T -> view -> exn + T) : IAsterixDataItemHandler T :=
  mkItemHandler name mandatory (fun data => Z.to_N <$> ext_getSize k i data) dec.

(** ** Category handler template (AsterixCategoryHandler<T>) *)

(** A [unique_ptr] is the address of the object it owns together with that
    object; the raw observer pointers of [itemLookup] are kept the same way,
    since a registered handler is never modified. *)
Definition addr := nat.

Record AsterixCategoryHandler (T : Type) := mkCategory {
  mandatoryFspec     : list Z;   (* std::array<uint8_t, 20> *)
  mandatoryFspecSize : Z;
  itemLookup         : list (option (addr * IAsterixDataItemHandler T)); (* 128 slots *)
  handlerOwnership   : list (addr * IAsterixDataItemHandler T)
}.
Arguments mkCategory {T}.
Arguments mandatoryFspec {T}.
Arguments mandatoryFspecSize {T}.
Arguments itemLookup {T}.
Arguments handlerOwnership {T}.

Definition MAX_FRNS : Z := 128.

Definition new_category {T} : AsterixCategoryHandler T :=
  mkCategory (replicate 20 0) 0 (replicate 128 None) [].

(** [std::remove_if] + [erase] of the owner of [old]. *)
Definition remove_owner {T} (old : addr)
    (pool : list (addr * IAsterixDataItemHandler T)) :=
  List.filter (fun e => negb (Nat.eqb (fst e) old)) pool.

(** AsterixCategoryHandler<T>::addHandler; [h = None] is a null pointer,
    [frn] is unsigned. *)
Definition addHandler {T} (h : option (addr * IAsterixDataItemHandler T)) (frn : N)
    (c : AsterixCategoryHandler T) : AsterixCategoryHandler T :=
  match h with
  | None => c
  | Some (p, hd) =>
      let frn := Z.of_N frn in
      if (frn =? 0) || (frn >? MAX_FRNS) then c
      else
        let '(mask, msize) :=
          if isMandatory hd then
            let uFrn := frn in
            let byteIdx := (uFrn - 1) / 7 in
            let bitIdx := 7 - ((uFrn - 1) mod 7) in
            (<[Z.to_nat byteIdx :=
                 Z.lor (byte_at (mandatoryFspec c) byteIdx) (wrap8 (Z.shiftl 1 bitIdx))]>
               (mandatoryFspec c),
             Z.max (mandatoryFspecSize c) (byteIdx + 1))
          else (mandatoryFspec c, mandatoryFspecSize c) in
        let pool :=
          match itemLookup c !! Z.to_nat (frn - 1) with
          | Some (Some (old, _)) => remove_owner old (handlerOwnership c)
          | _ => handlerOwnership c
          end in
        mkCategory mask msize
          (<[Z.to_nat (frn - 1) := Some (p, hd)]> (itemLookup c))
          (pool ++ [(p, hd)])
  end.

(** A sequence of registrations, first to last. *)
Definition addHandlers {T}
    (calls : list (option (addr * IAsterixDataItemHandler T) * N))
    (c : AsterixCategoryHandler T) : AsterixCategoryHandler T :=
  fold_left (fun c call => addHandler (fst call) (snd call) c) calls c.

(** *** The FSPEC walk (_processDataRecordInternal) *)

(** The locals the walk mutates: the context the items are decoded into and
    [remainingData]; [ws_decoded] records the sizes of the items decoded so
    far, in order (it is not a variable of the source). *)
Record WalkState (T : Type) := mkWalk {
  ws_context   : T;
  ws_remaining : view;
  ws_decoded   : list Z
}.
Arguments mkWalk {T}.
Arguments ws_context {T}.
Arguments ws_remaining {T}.
Arguments ws_decoded {T}.

(** [abortWithStat]; the stats pointer is linked (calling the lambda with a
    null [stats_ptr] dereferences it). *)
Definition abortWithStat (c : Counter) : M Z :=
  run bump c 1; ret 0.

(** [table[index]] of an array of pointers; an index outside the array
    reads as a null pointer. *)
Definition slot_at {A} (table : list (option A)) (index : Z) : option A :=
  if index <? 0 then None else default None (table !! Z.to_nat index).

(** [__builtin_clz] on a non-zero 32-bit value. *)
Definition clz32 (x : Z) : Z := 31 - Z.log2 x.

(** The mandatory bits of byte [i] that the received FSPEC lacks. *)
Definition missing_bits {T} (c : AsterixCategoryHandler T) (fspec : view) (i : nat) : Z :=
  Z.land (default 0 (mandatoryFspec c !! i)) (Z.lnot (default 0 (fspec !! i))).

(** The [for] over [i < mandatoryFspecSize]: does some byte lack a bit? *)
Definition mandatory_missing {T} (c : AsterixCategoryHandler T) (fspec : view) : bool :=
  existsb (fun i => negb (missing_bits c fspec i =? 0))
          (seq 0 (Z.to_nat (mandatoryFspecSize c))).

(** The [while (itemBits)] loop for one FSPEC byte. The first component of
    the result is [Some r] when the function returned [r] from inside the
    loop. Each turn clears one of the seven item bits, so the bound of 8
    turns given by [fspec_loop] is never reached
    ([items_loop_comes_back]). *)
Fixpoint items_loop {T} (fuel : nat) (c : AsterixCategoryHandler T)
    (frn_base itemBits : Z) (st : WalkState T) : M (option Z * WalkState T) :=
  if itemBits =? 0 then ret (None, st)
  else
    match fuel with
    | O => diverge
    | S fuel' =>
        let offset := clz32 (wrap32 (Z.shiftl itemBits 24)) in
        let currentFrn := wrap16 (frn_base + offset) in
        match slot_at (itemLookup c) (currentFrn - 1) with
        | Some (_, handler) =>
            match getSize handler (ws_remaining st) with
            | None => diverge
            | Some n =>
                let itemSize := Z.of_N n in
                if (itemSize =? 0) || (itemSize >? view_size (ws_remaining st)) then
                  do r <- abortWithStat MalformedRecords; ret (Some r, st)
                else
                  match decode handler (ws_context st)
                          (take (Z.to_nat itemSize) (ws_remaining st)) with
                  | inl e => throw e
                  | inr context' =>
                      let st' := mkWalk context'
                                   (drop (Z.to_nat itemSize) (ws_remaining st))
                                   (ws_decoded st ++ [itemSize]) in
                      items_loop fuel' c frn_base
                        (Z.land itemBits (wrap8 (Z.lnot (Z.shiftr 0x80 offset)))) st'
                  end
            end
        | None => do r <- abortWithStat UnhandledItems; ret (Some r, st)
        end
    end.

(** The [for (const char c : fspec)] loop. *)
Fixpoint fspec_loop {T} (c : AsterixCategoryHandler T) (payload fspec : view)
    (frn_base : Z) (st : WalkState T) : M (Z * WalkState T) :=
  match fspec with
  | [] => do r <- abortWithStat MalformedRecords; ret (r, st)
  | fspecByte :: rest =>
      let itemBits := Z.land fspecByte 0xFE in
      do res <- items_loop 8 c frn_base itemBits st;
      let st' := snd res in
      match fst res with
      | Some r => ret (r, st')
      | None =>
          if Z.land fspecByte 0x01 =? 0 then
            ret (view_size payload - view_size (ws_remaining st'), st')
          else fspec_loop c payload rest (wrap16 (frn_base + 7)) st'
      end
  end.

(** AsterixCategoryHandler<T>::_processDataRecordInternal. The result is the
    returned byte count and the final state of the walk. *)
Definition _processDataRecordInternal {T} (c : AsterixCategoryHandler T)
    (fspec payload : view) (context : T) : M (Z * WalkState T) :=
  let st := mkWalk context payload [] in
  if view_size fspec <? mandatoryFspecSize c then
    do r <- abortWithStat ProtocolViolations; ret (r, st)
  else if mandatory_missing c fspec then
    do r <- abortWithStat ProtocolViolations; ret (r, st)
  else fspec_loop c payload fspec 1 st.

(** ** Category 001 *)

(** Big-endian 16-bit read ([memcpy] + [ntohs], or [readBe16]). *)
Definition readBe16 (sv : view) (offset : Z) : Z :=
  wrap16 (Z.lor (Z.shiftl (byte_at sv offset) 8) (byte_at sv (offset + 1))).

(** The value of a plain [char] holding the byte [b] (plain [char] is signed). *)
Definition char_value (b : Z) : Z := if b <? 128 then b else b - 256.

Module Cat001.

Definition set_source (sid : SourceIdentifier) (r : Asterix1Report) :=
  mkReport1 sid (r1_TOD r) (r1_rawRange r) (r1_rawAzimuth r) (r1_mode3A r)
    (r1_ssrHeight r) (r1_todLSP r) (r1_ssrpsr r) (r1_ds1ds2 r) (r1_spi r) (r1_hasLspClock r).
Definition set_TOD (t : Z) (r : Asterix1Report) :=
  mkReport1 (r1_sourceIdentifier r) t (r1_rawRange r) (r1_rawAzimuth r) (r1_mode3A r)
    (r1_ssrHeight r) (r1_todLSP r) (r1_ssrpsr r) (r1_ds1ds2 r) (r1_spi r) (r1_hasLspClock r).
Definition set_polar (rg az : Z) (r : Asterix1Report) :=
  mkReport1 (r1_sourceIdentifier r) (r1_TOD r) rg az (r1_mode3A r)
    (r1_ssrHeight r) (r1_todLSP r) (r1_ssrpsr r) (r1_ds1ds2 r) (r1_spi r) (r1_hasLspClock r).
Definition setMode3A (code : Z) (v g l : bool) (r : Asterix1Report) :=
  mkReport1 (r1_sourceIdentifier r) (r1_TOD r) (r1_rawRange r) (r1_rawAzimuth r)
    (Some (code, v, g, l))
    (r1_ssrHeight r) (r1_todLSP r) (r1_ssrpsr r) (r1_ds1ds2 r) (r1_spi r) (r1_hasLspClock r).
Definition setSSRHeight (fl : Z) (v g : bool) (r : Asterix1Report) :=
  mkReport1 (r1_sourceIdentifier r) (r1_TOD r) (r1_rawRange r) (r1_rawAzimuth r) (r1_mode3A r)
    (Some (fl, v, g)) (r1_todLSP r) (r1_ssrpsr r) (r1_ds1ds2 r) (r1_spi r) (r1_hasLspClock r).
Definition set_lsp (lsp : Z) (r : Asterix1Report) :=
  mkReport1 (r1_sourceIdentifier r) (r1_TOD r) (r1_rawRange r) (r1_rawAzimuth r) (r1_mode3A r)
    (r1_ssrHeight r) lsp (r1_ssrpsr r) (r1_ds1ds2 r) (r1_spi r) true.
Definition setSSR_PSR (x : Z) (r : Asterix1Report) :=
  mkReport1 (r1_sourceIdentifier r) (r1_TOD r) (r1_rawRange r) (r1_rawAzimuth r) (r1_mode3A r)
    (r1_ssrHeight r) (r1_todLSP r) x (r1_ds1ds2 r) (r1_spi r) (r1_hasLspClock r).
Definition setDs1Ds2 (x : Z) (r : Asterix1Report) :=
  mkReport1 (r1_sourceIdentifier r) (r1_TOD r) (r1_rawRange r) (r1_rawAzimuth r) (r1_mode3A r)
    (r1_ssrHeight r) (r1_todLSP r) (r1_ssrpsr r) x (r1_spi r) (r1_hasLspClock r).
Definition setSPI (b : bool) (r : Asterix1Report) :=
  mkReport1 (r1_sourceIdentifier r) (r1_TOD r) (r1_rawRange r) (r1_rawAzimuth r) (r1_mode3A r)
    (r1_ssrHeight r) (r1_todLSP r) (r1_ssrpsr r) (r1_ds1ds2 r) b (r1_hasLspClock r).

Definition nonzero (z : Z) : bool := negb (z =? 0).

(** I001_010_Handler::decode *)
Definition I001_010_decode (report : Asterix1Report) (data : view) : exn + Asterix1Report :=
  let sac := byte_at data 0 in
  let sic := byte_at data 1 in
  inr (set_source (sac, sic) report).

(** I001_020_Handler::decode *)
Definition I001_020_decode (report : Asterix1Report) (data : view) : exn + Asterix1Report :=
  let octet1 := byte_at data 0 in
  let RESERVED_BITS_OCTET1 := 0xC0 in
  if nonzero (Z.land octet1 RESERVED_BITS_OCTET1) then inl uninterpretedItem
  else
    let ssr_psr := Z.shiftr (Z.land octet1 0x30) 4 in
    let report := setSSR_PSR ssr_psr report in
    let report := if nonzero (Z.land octet1 0x04) then setSPI true report else report in
    if nonzero (Z.land octet1 0x01) then
      let octet2 := byte_at data 1 in
      let RESERVED_BITS_OCTET2 := 0x98 in
      if nonzero (Z.land octet2 RESERVED_BITS_OCTET2) then inl uninterpretedItem
      else
        let ds1ds2 := Z.shiftr (Z.land octet2 0x60) 5 in
        let report := setDs1Ds2 ds1ds2 report in
        if nonzero (Z.land octet2 0x01) then inl uninterpretedItem
        else inr report
    else inr report.

(** I001_040_Handler::decode, up to the scaling. *)
Definition I001_040_decode (report : Asterix1Report) (data : view) : exn + Asterix1Report :=
  let rawRange := readBe16 data 0 in
  let rawAzimuth := readBe16 data 2 in
  inr (set_polar rawRange rawAzimuth report).

(** I001_070_Handler::decode *)
Definition I001_070_decode (report : Asterix1Report) (data : view) : exn + Asterix1Report :=
  let mode3ATemp := readBe16 data 0 in
  let validity := nonzero (Z.land mode3ATemp 0x8000) in
  let garbled  := nonzero (Z.land mode3ATemp 0x4000) in
  let local    := nonzero (Z.land mode3ATemp 0x2000) in
  let mode3A := Z.land mode3ATemp 0x0FFF in
  inr (setMode3A mode3A validity garbled local report).

(** I001_090_Handler::decode, up to the scaling: the height is the signed
    flight level [flValue]. *)
Definition I001_090_decode (report : Asterix1Report) (data : view) : exn + Asterix1Report :=
  let flightLevelTemp := readBe16 data 0 in
  let v := nonzero (Z.land flightLevelTemp 0x8000) in
  let g := nonzero (Z.land flightLevelTemp 0x4000) in
  let flightLevelTemp := Z.land flightLevelTemp 0x3FFF in
  let flightLevelTemp :=
    if nonzero (Z.land flightLevelTemp 0x2000) then Z.lor flightLevelTemp 0xC000
    else flightLevelTemp in
  let flValue := if flightLevelTemp <? 32768 then flightLevelTemp else flightLevelTemp - 65536 in
  inr (setSSRHeight flValue v g report).

(** I001_141_Handler::decode *)
Definition I001_141_decode (report : Asterix1Report) (data : view) : exn + Asterix1Report :=
  let hi := Z.shiftl (wrap16 (char_value (byte_at data 0))) 8 in
  inr (set_lsp (wrap16 (Z.lor hi (char_value (byte_at data 1)))) report).

Definition I001_010_Handler := FixedLength "I001/010 Data Source Identifier" true 2 I001_010_decode.
Definition I001_020_Handler := ExtendedLength "I001/020 Target Report Descriptor" true 1 1 I001_020_decode.
Definition I001_040_Handler := FixedLength "I001/040 Measured Position (Polar)" false 4 I001_040_decode.
Definition I001_070_Handler := FixedLength "I001/070 Mode-3/A Code" false 2 I001_070_decode.
Definition I001_090_Handler := FixedLength "I001/090 Mode-C Code (Flight Level)" false 2 I001_090_decode.
Definition I001_130_Handler :=
  ExtendedLength (T := Asterix1Report) "I001/130 Radar Plot Characteristics" false 1 1 decode_nothing.
Definition I001_141_Handler := FixedLength "I001/141 Truncated Time of Day" false 2 I001_141_decode.
Definition I001_050_Handler :=
  FixedLength (T := Asterix1Report) "I001/050 Mode-2 Code" false 2 decode_nothing.
Definition I001_131_Handler :=
  FixedLength (T := Asterix1Report) "I001/131 Received Power" false 1 decode_nothing.
Definition I001_150_Handler :=
  FixedLength (T := Asterix1Report) "I001/150 Presence of X-Pulse" false 1 decode_nothing.

Record Asterix1Handler := mkHandler1 {
  base      : AsterixCategoryHandler Asterix1Report;
  listeners : list nat
}.

(** Asterix1Handler::registerHandlers; the addresses are those of the ten
    allocations, in order. *)
Definition registerHandlers (c : AsterixCategoryHandler Asterix1Report) :=
  addHandlers
    [ (Some (0%nat, I001_010_Handler), 1%N);
      (Some (1%nat, I001_020_Handler), 2%N);
      (Some (2%nat, I001_040_Handler), 3%N);
      (Some (3%nat, I001_070_Handler), 4%N);
      (Some (4%nat, I001_090_Handler), 5%N);
      (Some (5%nat, I001_130_Handler), 6%N);
      (Some (6%nat, I001_141_Handler), 7%N);
      (Some (7%nat, I001_050_Handler), 8%N);
      (Some (8%nat, I001_131_Handler), 10%N);
      (Some (9%nat, I001_150_Handler), 15%N) ] c.

Definition new_Asterix1Handler : Asterix1Handler :=
  mkHandler1 (registerHandlers new_category) [].

(** Asterix1Handler::addListener *)
Definition addListener (l : nat) (h : Asterix1Handler) : Asterix1Handler :=
  if existsb (Nat.eqb l) (listeners h) then h
  else mkHandler1 (base h) (listeners h ++ [l]).

(** Asterix1Handler::calculateCurrentTod, from the clock reading. *)
Definition calculateCurrentTod (now : Z) : Z :=
  let micros := now mod (86400 * 1000000) in
  wrap32 (wrap64 (micros * 128) / 1000000).

(** Asterix1Handler::processDataRecord *)
Definition processDataRecord (h : Asterix1Handler) (fspec payload : view) : M Z :=
  do res <- _processDataRecordInternal (base h) fspec payload new_Asterix1Report;
  let consumed := fst res in
  let report := ws_context (snd res) in
  if consumed >? 0 then
    fun w =>
      let ref := default (calculateCurrentTod (now_micros w))
                         (sources w !! r1_sourceIdentifier report) in
      let tod := if r1_hasLspClock report
                 then Tod.expandTruncatedTime (r1_todLSP report) ref else ref in
      let report := set_TOD tod report in
      Returned consumed
        (mkWorld (stats w) (<[r1_sourceIdentifier report := tod]> (sources w)) (now_micros w)
           (delivered1 w ++ map (fun l => (l, report)) (listeners h)) (delivered2 w))
  else ret consumed.

End Cat001.

(** ** Category 002 *)

Module Cat002.

Definition I002_010_decode (report : Asterix2Report) (data : view) : exn + Asterix2Report :=
  let sac := byte_at data 0 in
  let sic := byte_at data 1 in
  inr (mkReport2 (sac, sic) (r2_TOD report) (r2_rawAntennaSpeed report)).

Definition I002_030_decode (context : Asterix2Report) (data : view) : exn + Asterix2Report :=
  let tod := Z.lor (Z.lor (Z.shiftl (byte_at data 0) 16) (Z.shiftl (byte_at data 1) 8))
                   (byte_at data 2) in
  inr (mkReport2 (r2_sourceIdentifier context) tod (r2_rawAntennaSpeed context)).

(** I002_041_Handler::decode, up to the division by 128. *)
Definition I002_041_decode (context : Asterix2Report) (data : view) : exn + Asterix2Report :=
  let speedTemp := readBe16 data 0 in
  inr (mkReport2 (r2_sourceIdentifier context) (r2_TOD context) speedTemp).

Definition I002_010_Handler := FixedLength "I002/010 Data Source Identifier" true 2 I002_010_decode.
Definition I002_000_Handler :=
  FixedLength (T := Asterix2Report) "I002/000, Message Type" true 1 decode_nothing.
Definition I002_020_Handler :=
  FixedLength (T := Asterix2Report) "I002/020, Sector Number" false 1 decode_nothing.
Definition I002_030_Handler := FixedLength "I002/030, Time of Day" true 3 I002_030_decode.
Definition I002_041_Handler := FixedLength "I002/041, Antenna Rotation Speed" false 2 I002_041_decode.
Definition I002_050_Handler :=
  ExtendedLength (T := Asterix2Report) "I002/050, Station Configuration Status" false 1 1
    decode_nothing.

Record Asterix2Handler := mkHandler2 {
  base      : AsterixCategoryHandler Asterix2Report;
  listeners : list nat
}.

Definition registerHandlers (c : AsterixCategoryHandler Asterix2Report) :=
  addHandlers
    [ (Some (0%nat, I002_010_Handler), 1%N);
      (Some (1%nat, I002_000_Handler), 2%N);
      (Some (2%nat, I002_020_Handler), 3%N);
      (Some (3%nat, I002_030_Handler), 4%N);
      (Some (4%nat, I002_041_Handler), 5%N);
      (Some (5%nat, I002_050_Handler), 6%N) ] c.

Definition new_Asterix2Handler : Asterix2Handler :=
  mkHandler2 (registerHandlers new_category) [].

(** Asterix2Handler::processDataRecord *)
Definition processDataRecord (h : Asterix2Handler) (fspec payload : view) : M Z :=
  do res <- _processDataRecordInternal (base h) fspec payload new_Asterix2Report;
  let consumed := fst res in
  let report := ws_context (snd res) in
  if consumed >? 0 then
    fun w =>
      Returned consumed
        (mkWorld (stats w) (<[r2_sourceIdentifier report := r2_TOD report]> (sources w))
           (now_micros w) (delivered1 w)
           (delivered2 w ++ map (fun l => (l, report)) (listeners h)))
  else ret consumed.

End Cat002.

(** ** Packet handler (AsterixPacketHandler) *)

(** IAsterixCategoryHandler: the one virtual call the packet handler makes. *)
Record IAsterixCategoryHandler := mkCatHandler {
  processDataRecord : view -> view -> M Z
}.

Definition Asterix1 (h : Cat001.Asterix1Handler) : IAsterixCategoryHandler :=
  mkCatHandler (Cat001.processDataRecord h).
Definition Asterix2 (h : Cat002.Asterix2Handler) : IAsterixCategoryHandler :=
  mkCatHandler (Cat002.processDataRecord h).

Module Constants.
Definition HEADER_SIZE    : Z := 3.
Definition MIN_BLOCK_SIZE : Z := 5.
Definition MAX_CATEGORIES : Z := 256.
Definition MAX_FSPEC_SIZE : Z := 10.
Definition FX_BIT         : Z := 0x01.
End Constants.

Record AsterixPacketHandler := mkPacketHandler {
  categoryHandlers : list (option (addr * IAsterixCategoryHandler));  (* 256 slots *)
  categoryPool     : list (addr * IAsterixCategoryHandler)
}.

Definition new_AsterixPacketHandler : AsterixPacketHandler :=
  mkPacketHandler (replicate 256 None) [].

(** AsterixPacketHandler::registerCategoryHandler *)
Definition registerCategoryHandler (category : Z)
    (handler : option (addr * IAsterixCategoryHandler))
    (ph : AsterixPacketHandler) : AsterixPacketHandler :=
  match handler with
  | None => ph
  | Some (p, h) =>
      let pool :=
        match categoryHandlers ph !! Z.to_nat category with
        | Some (Some (target, _)) =>
            List.filter (fun e => negb (Nat.eqb (fst e) target)) (categoryPool ph)
        | _ => categoryPool ph
        end in
      mkPacketHandler (<[Z.to_nat category := Some (p, h)]> (categoryHandlers ph))
                      (pool ++ [(p, h)])
  end.

(** The [while (true)] of dispatchRecord. [rest] is the part of the record
    view from index [fspecSize] on, so [rest = []] is
    [fspecSize >= recordView.size()]. [None] is the [return 0] of the loop;
    otherwise the result is [(fspecSize, lastDataIdx, lastDataValue)]. *)
Fixpoint fspec_scan (rest : view) (fspecSize lastDataIdx lastDataValue : Z)
    : option (Z * Z * Z) :=
  match rest with
  | [] => None
  | currentByte :: rest' =>
      if fspecSize >=? Constants.MAX_FSPEC_SIZE then None
      else
        let lastDataIdx' := if currentByte >? 1 then fspecSize else lastDataIdx in
        let lastDataValue' := if currentByte >? 1 then currentByte else lastDataValue in
        let fspecSize' := fspecSize + 1 in
        if Z.land currentByte Constants.FX_BIT =? 0
        then Some (fspecSize', lastDataIdx', lastDataValue')
        else fspec_scan rest' fspecSize' lastDataIdx' lastDataValue'
  end.

(** AsterixPacketHandler::dispatchRecord *)
Definition dispatchRecord (recordView : view) (handler : IAsterixCategoryHandler) : M Z :=
  match fspec_scan recordView 0 0 0 with
  | None => ret 0
  | Some (fspecSize, lastDataIdx, lastDataValue) =>
      if (lastDataValue >? 0) &&
         ((lastDataIdx >? 18) ||
          ((lastDataIdx =? 18) && negb (Z.land lastDataValue 0x3E =? 0)))
      then ret 0
      else if fspecSize >? view_size recordView then ret 0
      else
        let fspec := take (Z.to_nat fspecSize) recordView in
        let payload := drop (Z.to_nat fspecSize) recordView in
        do consumed <- processDataRecord handler fspec payload;
        if consumed >? 0 then ret (fspecSize + consumed) else ret 0
  end.

(** The record loop of processDataBlock. [offset] grows by at least one
    byte a turn, so [length] turns are never used up
    ([records_loop_comes_back]). *)
Fixpoint records_loop (fuel : nat) (block : view) (length : Z)
    (handler : IAsterixCategoryHandler) (offset : Z) : M unit :=
  if offset <? length then
    match fuel with
    | O => diverge
    | S fuel' =>
        let remaining := take (Z.to_nat (length - offset)) (drop (Z.to_nat offset) block) in
        do consumed <- dispatchRecord remaining handler;
        if consumed >? 0 then records_loop fuel' block length handler (offset + consumed)
        else bump RecordParseErrors 1
    end
  else ret tt.

(** AsterixPacketHandler::processDataBlock *)
Definition processDataBlock (ph : AsterixPacketHandler) (block : view) : M Z :=
  if view_size block <? Constants.HEADER_SIZE then ret 0
  else
    let category := byte_at block 0 in
    let length := readBe16 block 1 in
    if (length <? Constants.HEADER_SIZE) || (length >? view_size block) then ret 0
    else
      run match categoryHandlers ph !! Z.to_nat category with
          | Some (Some (_, handler)) =>
              records_loop (Z.to_nat length) block length handler Constants.HEADER_SIZE
          | _ => bump UnhandledCategories 1
          end;
      ret length.

(** The block loop of handlePacket. The result is the view left when the
    loop exits and the lengths of the blocks the view was advanced by (the
    latter is not a variable of the source). The view shrinks by at least
    [HEADER_SIZE] bytes a turn, so one turn per byte is never used up
    ([blocks_loop_comes_back]). *)
Fixpoint blocks_loop (fuel : nat) (ph : AsterixPacketHandler) (buffer : view)
    (blocks : list Z) : M (list Z * view) :=
  if view_size buffer >=? Constants.MIN_BLOCK_SIZE then
    match fuel with
    | O => diverge
    | S fuel' =>
        do blockLength <- processDataBlock ph buffer;
        if blockLength >? 0 then
          blocks_loop fuel' ph (drop (Z.to_nat blockLength) buffer) (blocks ++ [blockLength])
        else
          run bump MalformedBlocks 1;
          ret (blocks, buffer)
    end
  else ret (blocks, buffer).

(** AsterixPacketHandler::handlePacket on a non-null buffer [data] of
    [size = length data] bytes. The result lists the lengths of the blocks
    consumed. *)
Definition handlePacket (ph : AsterixPacketHandler) (data : view) : M (list Z) :=
  if view_size data =? 0 then ret []
  else
    run bump TotalPackets 1;
    do res <- blocks_loop (length data) ph data [];
    let buffer := snd res in
    run (if negb (view_size buffer =? 0) then bump TrailingBytesCount (view_size buffer)
         else ret tt);
    ret (fst res).

Definition sumZ (l : list Z) : Z := fold_right Z.add 0 l.
(** ** Vocabulary of the statements *)

(** The index reached from [k - 1] after [n] steps of [i]. *)
Definition reached (k i : Z) (n : nat) : Z := k - 1 + Z.of_nat n * i.

(** [j] is the index of a byte of the view. *)
Definition in_view (data : view) (j : Z) : Prop := 0 <= j < view_size data.

(** Bit 0 (FX) of the byte at index [j]. *)
Definition fx_at (data : view) (j : Z) : bool := Z.testbit (byte_at data j) 0.

(** What a stretch of the FSPEC walk may do: it leaves the counter [k]
    alone, what it takes from the remaining view is what it records as
    decoded, and the remaining view does not grow. *)
Definition walk_step_ok {T} (k : Counter) (st st' : WalkState T) (w w' : World) : Prop :=
  (counter k (stats w') = counter k (stats w)) /\
  view_size (ws_remaining st') + sumZ (ws_decoded st') =
    view_size (ws_remaining st) + sumZ (ws_decoded st) /\
  view_size (ws_remaining st') <= view_size (ws_remaining st).

(** The received FSPEC misses a mandatory item of the category: it is
    shorter than the mask, or some byte of the mask has a bit the FSPEC
    lacks. *)
Definition fspec_violation {T} (c : AsterixCategoryHandler T) (fspec : view) : Prop :=
  view_size fspec < mandatoryFspecSize c \/
  exists i : nat, Z.of_nat i < mandatoryFspecSize c /\ missing_bits c fspec i <> 0.

(** The category handler [H] is a class derived from the template: its
    [processDataRecord] runs the walk of the table [c] on a fresh context,
    does its own bookkeeping, and returns the byte count of the walk. *)
Definition built_on_template {T} (H : IAsterixCategoryHandler)
    (c : AsterixCategoryHandler T) (fresh : T) : Prop :=
  forall (fspec payload : view) (w : World),
    match _processDataRecordInternal c fspec payload fresh w with
    | Returned r _ => exists w', processDataRecord H fspec payload w = Returned (fst r) w'
    | Thrown e w1 => processDataRecord H fspec payload w = Thrown e w1
    | Diverges => processDataRecord H fspec payload w = Diverges
    end.

(** [buffer] starts with blocks of the declared lengths [blocks], each
    with an accepted header, and [rest] is what follows them. *)
Inductive splits_into : list Z -> list Z -> list Z -> Prop :=
| splits_done (rest : list Z) : splits_into rest [] rest
| splits_block (buffer : list Z) (b : Z) (bs rest : list Z) :
    readBe16 buffer 1 = b ->
    Constants.HEADER_SIZE <= b <= view_size buffer ->
    splits_into (drop (Z.to_nat b) buffer) bs rest ->
    splits_into buffer (b :: bs) rest.

(** The category handler leaves the counter [k] alone. *)
Definition keeps_counter (k : Counter) (h : IAsterixCategoryHandler) : Prop :=
  forall (fspec payload : view) (w w' : World) (r : Z),
    processDataRecord h fspec payload w = Returned r w' ->
    counter k (stats w') = counter k (stats w).

Definition handlers_keep (k : Counter) (ph : AsterixPacketHandler) : Prop :=
  forall (cat : nat) (p : addr) (h : IAsterixCategoryHandler),
    categoryHandlers ph !! cat = Some (Some (p, h)) -> keeps_counter k h.

(** The category handler always comes back, by a return or an exception,
    on the payloads a block can hold. *)
Definition comes_back (h : IAsterixCategoryHandler) : Prop :=
  forall (fspec payload : view) (w : World),
    view_size payload < 65536 ->
    processDataRecord h fspec payload w <> Diverges.

(** Every registered item handler reports a size on such payloads. *)
Definition sizes_total {T} (c : AsterixCategoryHandler T) : Prop :=
  Forall (fun slot =>
            match slot with
            | Some (_, hd) => forall data : view, view_size data < 65536 -> getSize hd data <> None
            | None => True
            end) (itemLookup c).

(** [itemBits] with its highest set bit cleared, as the item loop does it. *)
Definition clear_top (itemBits : Z) : Z :=
  Z.land itemBits
    (wrap8 (Z.lnot (Z.shiftr 0x80 (clz32 (wrap32 (Z.shiftl itemBits 24)))))).

(** Number of significant bits. *)
Definition bit_rank (b : Z) : nat := Z.to_nat (Z.log2 (2 * b + 1)).

Definition handlers_come_back (ph : AsterixPacketHandler) : Prop :=
  forall (cat : nat) (p : addr) (h : IAsterixCategoryHandler),
    categoryHandlers ph !! cat = Some (Some (p, h)) -> comes_back h.

(** A packet handler with the category 001 handler registered, one listener
    attached. *)
Definition cat001_receiver : AsterixPacketHandler :=
  registerCategoryHandler 1
    (Some (0%nat, Asterix1 (Cat001.addListener 0%nat Cat001.new_Asterix1Handler)))
    new_AsterixPacketHandler.

(** * Further vocabulary *)

(** The bytes 0 to 255, for case analysis on a byte. *)
Definition all_bytes : list Z := map Z.of_nat (seq 0 256).

(** The 14-bit two's complement value of the low 14 bits of [x]. *)
Definition signed14 (x : Z) : Z :=
  let low := x mod 16384 in if low <? 8192 then low else low - 16384.

(** How many of the item bits (7 down to 1) of an FSPEC byte are set. *)
Definition item_bits_set (b : Z) : Z :=
  sumZ (map (fun k => Z.b2z (Z.testbit b k)) [7; 6; 5; 4; 3; 2; 1]).

(** How many of the eight bits of a byte are set. *)
Definition bits_set (b : Z) : Z :=
  sumZ (map (fun k => Z.b2z (Z.testbit b k)) [7; 6; 5; 4; 3; 2; 1; 0]).

(** The items an FSPEC announces: the item bits of its bytes up to the
    first byte with FX clear. *)
Fixpoint fspec_item_count (fspec : view) : Z :=
  match fspec with
  | [] => 0
  | b :: rest => item_bits_set b + (if Z.testbit b 0 then fspec_item_count rest else 0)
  end.


(** What a walk that came back with [r] did to the world: nothing, or it
    returned 0 after one increment of one of its three counters. *)
Definition walk_effect (w w' : World) (r : Z) : Prop :=
  w' = w \/
  (r = 0 /\
   exists k : Counter,
     (k = MalformedRecords \/ k = UnhandledItems \/ k = ProtocolViolations) /\
     w' = set_stats (fetch_add k 1) w).

(** The received FSPEC is empty or its first byte lacks a bit of [mask]. *)
Definition first_byte_lacks (mask : Z) (fspec : view) : Prop :=
  match fspec with
  | [] => True
  | b :: _ => Z.land b mask <> mask
  end.

(** A lookup table of observer pointers and the pool that owns the objects
    agree: no object is owned twice, every pointer of the table is to an
    object of the pool, every object of the pool is pointed to by the table,
    and no two slots point to the same object. *)
Definition consistent {A} (table : list (option (addr * A))) (pool : list (addr * A))
    : Prop :=
  NoDup (map fst pool) /\
  (forall (i : nat) p a, table !! i = Some (Some (p, a)) -> In (p, a) pool) /\
  (forall p a, In (p, a) pool -> exists i : nat, table !! i = Some (Some (p, a))) /\
  (forall (i j : nat) p a a',
     table !! i = Some (Some (p, a)) -> table !! j = Some (Some (p, a')) -> i = j).

(** The address [p] is not that of an object of the pool. *)
Definition fresh_address {A} (p : addr) (pool : list (addr * A)) : Prop :=
  ~ In p (map fst pool).

(** ** FastBitReader *)

Module FastBitReader.

(** The reader is the buffer it was built on and [data_], the index in it of
    the byte pointed to. *)
Record t := mk {
  buffer : view;
  data_  : Z
}.

(** [*data_] *)
Definition current (r : t) : Z := byte_at (buffer r) (data_ r).

(** The end of both reads: past bit 0 the pointer moves to the next byte and
    the offset goes back to the most significant bit. *)
Definition advance (r : t) (bitOffset : Z) : t * Z :=
  if bitOffset <? 0 then (mk (buffer r) (data_ r + 1), 7) else (r, bitOffset).

(** FastBitReader::readBits<N>; the result is the value and the updated
    reader and offset. A shift by a negative count or by the width of [int]
    or more is undefined: [None]. *)
Definition readBits (N : Z) (r : t) (bitOffset : Z) : option (Z * (t * Z)) :=
  let mask := wrap8 (Z.shiftl 1 N - 1) in
  let shift := bitOffset - N + 1 in
  if (shift <? 0) || (shift >=? 32) then None
  else
    let value := wrap8 (Z.land (Z.shiftr (current r) shift) mask) in
    Some (value, advance r (bitOffset - N)).

(** FastBitReader::readBit *)
Definition readBit (r : t) (bitOffset : Z) : option (bool * (t * Z)) :=
  if (bitOffset <? 0) || (bitOffset >=? 32) then None
  else
    let val := negb (Z.land (Z.shiftr (current r) bitOffset) 1 =? 0) in
    Some (val, advance r (bitOffset - 1)).

End FastBitReader.

(** [n] calls of [readBit], the bits read put together most significant
    first after those of [acc]. *)
Fixpoint readBit_times (n : nat) (r : FastBitReader.t) (bitOffset acc : Z)
    : option (Z * (FastBitReader.t * Z)) :=
  match n with
  | O => Some (acc, (r, bitOffset))
  | S n' =>
      match FastBitReader.readBit r bitOffset with
      | None => None
      | Some (val, (r', bitOffset')) => readBit_times n' r' bitOffset' (2 * acc + Z.b2z val)
      end
  end.

(** The bits [bitOffset], [bitOffset - 1], ... of [b], [n] of them, after
    those of [acc]. *)
Fixpoint msb_first (n : nat) (b bitOffset acc : Z) : Z :=
  match n with
  | O => acc
  | S n' => msb_first n' b (bitOffset - 1) (2 * acc + Z.b2z (Z.testbit b bitOffset))
  end.

(** ** Exceptions *)

(** The item decoders registered in [c] raise only exceptions of [P]. *)
Definition decoders_raise {T} (P : exn -> Prop) (c : AsterixCategoryHandler T) : Prop :=
  Forall (fun slot =>
            match slot with
            | Some (_, hd) =>
                forall (context : T) (data : view) (e : exn),
                  decode hd context data = inl e -> P e
            | None => True
            end) (itemLookup c).

(** The category handler raises only exceptions of [P]. *)
Definition raises_only (P : exn -> Prop) (h : IAsterixCategoryHandler) : Prop :=
  forall (fspec payload : view) (w w' : World) (e : exn),
    processDataRecord h fspec payload w = Thrown e w' -> P e.

Definition handlers_raise_only (P : exn -> Prop) (ph : AsterixPacketHandler) : Prop :=
  forall (cat : nat) (p : addr) (h : IAsterixCategoryHandler),
    categoryHandlers ph !! cat = Some (Some (p, h)) -> raises_only P h.

(** A packet handler with the category 002 handler registered, one listener
    attached. *)
Definition cat002_receiver : AsterixPacketHandler :=
  registerCategoryHandler 2
    (Some (0%nat, Asterix2 (Cat002.mkHandler2 (Cat002.base Cat002.new_Asterix2Handler)
                              [0%nat])))
    new_AsterixPacketHandler.

(** ** Contexts *)

(** The decoders registered at the slots from index [lo] on keep the
    property [Q] of the context they decode into. *)
Definition decoders_keep {T} (Q : T -> Prop) (lo : nat) (c : AsterixCategoryHandler T)
    : Prop :=
  Forall (fun slot =>
            match slot with
            | Some (_, hd) =>
                forall (context : T) (data : view) (context' : T),
                  Q context -> decode hd context data = inr context' -> Q context'
            | None => True
            end) (drop lo (itemLookup c)).

(** The handler registered for FRN 1 takes two bytes and writes them to the
    context as its source identifier, which [sid_of] reads. *)
Definition source_comes_first {T} (sid_of : T -> Z * Z) (c : AsterixCategoryHandler T)
    : Prop :=
  exists p hd,
    slot_at (itemLookup c) 0 = Some (p, hd) /\
    (forall data : view, getSize hd data = Some 2%N) /\
    (forall (context : T) (data : view),
       exists context', decode hd context data = inr context' /\
                        sid_of context' = (byte_at data 0, byte_at data 1)).

(** ** Bit-level facts used by the reconciler *)

Section BitFacts.

Lemma land_msp_mask (ref : Z) :
  0 <= ref < 2 ^ 32 -> Z.land ref Tod.kMspMask = 65536 * (ref / 65536).
Proof.
  intros Href. unfold Tod.kMspMask.
  change 0xFFFF0000 with (Z.shiftl (Z.ones 16) 16).
  apply Z.bits_inj'. intros n Hn.
  rewrite Z.land_spec.
  replace (65536 * (ref / 65536)) with (Z.shiftl (Z.shiftr ref 16) 16)
    by (rewrite Z.shiftl_mul_pow2, Z.shiftr_div_pow2 by lia; change (2 ^ 16) with 65536; lia).
  destruct (Z.lt_ge_cases n 16) as [Hlt | Hge].
  - rewrite !Z.shiftl_spec_low by lia. apply andb_false_r.
  - rewrite !Z.shiftl_spec by lia. rewrite Z.shiftr_spec by lia.
    replace (n - 16 + 16) with n by lia.
    destruct (Z.lt_ge_cases n 32) as [Hlt32 | Hge32].
    + rewrite Z.ones_spec_low by lia. apply andb_true_r.
    + rewrite Z.ones_spec_high by lia. rewrite andb_false_r.
      symmetry. destruct (Z.eq_dec ref 0) as [-> | Hnz]; [apply Z.bits_0 |].
      apply Z.bits_above_log2; [lia |].
      apply Z.lt_le_trans with 32; [apply Z.log2_lt_pow2; lia | lia].
Qed.

Lemma lor_window_lsp (q lsp : Z) :
  0 <= q -> 0 <= lsp < 65536 -> Z.lor (65536 * q) lsp = 65536 * q + lsp.
Proof.
  intros Hq Hl.
  replace (65536 * q) with (Z.shiftl q 16)
    by (rewrite Z.shiftl_mul_pow2 by lia; change (2 ^ 16) with 65536; lia).
  rewrite <- Z.lxor_lor.
  - rewrite <- Z.add_nocarry_lxor; [reflexivity |].
    apply Z.bits_inj'. intros n Hn. rewrite Z.land_spec, Z.bits_0.
    destruct (Z.lt_ge_cases n 16).
    + rewrite Z.shiftl_spec_low by lia. reflexivity.
    + destruct (Z.eq_dec lsp 0) as [-> | Hnz]; [rewrite Z.bits_0; apply andb_false_r |].
      rewrite (Z.bits_above_log2 lsp n); [apply andb_false_r | lia |].
      apply Z.lt_le_trans with 16; [apply Z.log2_lt_pow2; lia | lia].
  - apply Z.bits_inj'. intros n Hn. rewrite Z.land_spec, Z.bits_0.
    destruct (Z.lt_ge_cases n 16).
    + rewrite Z.shiftl_spec_low by lia. reflexivity.
    + destruct (Z.eq_dec lsp 0) as [-> | Hnz]; [rewrite Z.bits_0; apply andb_false_r |].
      rewrite (Z.bits_above_log2 lsp n); [apply andb_false_r | lia |].
      apply Z.lt_le_trans with 16; [apply Z.log2_lt_pow2; lia | lia].
Qed.

Lemma land_low16 (q lsp : Z) :
  0 <= lsp < 65536 -> Z.land (65536 * q + lsp) 0xFFFF = lsp.
Proof.
  intros Hl. change 0xFFFF with (Z.ones 16).
  rewrite Z.land_ones by lia. change (2 ^ 16) with 65536.
  rewrite Z.add_comm, Z.mul_comm, Z.mod_add by lia. apply Z.mod_small; lia.
Qed.

End BitFacts.

(** ** The time reconciler *)

Section Reconciler.

Import Tod.

Lemma wrap32_small (z : Z) : 0 <= z < 4294967296 -> wrap32 z = z.
Proof. intros H. unfold wrap32. apply Z.mod_small. change (2 ^ 32) with 4294967296. lia. Qed.

Lemma kTopMsp_value : kTopMsp = 65536 * 168.
Proof. reflexivity. Qed.

Lemma maxTOD_value : maxTOD = 11059200.
Proof. reflexivity. Qed.

Lemma HALF_DAY_value : HALF_DAY = 5529600.
Proof. reflexivity. Qed.

Lemma getDist_valid (ref T : Z) :
  0 <= ref < maxTOD -> 0 <= T < maxTOD ->
  getDist ref T = circular_distance T ref /\ 0 <= getDist ref T <= HALF_DAY.
Proof.
  rewrite maxTOD_value. intros Hr Ht.
  unfold getDist, circular_distance. rewrite maxTOD_value, HALF_DAY_value.
  destruct (T >=? 11059200) eqn:E1; [lia |].
  destruct (T >? ref) eqn:E2.
  - rewrite (wrap32_small (T - ref)) by lia.
    destruct (T - ref >? 5529600) eqn:E3.
    + rewrite wrap32_small by lia. lia.
    + lia.
  - rewrite (wrap32_small (ref - T)) by lia.
    destruct (ref - T >? 5529600) eqn:E3.
    + rewrite wrap32_small by lia. lia.
    + lia.
Qed.

Lemma getDist_reject (ref T : Z) : maxTOD <= T -> getDist ref T = maxTOD.
Proof.
  intros H. unfold getDist. destruct (T >=? maxTOD) eqn:E; [reflexivity | lia].
Qed.

Lemma getDist_candidate (ref T : Z) :
  0 <= ref < maxTOD -> 0 <= T ->
  getDist ref T = candidate_distance ref T /\ 0 <= getDist ref T <= maxTOD /\
  (T < maxTOD -> getDist ref T <= HALF_DAY).
Proof.
  intros Hr Ht. unfold candidate_distance.
  destruct (maxTOD <=? T) eqn:E.
  - rewrite getDist_reject by lia. rewrite ?maxTOD_value, ?HALF_DAY_value in *. lia.
  - destruct (getDist_valid ref T) as [-> H]; [lia | lia |].
    rewrite ?HALF_DAY_value, ?maxTOD_value in *. lia.
Qed.

(** The three candidates of the source, in closed form. *)
Lemma candidates_closed_form (lsp ref : Z) :
  0 <= lsp < 65536 -> 0 <= ref < maxTOD ->
  let q := ref / 65536 in
  0 <= q <= 168 /\
  Z.land ref kMspMask = 65536 * q /\
  candidateA lsp ref = 65536 * q + lsp /\
  candidateB lsp ref = (if 0 <? q then 65536 * (q - 1) + lsp else 65536 * 168 + lsp) /\
  candidateC lsp ref = (if q <? 168 then 65536 * (q + 1) + lsp else lsp).
Proof.
  rewrite maxTOD_value. intros Hl Hr q.
  assert (Hq : 0 <= q < 169)
    by (subst q; split; [apply Z.div_pos; lia | apply Z.div_lt_upper_bound; lia]).
  assert (Hmsp : Z.land ref kMspMask = 65536 * q)
    by (apply land_msp_mask; change (2 ^ 32) with 4294967296; lia).
  unfold candidateB, candidateC, candidateA. rewrite Hmsp, kTopMsp_value.
  rewrite !lor_window_lsp by lia.
  unfold kWindow. repeat split; try lia.
  - destruct (0 <? 65536 * q) eqn:E1, (0 <? q) eqn:E2; lia.
  - destruct (65536 * q <? 65536 * 168) eqn:E1, (q <? 168) eqn:E2; lia.
Qed.

(** The source computes the candidates and picks among them as worded. *)
Lemma expandTruncatedTime_closest (lsp ref : Z) :
  0 <= lsp < 65536 -> 0 <= ref < maxTOD ->
  expandTruncatedTime lsp ref = closest_candidate lsp ref.
Proof.
  intros Hl Hr.
  destruct (candidates_closed_form lsp ref Hl Hr) as (Hq & Hmsp & HA & HB & HC).
  set (q := ref / 65536) in *.
  assert (HB' : (if Z.land ref kMspMask >? 0
                 then wrap32 (Z.lor (Z.land ref kMspMask) lsp - kWindow)
                 else Z.lor kTopMsp lsp) = candidateB lsp ref).
  { unfold candidateB. fold (candidateA lsp ref). rewrite Z.gtb_ltb.
    destruct (0 <? Z.land ref kMspMask) eqn:E; [| reflexivity].
    apply wrap32_small. rewrite HA. unfold kWindow. lia. }
  assert (HC' : (if Z.land ref kMspMask <? kTopMsp
                 then wrap32 (Z.lor (Z.land ref kMspMask) lsp + kWindow)
                 else lsp) = candidateC lsp ref).
  { unfold candidateC. fold (candidateA lsp ref).
    destruct (Z.land ref kMspMask <? kTopMsp) eqn:E; [| reflexivity].
    apply wrap32_small. rewrite HA. unfold kWindow. lia. }
  unfold expandTruncatedTime. cbv zeta. rewrite HB', HC'.
  fold (candidateA lsp ref). unfold closest_candidate. cbv zeta.
  assert (0 <= candidateA lsp ref) by lia.
  assert (0 <= candidateB lsp ref) by (rewrite HB; destruct (0 <? q) eqn:E; lia).
  assert (0 <= candidateC lsp ref) by (rewrite HC; destruct (q <? 168) eqn:E; lia).
  destruct (getDist_candidate ref (candidateA lsp ref)) as (-> & _); [lia | lia |].
  destruct (getDist_candidate ref (candidateB lsp ref)) as (-> & _); [lia | lia |].
  destruct (getDist_candidate ref (candidateC lsp ref)) as (-> & _); [lia | lia |].
  generalize (candidate_distance ref (candidateA lsp ref))
             (candidate_distance ref (candidateB lsp ref))
             (candidate_distance ref (candidateC lsp ref)).
  intros da db dc.
  destruct (db <? da) eqn:E1, (da <=? db) eqn:E2; try lia; simpl.
  - destruct (dc <? db) eqn:E3, (db <=? dc) eqn:E4; try lia; reflexivity.
  - destruct (dc <? da) eqn:E3, (da <=? dc) eqn:E4; try lia; simpl; try reflexivity.
    destruct (db <=? dc) eqn:E5; [lia | reflexivity].
Qed.

(** What the reconciler needs to know about one candidate. *)
Lemma candidate_facts (ref X : Z) :
  0 <= ref < maxTOD -> 0 <= X ->
  0 <= candidate_distance ref X <= maxTOD /\
  (maxTOD <= X -> candidate_distance ref X = maxTOD) /\
  (X < maxTOD ->
     candidate_distance ref X = circular_distance X ref /\
     candidate_distance ref X <= HALF_DAY).
Proof.
  intros Hr HX.
  destruct (getDist_candidate ref X Hr HX) as (E & Hb & Hh). rewrite <- E.
  split; [exact Hb |]. split.
  - intros H. apply getDist_reject. exact H.
  - intros H. split; [| auto]. apply getDist_valid; lia.
Qed.

(** C1 (P5): for a 16-bit [lsp] and a reference inside the day, the expanded
    time is inside the day, carries [lsp] in its low 16 bits, and is within
    half a day of the reference on the circle of [maxTOD] ticks. *)
Theorem expandTruncatedTime_in_day (lsp ref : Z) :
  0 <= lsp < 65536 -> 0 <= ref < maxTOD ->
  0 <= expandTruncatedTime lsp ref < maxTOD /\
  Z.land (expandTruncatedTime lsp ref) 0xFFFF = lsp /\
  circular_distance (expandTruncatedTime lsp ref) ref <= HALF_DAY.
Proof.
  intros Hl Hr. rewrite expandTruncatedTime_closest by assumption.
  destruct (candidates_closed_form lsp ref Hl Hr) as (Hq & _ & HA & HB & HC).
  set (q := ref / 65536) in *.
  assert (HA0 : 0 <= candidateA lsp ref) by lia.
  assert (HB0 : 0 <= candidateB lsp ref) by (rewrite HB; destruct (0 <? q) eqn:E; lia).
  assert (HC0 : 0 <= candidateC lsp ref) by (rewrite HC; destruct (q <? 168) eqn:E; lia).
  assert (LA : Z.land (candidateA lsp ref) 0xFFFF = lsp) by (rewrite HA; apply land_low16; lia).
  assert (LB : Z.land (candidateB lsp ref) 0xFFFF = lsp)
    by (rewrite HB; destruct (0 <? q) eqn:E; apply land_low16; lia).
  assert (LC : Z.land (candidateC lsp ref) 0xFFFF = lsp)
    by (rewrite HC; destruct (q <? 168) eqn:E;
        [apply land_low16; lia | apply (land_low16 0); lia]).
  destruct (candidate_facts ref _ Hr HA0) as (Ra & Ja & Va).
  destruct (candidate_facts ref _ Hr HB0) as (Rb & Jb & Vb).
  destruct (candidate_facts ref _ Hr HC0) as (Rc & Jc & Vc).
  assert (HAB : maxTOD <= candidateA lsp ref -> candidateB lsp ref < maxTOD)
    by (rewrite HA, HB, maxTOD_value; destruct (0 <? q) eqn:E; lia).
  assert (HBA : maxTOD <= candidateB lsp ref -> candidateA lsp ref < maxTOD)
    by (rewrite HA, HB, maxTOD_value; destruct (0 <? q) eqn:E; lia).
  assert (Hhalf : HALF_DAY < maxTOD) by (rewrite HALF_DAY_value, maxTOD_value; lia).
  unfold closest_candidate. cbv zeta.
  destruct ((candidate_distance ref (candidateA lsp ref) <=?
             candidate_distance ref (candidateB lsp ref)) &&
            (candidate_distance ref (candidateA lsp ref) <=?
             candidate_distance ref (candidateC lsp ref))) eqn:E1.
  - apply andb_true_iff in E1 as [E1 E2].
    assert (candidateA lsp ref < maxTOD).
    { destruct (Z.lt_ge_cases (candidateA lsp ref) maxTOD) as [? | Hge]; [assumption |].
      specialize (Ja Hge). specialize (HAB Hge). specialize (Vb HAB). lia. }
    specialize (Va ltac:(assumption)). split; [lia |]. split; [exact LA | lia].
  - apply andb_false_iff in E1.
    destruct (candidate_distance ref (candidateB lsp ref) <=?
              candidate_distance ref (candidateC lsp ref)) eqn:E2.
    + assert (candidateB lsp ref < maxTOD).
      { destruct (Z.lt_ge_cases (candidateB lsp ref) maxTOD) as [? | Hge]; [assumption |].
        specialize (Jb Hge). specialize (HBA Hge). specialize (Va HBA).
        destruct E1 as [E1 | E1]; lia. }
      specialize (Vb ltac:(assumption)). split; [lia |]. split; [exact LB | lia].
    + assert (candidateC lsp ref < maxTOD).
      { destruct (Z.lt_ge_cases (candidateC lsp ref) maxTOD) as [? | Hge]; [assumption |].
        specialize (Jc Hge). lia. }
      specialize (Vc ltac:(assumption)). split; [lia |]. split; [exact LC | lia].
Qed.

Lemma expandTruncatedTime_in_day_witness :
  0 <= expandTruncatedTime 0x5678 0x00123456 < maxTOD /\
  Z.land (expandTruncatedTime 0x5678 0x00123456) 0xFFFF = 0x5678 /\
  circular_distance (expandTruncatedTime 0x5678 0x00123456) 0x00123456 <= HALF_DAY.
Proof.
  apply (expandTruncatedTime_in_day 0x5678 0x00123456); [lia | rewrite maxTOD_value; lia].
Defined.

(** C2 (section 4.4, S6): the result is the candidate among A, B and C that
    is closest to the reference, rejected candidates counting as [maxTOD]
    away, ties going to A and then to B; for [ref = 0x00123456] and
    [lsp = 0x5678] it is [0x00125678]. *)
Theorem expandTruncatedTime_picks_closest (lsp ref : Z) :
  0 <= lsp < 65536 -> 0 <= ref < maxTOD ->
  let T := expandTruncatedTime lsp ref in
  let a := candidateA lsp ref in
  let b := candidateB lsp ref in
  let c := candidateC lsp ref in
  T = closest_candidate lsp ref /\
  (T = a \/ T = b \/ T = c) /\
  candidate_distance ref T <= candidate_distance ref a /\
  candidate_distance ref T <= candidate_distance ref b /\
  candidate_distance ref T <= candidate_distance ref c /\
  (candidate_distance ref a = candidate_distance ref T -> T = a) /\
  (candidate_distance ref b = candidate_distance ref T -> T = a \/ T = b) /\
  expandTruncatedTime 0x5678 0x00123456 = 0x00125678.
Proof.
  intros Hl Hr T a b c. subst T.
  rewrite expandTruncatedTime_closest by assumption.
  split; [reflexivity |].
  unfold closest_candidate. cbv zeta. fold a b c.
  destruct (candidate_distance ref a <=? candidate_distance ref b) eqn:E1;
    destruct (candidate_distance ref a <=? candidate_distance ref c) eqn:E2;
    destruct (candidate_distance ref b <=? candidate_distance ref c) eqn:E3;
    simpl; repeat split; auto; try lia.
Qed.

Lemma expandTruncatedTime_picks_closest_witness :
  expandTruncatedTime 0xC000 (maxTOD - 1) = closest_candidate 0xC000 (maxTOD - 1) /\
  expandTruncatedTime 0xC000 (maxTOD - 1) = candidateC 0xC000 (maxTOD - 1).
Proof.
  split.
  - apply (expandTruncatedTime_picks_closest 0xC000 (maxTOD - 1));
      rewrite ?maxTOD_value; lia.
  - reflexivity.
Defined.

End Reconciler.

(** ** Item sizes *)

Section ItemSize.

Lemma land_one_testbit (b : Z) : (Z.land b 0x01 =? 0) = negb (Z.testbit b 0).
Proof.
  change 0x01 with (Z.ones 1). rewrite Z.land_ones by lia.
  change (2 ^ 1) with 2. rewrite <- Z.bit0_mod.
  destruct (Z.testbit b 0); reflexivity.
Qed.

Lemma wrap64_small (z : Z) : 0 <= z < 18446744073709551616 -> wrap64 z = z.
Proof.
  intros H. unfold wrap64. apply Z.mod_small.
  change (2 ^ 64) with 18446744073709551616. lia.
Qed.

(** The scan from a position [p]: it stops at the first reached index that
    is outside the view or whose byte has FX clear. *)
Lemma ext_scan_stops (i : Z) (data : view) (n : nat) :
  0 <= i < 256 -> view_size data < 2 ^ 63 ->
  forall (fuel : nat) (p : Z),
    (n < fuel)%nat -> 0 <= p ->
    (forall m : nat, (m < n)%nat ->
       p + Z.of_nat m * i < view_size data /\ fx_at data (p + Z.of_nat m * i) = true) ->
    (p + Z.of_nat n * i < view_size data -> fx_at data (p + Z.of_nat n * i) = false) ->
    ext_scan fuel i data p = Some (p + Z.of_nat n * i).
Proof.
  intros Hi Hsz. change (2 ^ 63) with 9223372036854775808 in Hsz.
  induction n as [| n IH]; intros fuel p Hfuel Hp Hset Hend.
  - destruct fuel as [| fuel]; [lia |]. simpl.
    replace (p + Z.of_nat 0 * i) with p in * by lia.
    destruct (p <? view_size data) eqn:E; [| reflexivity].
    rewrite land_one_testbit. fold (fx_at data p). rewrite Hend by lia. reflexivity.
  - destruct fuel as [| fuel]; [lia |]. simpl ext_scan.
    destruct (Hset 0%nat ltac:(lia)) as [Hin Hfx].
    replace (p + Z.of_nat 0 * i) with p in * by lia.
    destruct (p <? view_size data) eqn:E; [| lia].
    rewrite land_one_testbit. fold (fx_at data p). rewrite Hfx. simpl.
    rewrite wrap64_small by lia.
    replace (p + Z.of_nat (S n) * i) with (p + i + Z.of_nat n * i) by lia.
    apply IH; [lia | lia | |].
    + intros m Hm. specialize (Hset (S m) ltac:(lia)).
      replace (p + i + Z.of_nat m * i) with (p + Z.of_nat (S m) * i) by lia. exact Hset.
    + replace (p + i + Z.of_nat n * i) with (p + Z.of_nat (S n) * i) by lia. exact Hend.
Qed.

(** A scan that meets only FX bytes before it stops takes no more steps than
    the view has bytes. *)
Lemma scan_steps_bounded (i p : Z) (data : view) (n : nat) :
  0 <= i -> 0 <= p ->
  (forall m : nat, (m < n)%nat ->
     p + Z.of_nat m * i < view_size data /\ fx_at data (p + Z.of_nat m * i) = true) ->
  (p + Z.of_nat n * i < view_size data -> fx_at data (p + Z.of_nat n * i) = false) ->
  (n <= length data)%nat.
Proof.
  intros Hi Hp Hset Hend.
  destruct n as [| n]; [lia |].
  destruct (Hset n ltac:(lia)) as [Hin Hfx].
  destruct (Z.eq_dec i 0) as [-> | Hnz].
  - replace (p + Z.of_nat n * 0) with p in * by lia.
    replace (p + Z.of_nat (S n) * 0) with p in * by lia.
    rewrite Hend in Hfx by lia. discriminate.
  - unfold view_size in Hin. nia.
Qed.

Lemma ext_getSize_first_stop (k i : Z) (data : view) (n : nat) :
  0 <= k < 256 -> 0 <= i < 256 -> view_size data < 2 ^ 63 ->
  (forall m : nat, (m < n)%nat ->
     in_view data (reached k i m) /\ fx_at data (reached k i m) = true) ->
  (in_view data (reached k i n) -> fx_at data (reached k i n) = false) ->
  ext_getSize k i data =
    Some (if reached k i n <? view_size data then reached k i n + 1 else 0).
Proof.
  intros Hk Hi Hsz Hset Hend.
  pose proof Hsz as Hsz'. change (2 ^ 63) with 9223372036854775808 in Hsz'.
  assert (Hlen : 0 <= view_size data) by (unfold view_size; lia).
  destruct (Z.eq_dec k 0) as [-> | Hk0].
  - (* k = 0: [k - 1] wraps to the largest size_t *)
    assert (n = 0%nat) as ->.
    { destruct n as [| n]; [reflexivity |].
      destruct (Hset 0%nat ltac:(lia)) as [[Hneg _] _]. unfold reached in Hneg. lia. }
    unfold ext_getSize. change (wrap64 (0 - 1)) with 18446744073709551615.
    simpl ext_scan.
    destruct (18446744073709551615 <? view_size data) eqn:E; [lia |].
    change (wrap64 (18446744073709551615 + 1)) with 0.
    unfold reached.
    destruct (0 <=? view_size data) eqn:E1; [| lia].
    destruct (0 - 1 + Z.of_nat 0 * i <? view_size data) eqn:E2; f_equal; lia.
  - unfold ext_getSize. rewrite wrap64_small by lia.
    assert (Hset' : forall m : nat, (m < n)%nat ->
              k - 1 + Z.of_nat m * i < view_size data /\
              fx_at data (k - 1 + Z.of_nat m * i) = true).
    { intros m Hm. destruct (Hset m Hm) as [[_ H1] H2]. split; assumption. }
    assert (Hend' : k - 1 + Z.of_nat n * i < view_size data ->
              fx_at data (k - 1 + Z.of_nat n * i) = false).
    { intros H. apply Hend. unfold in_view, reached. lia. }
    assert (Hn : (n <= length data)%nat)
      by (apply (scan_steps_bounded i (k - 1) data n); auto; lia).
    rewrite (ext_scan_stops i data n Hi Hsz (S (length data)) (k - 1)); auto; try lia.
    fold (reached k i n).
    assert (Hr : 0 <= reached k i n < view_size data + 256).
    { unfold reached. split; [lia |].
      destruct n as [| n]; [lia |].
      destruct (Hset' n ltac:(lia)) as [H1 _]. lia. }
    rewrite wrap64_small by lia.
    destruct (reached k i n <? view_size data) eqn:E1;
      destruct (reached k i n + 1 <=? view_size data) eqn:E2; try reflexivity; lia.
Qed.

(** The size reported by a fixed-length handler is the constructor argument
    narrowed to a byte. *)
Lemma fixed_getSize_narrows (n : Z) (data : list Z) :
  fixed_getSize n data = Some (n mod 256).
Proof. reflexivity. Qed.

(** C9 (section 4.3): a fixed-length handler built with a byte [n] (the
    constructor takes a [uint8_t]) reports size [n] whatever the view holds;
    an extended-length handler built with
    [(k, i)] reports [j + 1] for the first index [j] reached from [k - 1] in
    steps of [i] whose byte has bit 0 clear, and 0 when the reached index
    leaves the view before such a byte is met. *)
Theorem getSize_fixed_and_extended :
  (forall (n : Z) (data : list Z), 0 <= n < 256 -> fixed_getSize n data = Some n) /\
  (forall (k i : Z) (data : list Z) (n : nat),
     0 <= k < 256 -> 0 <= i < 256 -> view_size data < 2 ^ 63 ->
     (forall m : nat, (m < n)%nat ->
        in_view data (reached k i m) /\ fx_at data (reached k i m) = true) ->
     (in_view data (reached k i n) -> fx_at data (reached k i n) = false ->
        ext_getSize k i data = Some (reached k i n + 1)) /\
     (~ in_view data (reached k i n) -> ext_getSize k i data = Some 0)).
Proof.
  split.
  { intros n data Hn. rewrite fixed_getSize_narrows, Z.mod_small by lia. reflexivity. }
  intros k i data n Hk Hi Hsz Hset. split.
  - intros Hin Hfx.
    rewrite (ext_getSize_first_stop k i data n) by auto.
    destruct Hin as [_ Hin]. apply Z.ltb_lt in Hin. rewrite Hin. reflexivity.
  - intros Hout.
    rewrite (ext_getSize_first_stop k i data n); auto; [| tauto].
    destruct (reached k i n <? view_size data) eqn:E; [| reflexivity].
    (* inside the bound but not in the view: the index is -1, for k = 0 *)
    f_equal. unfold in_view in Hout.
    assert (-1 <= reached k i n) by (unfold reached; nia).
    lia.
Qed.

Lemma getSize_fixed_and_extended_witness :
  fixed_getSize 4 [0x21; 0x03] = Some 4 /\
  ext_getSize 1 1 [0x21; 0x03; 0x40; 0x07] = Some 3 /\
  ext_getSize 1 1 [0x21; 0x03] = Some 0.
Proof.
  split; [| split].
  - apply (proj1 getSize_fixed_and_extended 4 [0x21; 0x03]). lia.
  - apply (proj2 getSize_fixed_and_extended 1 1 [0x21; 0x03; 0x40; 0x07] 2%nat); try lia.
    + reflexivity.
    + intros m Hm. destruct m as [| [| m]]; [| | lia]; (split; [split; reflexivity || discriminate | reflexivity]).
    + split; [discriminate | reflexivity].
    + reflexivity.
  - apply (proj2 getSize_fixed_and_extended 1 1 [0x21; 0x03] 2%nat); try lia.
    + reflexivity.
    + intros m Hm. destruct m as [| [| m]]; [| | lia]; (split; [split; reflexivity || discriminate | reflexivity]).
    + intros [_ H]. revert H. apply Z.le_ngt. discriminate.
Defined.

End ItemSize.

(** ** Diagnostics counters *)

Section Counters.

Lemma counter_fetch_add_same (c : Counter) (n : Z) (s : AsterixStats) :
  counter c (fetch_add c n s) = wrap64 (counter c s + n).
Proof. destruct c; reflexivity. Qed.

Lemma counter_fetch_add_other (c c' : Counter) (n : Z) (s : AsterixStats) :
  c <> c' -> counter c' (fetch_add c n s) = counter c' s.
Proof. intros H. destruct c, c'; try reflexivity; congruence. Qed.

Lemma wrap64_succ_ne (z : Z) : wrap64 (z + 1) <> z.
Proof.
  unfold wrap64. change (2 ^ 64) with 18446744073709551616.
  intros H. pose proof (Z.mod_pos_bound (z + 1) 18446744073709551616 ltac:(lia)) as Hb.
  pose proof (Z.div_mod (z + 1) 18446744073709551616 ltac:(lia)) as Hd.
  rewrite H in Hd. lia.
Qed.

End Counters.

(** ** The FSPEC walk *)

Section Walk.

Context {T : Type}.
Variable c : AsterixCategoryHandler T.

(** Inversion of a monadic bind that returned. *)
Lemma bind_returned {A B} (m : M A) (k : A -> M B) (w w' : World) (b : B) :
  bind m k w = Returned b w' ->
  exists a w1, m w = Returned a w1 /\ k a w1 = Returned b w'.
Proof.
  unfold bind. destruct (m w) as [a w1 | e w1 |]; try discriminate.
  intros H. exists a, w1. split; [reflexivity | exact H].
Qed.

Lemma abortWithStat_returns (k : Counter) (w : World) :
  abortWithStat k w = Returned 0 (set_stats (fetch_add k 1) w).
Proof. reflexivity. Qed.

Lemma sumZ_app (l1 l2 : list Z) : sumZ (l1 ++ l2) = sumZ l1 + sumZ l2.
Proof. induction l1 as [| x l1 IH]; simpl; [reflexivity | rewrite IH; lia]. Qed.

Lemma view_size_drop (v : list Z) (n : Z) :
  0 <= n <= view_size v -> view_size (drop (Z.to_nat n) v) = view_size v - n.
Proof. unfold view_size. intros H. rewrite length_drop. lia. Qed.

Lemma view_size_take (v : list Z) (n : Z) :
  0 <= n <= view_size v -> view_size (take (Z.to_nat n) v) = n.
Proof. unfold view_size. intros H. rewrite length_take. lia. Qed.

Lemma items_loop_ok (k : Counter) (fuel : nat) :
  k <> MalformedRecords -> k <> UnhandledItems ->
  forall frn_base itemBits st w early st' w',
    items_loop fuel c frn_base itemBits st w = Returned (early, st') w' ->
    walk_step_ok k st st' w w' /\ (early = None \/ early = Some 0).
Proof.
  intros Hk1 Hk2.
  induction fuel as [| fuel IH]; intros frn_base itemBits st w early st' w' H.
  - simpl in H. destruct (itemBits =? 0); [| discriminate].
    inversion H; subst. unfold walk_step_ok. repeat split; auto; lia.
  - simpl in H. destruct (itemBits =? 0).
    { inversion H; subst. unfold walk_step_ok. repeat split; auto; lia. }
    destruct (slot_at (itemLookup c) _) as [[p handler] |].
    + destruct (getSize handler (ws_remaining st)) as [n |]; [| discriminate].
      cbv zeta in H. set (itemSize := Z.of_N n) in *.
      destruct ((itemSize =? 0) || (itemSize >? view_size (ws_remaining st))) eqn:E.
      * inversion H; subst. split; [| auto]. split; [| split; [reflexivity | lia]].
        simpl. apply counter_fetch_add_other. congruence.
      * apply orb_false_iff in E as [E1 E2].
        destruct (decode handler _ _) as [e | context']; [discriminate |].
        apply IH in H as [(Hc & Hs & Hle) He]. split; [| exact He]. split; [exact Hc |].
        rewrite Hs. simpl in *. rewrite sumZ_app. simpl.
        assert (0 <= itemSize) by (subst itemSize; lia).
        rewrite view_size_drop in * by lia. lia.
    + inversion H; subst. split; [| auto]. split; [| split; [reflexivity | lia]].
      simpl. apply counter_fetch_add_other. congruence.
Qed.

Lemma fspec_loop_ok (k : Counter) (payload : list Z) :
  k <> MalformedRecords -> k <> UnhandledItems ->
  forall fspec frn_base st w r st' w',
    fspec_loop c payload fspec frn_base st w = Returned (r, st') w' ->
    walk_step_ok k st st' w w' /\
    (r = 0 \/ r = view_size payload - view_size (ws_remaining st')).
Proof.
  intros Hk1 Hk2.
  induction fspec as [| fspecByte rest IH]; intros frn_base st w r st' w' H.
  - inversion H; subst. split; [| auto]. split; [| split; [reflexivity | lia]].
    simpl. apply counter_fetch_add_other. congruence.
  - simpl in H. apply bind_returned in H as ([early st1] & w1 & Hitems & H).
    apply (items_loop_ok k 8 Hk1 Hk2) in Hitems as [(Hc & Hs & Hle) He].
    simpl in H. destruct He as [-> | ->].
    + destruct (Z.land fspecByte 1 =? 0).
      * inversion H; subst. split; [repeat split; assumption | auto].
      * apply IH in H as [(Hc' & Hs' & Hle') Hr]. split; [| exact Hr].
        split; [congruence | split; lia].
    + inversion H; subst. split; [repeat split; assumption | auto].
Qed.

Lemma mandatory_missing_true (fspec : list Z) :
  mandatory_missing c fspec = true <->
  exists i : nat, Z.of_nat i < mandatoryFspecSize c /\ missing_bits c fspec i <> 0.
Proof.
  unfold mandatory_missing. rewrite existsb_exists. split.
  - intros (i & Hin & Hi). exists i. apply in_seq in Hin.
    apply negb_true_iff, Z.eqb_neq in Hi. split; [lia | exact Hi].
  - intros (i & Hlt & Hi). exists i. split.
    + apply in_seq. lia.
    + apply negb_true_iff, Z.eqb_neq. exact Hi.
Qed.

Lemma internal_on_violation (fspec payload : list Z) (context : T) (w : World) :
  fspec_violation c fspec ->
  _processDataRecordInternal c fspec payload context w =
    Returned (0, mkWalk context payload [])
             (set_stats (fetch_add ProtocolViolations 1) w).
Proof.
  intros Hv. unfold _processDataRecordInternal.
  destruct (view_size fspec <? mandatoryFspecSize c) eqn:E; [reflexivity |].
  destruct Hv as [Hshort | Hbits]; [lia |].
  apply mandatory_missing_true in Hbits. rewrite Hbits. reflexivity.
Qed.

Lemma internal_without_violation (fspec payload : list Z) (context : T) :
  ~ fspec_violation c fspec ->
  _processDataRecordInternal c fspec payload context =
    fspec_loop c payload fspec 1 (mkWalk context payload []).
Proof.
  intros Hv. unfold _processDataRecordInternal.
  destruct (view_size fspec <? mandatoryFspecSize c) eqn:E.
  - exfalso. apply Hv. left. lia.
  - destruct (mandatory_missing c fspec) eqn:E2; [| reflexivity].
    exfalso. apply Hv. right. apply mandatory_missing_true. exact E2.
Qed.

Lemma fspec_violation_dec (fspec : list Z) :
  fspec_violation c fspec \/ ~ fspec_violation c fspec.
Proof.
  destruct (view_size fspec <? mandatoryFspecSize c) eqn:E.
  - left. left. lia.
  - destruct (mandatory_missing c fspec) eqn:E2.
    + left. right. apply mandatory_missing_true. exact E2.
    + right. intros [H | H]; [lia |].
      apply mandatory_missing_true in H. congruence.
Qed.

(** The byte count of a walk that returned, and what it did to a counter
    other than those the walk itself bumps. *)
Lemma internal_accounting (k : Counter) (fspec payload : list Z) (context : T)
    (w w' : World) (r : Z) (st : WalkState T) :
  k <> MalformedRecords -> k <> UnhandledItems -> k <> ProtocolViolations ->
  _processDataRecordInternal c fspec payload context w = Returned (r, st) w' ->
  counter k (stats w') = counter k (stats w) /\
  view_size (ws_remaining st) + sumZ (ws_decoded st) = view_size payload /\
  (r = 0 \/ r = view_size payload - view_size (ws_remaining st)).
Proof.
  intros Hk1 Hk2 Hk3 H.
  destruct (fspec_violation_dec fspec) as [Hv | Hv].
  - rewrite internal_on_violation in H by exact Hv. inversion H; subst.
    split; [| split; [simpl; lia | auto]].
    simpl. apply counter_fetch_add_other. congruence.
  - rewrite internal_without_violation in H by exact Hv.
    apply (fspec_loop_ok k payload Hk1 Hk2) in H as [(Hc & Hs & _) Hr].
    simpl in Hs. split; [exact Hc |]. split; [lia | exact Hr].
Qed.

End Walk.

(** C7 (section 4.2, steps 1 and 2): the walk returns 0 with
    [protocolViolations] incremented exactly when the received FSPEC is
    shorter than [mandatoryFspecSize] or lacks a mandatory bit in one of its
    first [mandatoryFspecSize] bytes; it then returns before any item is
    decoded, with the context and the payload as they were passed in and no
    other counter touched. *)
Theorem mandatory_check_rejects_exactly :
  forall (T : Type) (c : AsterixCategoryHandler T) (fspec payload : list Z)
         (context : T) (w : World),
    ((exists st w',
        _processDataRecordInternal c fspec payload context w = Returned (0, st) w' /\
        protocolViolations (stats w') = wrap64 (protocolViolations (stats w) + 1))
     <-> fspec_violation c fspec) /\
    (fspec_violation c fspec ->
     _processDataRecordInternal c fspec payload context w =
       Returned (0, mkWalk context payload [])
                (set_stats (fetch_add ProtocolViolations 1) w)).
Proof.
  intros T c fspec payload context w. split; [split |].
  - intros (st & w' & Hrun & Hpv).
    destruct (fspec_violation_dec c fspec) as [Hv | Hv]; [exact Hv | exfalso].
    rewrite internal_without_violation in Hrun by exact Hv.
    apply (fspec_loop_ok c ProtocolViolations payload) in Hrun as [(Hc & _) _];
      try discriminate.
    simpl in Hc. rewrite Hc in Hpv. symmetry in Hpv.
    exact (wrap64_succ_ne _ Hpv).
  - intros Hv. eexists _, _. split; [apply internal_on_violation; exact Hv |].
    reflexivity.
  - apply internal_on_violation.
Qed.

(** ** Records *)

Section Records.

Lemma Asterix1_built_on_template (h : Cat001.Asterix1Handler) :
  built_on_template (Asterix1 h) (Cat001.base h) new_Asterix1Report.
Proof.
  intros fspec payload w. simpl. unfold Cat001.processDataRecord, bind.
  destruct (_processDataRecordInternal _ _ _ _ w) as [[r st] w1 | e w1 |];
    [| reflexivity | reflexivity].
  simpl. destruct (r >? 0); eexists; reflexivity.
Qed.

Lemma Asterix2_built_on_template (h : Cat002.Asterix2Handler) :
  built_on_template (Asterix2 h) (Cat002.base h) new_Asterix2Report.
Proof.
  intros fspec payload w. simpl. unfold Cat002.processDataRecord, bind.
  destruct (_processDataRecordInternal _ _ _ _ w) as [[r st] w1 | e w1 |];
    [| reflexivity | reflexivity].
  simpl. destruct (r >? 0); eexists; reflexivity.
Qed.

(** The scan stops after at least one and at most all of the bytes left. *)
Lemma fspec_scan_bound (rest : list Z) :
  forall n li lv n' li' lv',
    fspec_scan rest n li lv = Some (n', li', lv') ->
    n < n' <= n + view_size rest.
Proof.
  unfold view_size.
  induction rest as [| b rest IH]; intros n li lv n' li' lv' H; [discriminate |].
  simpl in H. destruct (n >=? Constants.MAX_FSPEC_SIZE); [discriminate |].
  destruct (Z.land b Constants.FX_BIT =? 0).
  - inversion H; subst. simpl length. lia.
  - apply IH in H. simpl length. lia.
Qed.

(** What a successful scan has seen, from any starting state of its
    variables. *)
Lemma fspec_scan_shape (rest : list Z) :
  forall n li lv n' li' lv',
    0 <= n ->
    fspec_scan rest n li lv = Some (n', li', lv') ->
    n < n' <= Constants.MAX_FSPEC_SIZE /\ n' <= n + view_size rest /\
    (forall i : nat, n + Z.of_nat i < n' - 1 -> fx_at rest (Z.of_nat i) = true) /\
    fx_at rest (n' - 1 - n) = false /\
    ((li' = li /\ lv' = lv) \/ (n <= li' < n' /\ 1 < lv')).
Proof.
  unfold Constants.MAX_FSPEC_SIZE.
  induction rest as [| b rest IH]; intros n li lv n' li' lv' Hn H; [discriminate |].
  simpl in H. destruct (n >=? Constants.MAX_FSPEC_SIZE) eqn:E; [discriminate |].
  unfold Constants.MAX_FSPEC_SIZE in E.
  assert (Hsz : view_size (b :: rest) = 1 + view_size rest)
    by (unfold view_size; simpl length; lia).
  assert (Hpos : 0 <= view_size rest) by (unfold view_size; lia).
  rewrite Hsz. unfold Constants.FX_BIT in H. rewrite land_one_testbit in H.
  destruct (Z.testbit b 0) eqn:Hfx; simpl negb in H; cbv iota in H.
  - apply IH in H as (H1 & H2 & H3 & H4 & H5); [| lia].
    split; [lia |]. split; [lia |]. split; [| split].
    + intros i Hi. destruct i as [| i].
      * unfold fx_at, byte_at. simpl. exact Hfx.
      * specialize (H3 i ltac:(lia)). unfold fx_at, byte_at in *.
        destruct (Z.of_nat (S i) <? 0) eqn:E1; [apply Z.ltb_lt in E1; lia |].
        destruct (Z.of_nat i <? 0) eqn:E2; [apply Z.ltb_lt in E2; lia |].
        rewrite Nat2Z.id in *. simpl. exact H3.
    + unfold fx_at, byte_at in *.
      destruct (n' - 1 - n <? 0) eqn:E1; [lia |].
      destruct (n' - 1 - (n + 1) <? 0) eqn:E2; [lia |].
      replace (Z.to_nat (n' - 1 - n)) with (S (Z.to_nat (n' - 1 - (n + 1)))) by lia.
      simpl. exact H4.
    + destruct H5 as [[-> ->] | H5]; [| right; lia].
      destruct (b >? 1) eqn:E1; [right; lia | left; auto].
  - inversion H; subst. split; [lia |]. split; [lia |]. split; [| split].
    + intros i Hi. lia.
    + replace (n + 1 - 1 - n) with 0 by lia. unfold fx_at, byte_at. simpl. exact Hfx.
    + destruct (b >? 1) eqn:E1; [right; lia | left; auto].
Qed.

(** After a successful scan neither of the two rejections that follow it
    fires: the FSPEC has at most [MAX_FSPEC_SIZE] bytes, lies inside the
    view, and the record goes to the category handler. *)
Lemma dispatchRecord_after_scan (handler : IAsterixCategoryHandler)
    (recordView : list Z) (fspecSize li lv : Z) :
  fspec_scan recordView 0 0 0 = Some (fspecSize, li, lv) ->
  0 < fspecSize <= view_size recordView /\
  dispatchRecord recordView handler =
    (do consumed <- processDataRecord handler
                      (take (Z.to_nat fspecSize) recordView)
                      (drop (Z.to_nat fspecSize) recordView);
     if consumed >? 0 then ret (fspecSize + consumed) else ret 0).
Proof.
  intros Hscan. pose proof Hscan as H.
  apply fspec_scan_shape in H as (H1 & H2 & _ & _ & H5); [| lia].
  unfold Constants.MAX_FSPEC_SIZE in H1.
  assert (Hli : li <= 9) by (destruct H5 as [[-> _] | H5]; lia).
  assert (G1 : (lv >? 0) && ((li >? 18) || ((li =? 18) && negb (Z.land lv 0x3E =? 0)))
               = false).
  { destruct (li >? 18) eqn:E1; [lia |]. destruct (li =? 18) eqn:E2; [lia |].
    simpl. apply andb_false_r. }
  assert (G2 : (fspecSize >? view_size recordView) = false) by lia.
  split; [lia |].
  unfold dispatchRecord. rewrite Hscan, G1, G2. reflexivity.
Qed.

(** A record that was dispatched with a positive byte count. *)
Lemma dispatchRecord_positive (H : IAsterixCategoryHandler) (recordView : list Z)
    (w w' : World) (m : Z) :
  dispatchRecord recordView H w = Returned m w' -> 0 < m ->
  exists fspecSize li lv consumed,
    fspec_scan recordView 0 0 0 = Some (fspecSize, li, lv) /\
    0 < fspecSize <= view_size recordView /\
    processDataRecord H (take (Z.to_nat fspecSize) recordView)
                        (drop (Z.to_nat fspecSize) recordView) w = Returned consumed w' /\
    0 < consumed /\ m = fspecSize + consumed.
Proof.
  intros Hrun Hm. unfold dispatchRecord in Hrun.
  destruct (fspec_scan recordView 0 0 0) as [[[fspecSize li] lv] |] eqn:Hscan;
    [| inversion Hrun; lia].
  destruct ((lv >? 0) && _); [inversion Hrun; lia |].
  destruct (fspecSize >? view_size recordView) eqn:E; [inversion Hrun; lia |].
  apply bind_returned in Hrun as (consumed & w1 & Hp & Hrun).
  destruct (consumed >? 0) eqn:E2; inversion Hrun; subst; [| lia].
  exists fspecSize, li, lv, consumed.
  apply fspec_scan_bound in Hscan.
  repeat split; try lia. exact Hp.
Qed.

(** Scenario S5: the FSPEC [40] lacks the mandatory I001/010. *)
Lemma mandatory_check_rejects_exactly_witness :
  _processDataRecordInternal (Cat001.base Cat001.new_Asterix1Handler) [0x40] [0x20; 0x00]
      new_Asterix1Report initial_world =
    Returned (0, mkWalk new_Asterix1Report [0x20; 0x00] [])
             (set_stats (fetch_add ProtocolViolations 1) initial_world).
Proof.
  apply (proj2 (mandatory_check_rejects_exactly Asterix1Report
                  (Cat001.base Cat001.new_Asterix1Handler) [0x40] [0x20; 0x00]
                  new_Asterix1Report initial_world)).
  right. exists 0%nat. split; [reflexivity | vm_compute; discriminate].
Defined.

(** C8 (P2): when the FSPEC walk returns a positive count, that count is the
    payload length minus what remains, and is the sum of the sizes of the
    decoded items. For a record whose FSPEC the scan of [dispatchRecord]
    found and whose walk returns a positive count, [dispatchRecord] returns
    the FSPEC length plus that sum, the record view being the FSPEC followed
    by the payload; and [dispatchRecord] returns a positive count for no
    other record. *)
Theorem record_bytes_accounted :
  (forall (T : Type) (c : AsterixCategoryHandler T) (fspec payload : list Z)
          (context : T) (w w' : World) (r : Z) (st : WalkState T),
      _processDataRecordInternal c fspec payload context w = Returned (r, st) w' ->
      0 < r ->
      r = view_size payload - view_size (ws_remaining st) /\
      r = sumZ (ws_decoded st)) /\
  (forall (T : Type) (c : AsterixCategoryHandler T) (fresh : T)
          (H : IAsterixCategoryHandler) (recordView : list Z) (w w1 : World)
          (fspecSize li lv r : Z) (st : WalkState T),
      built_on_template H c fresh ->
      fspec_scan recordView 0 0 0 = Some (fspecSize, li, lv) ->
      _processDataRecordInternal c (take (Z.to_nat fspecSize) recordView)
          (drop (Z.to_nat fspecSize) recordView) fresh w = Returned (r, st) w1 ->
      0 < r ->
      recordView = take (Z.to_nat fspecSize) recordView ++
                   drop (Z.to_nat fspecSize) recordView /\
      view_size (take (Z.to_nat fspecSize) recordView) = fspecSize /\
      exists w' : World,
        dispatchRecord recordView H w =
          Returned (view_size (take (Z.to_nat fspecSize) recordView)
                    + sumZ (ws_decoded st)) w') /\
  (forall (T : Type) (c : AsterixCategoryHandler T) (fresh : T)
          (H : IAsterixCategoryHandler) (recordView : list Z) (w w' : World) (m : Z),
      built_on_template H c fresh ->
      dispatchRecord recordView H w = Returned m w' ->
      0 < m ->
      exists (fspec payload : list Z) (st : WalkState T) (w1 : World) (li lv : Z),
        recordView = fspec ++ payload /\
        fspec_scan recordView 0 0 0 = Some (view_size fspec, li, lv) /\
        _processDataRecordInternal c fspec payload fresh w =
          Returned (sumZ (ws_decoded st), st) w1 /\
        m = view_size fspec + sumZ (ws_decoded st)).
Proof.
  split; [| split].
  - intros T c fspec payload context w w' r st Hrun Hr.
    apply (internal_accounting c TotalPackets) in Hrun as (_ & Hs & Hret);
      try discriminate.
    destruct Hret as [-> | ->]; lia.
  - intros T c fresh H recordView w w1 fspecSize li lv r st Hbuilt Hscan Hwalk Hr.
    destruct (dispatchRecord_after_scan H recordView fspecSize li lv Hscan)
      as [Hsz Hrun].
    split; [symmetry; apply take_drop |].
    split; [apply view_size_take; lia |].
    rewrite view_size_take by lia.
    specialize (Hbuilt (take (Z.to_nat fspecSize) recordView)
                       (drop (Z.to_nat fspecSize) recordView) w).
    rewrite Hwalk in Hbuilt. destruct Hbuilt as (w' & Hb). cbn [fst] in Hb.
    apply (internal_accounting c TotalPackets) in Hwalk as (_ & Hs & Hret);
      try discriminate.
    assert (Hsum : r = sumZ (ws_decoded st)) by (destruct Hret as [-> | ->]; lia).
    exists w'. rewrite Hrun. unfold bind. rewrite Hb.
    destruct (r >? 0) eqn:E; [| lia]. rewrite Hsum. reflexivity.
  - intros T c fresh H recordView w w' m Hbuilt Hrun Hm.
    apply dispatchRecord_positive in Hrun
      as (fspecSize & li & lv & consumed & Hscan & Hsz & Hp & Hc & ->); [| exact Hm].
    specialize (Hbuilt (take (Z.to_nat fspecSize) recordView)
                       (drop (Z.to_nat fspecSize) recordView) w).
    destruct (_processDataRecordInternal c _ _ fresh w) as [[r st] w1 | e w1 |] eqn:Hint.
    + destruct Hbuilt as (w2 & Hb). simpl in Hb. rewrite Hb in Hp.
      injection Hp as <- <-.
      pose proof Hint as Hint'.
      apply (internal_accounting c TotalPackets) in Hint' as (_ & Hs & Hret);
        try discriminate.
      assert (Hr : r = sumZ (ws_decoded st)) by (destruct Hret as [-> | ->]; lia).
      exists (take (Z.to_nat fspecSize) recordView),
             (drop (Z.to_nat fspecSize) recordView), st, w1, li, lv.
      rewrite view_size_take by lia. rewrite <- Hr.
      repeat split; auto. symmetry. apply take_drop.
    + rewrite Hbuilt in Hp. discriminate.
    + rewrite Hbuilt in Hp. discriminate.
Qed.

(** Scenario S2's record: FSPEC [F8], items of 2, 1, 4, 2 and 2 bytes. *)
Lemma record_bytes_accounted_witness :
  exists w' : World,
    dispatchRecord
      [0xF8; 0x01; 0x02; 0x20; 0x00; 0x80; 0x40; 0x00; 0x00; 0x00; 0x00; 0x00]
      (Asterix1 Cat001.new_Asterix1Handler) initial_world = Returned (1 + 11) w'.
Proof.
  assert (Hwalk : exists (st : WalkState Asterix1Report) (w1 : World),
            _processDataRecordInternal (Cat001.base Cat001.new_Asterix1Handler)
              (take (Z.to_nat 1)
                 [0xF8; 0x01; 0x02; 0x20; 0x00; 0x80; 0x40; 0x00; 0x00; 0x00; 0x00; 0x00])
              (drop (Z.to_nat 1)
                 [0xF8; 0x01; 0x02; 0x20; 0x00; 0x80; 0x40; 0x00; 0x00; 0x00; 0x00; 0x00])
              new_Asterix1Report initial_world = Returned (11, st) w1 /\
            sumZ (ws_decoded st) = 11)
    by (do 2 eexists; split; [vm_compute; reflexivity | reflexivity]).
  destruct Hwalk as (st & w1 & Hwalk & Hsum).
  destruct (proj1 (proj2 record_bytes_accounted) Asterix1Report
              (Cat001.base Cat001.new_Asterix1Handler) new_Asterix1Report
              (Asterix1 Cat001.new_Asterix1Handler)
              [0xF8; 0x01; 0x02; 0x20; 0x00; 0x80; 0x40; 0x00; 0x00; 0x00; 0x00; 0x00]
              initial_world w1 1 0 0xF8 11 st
              (Asterix1_built_on_template Cat001.new_Asterix1Handler)
              ltac:(reflexivity) Hwalk ltac:(lia))
    as (_ & _ & w' & Hrun).
  exists w'. rewrite Hsum in Hrun. exact Hrun.
Defined.

End Records.

(** ** Registration and the mandatory mask *)

Section Registration.

Context {T : Type}.

Lemma byte_at_nat (l : list Z) (i : nat) : byte_at l (Z.of_nat i) = default 0 (l !! i).
Proof.
  unfold byte_at. destruct (Z.of_nat i <? 0) eqn:E; [apply Z.ltb_lt in E; lia |].
  rewrite Nat2Z.id. reflexivity.
Qed.

Lemma byte_at_insert (l : list Z) (j i x : Z) :
  0 <= j ->
  byte_at (<[Z.to_nat j := x]> l) i =
    if (i =? j) && (j <? view_size l) then x else byte_at l i.
Proof.
  intros Hj. unfold byte_at, view_size.
  destruct (i <? 0) eqn:Ei.
  - destruct (i =? j) eqn:E; [lia | reflexivity].
  - destruct (i =? j) eqn:E; simpl.
    + apply Z.eqb_eq in E. subst i.
      destruct (j <? Z.of_nat (length l)) eqn:E2.
      * rewrite list_lookup_insert_eq by lia. reflexivity.
      * rewrite list_insert_ge by lia. reflexivity.
    + rewrite list_lookup_insert_ne by lia. reflexivity.
Qed.

(** One registration: the mask keeps its length and its bits, the size does
    not shrink. *)
Lemma addHandler_monotone (h : option (addr * IAsterixDataItemHandler T)) (frn : N)
    (c : AsterixCategoryHandler T) :
  length (mandatoryFspec (addHandler h frn c)) = length (mandatoryFspec c) /\
  mandatoryFspecSize c <= mandatoryFspecSize (addHandler h frn c) /\
  forall i b, Z.testbit (byte_at (mandatoryFspec c) i) b = true ->
              Z.testbit (byte_at (mandatoryFspec (addHandler h frn c)) i) b = true.
Proof.
  unfold addHandler. destruct h as [[p hd] |]; [| split; [reflexivity | split; [lia | auto]]].
  cbv zeta. generalize (N2Z.is_nonneg frn). generalize (Z.of_N frn). clear frn.
  intros frn Hfrn.
  destruct ((frn =? 0) || (frn >? MAX_FRNS)) eqn:E;
    [split; [reflexivity | split; [lia | auto]] |].
  apply orb_false_iff in E as [E1 E2]. unfold MAX_FRNS in E2.
  destruct (isMandatory hd); simpl; [| split; [reflexivity | split; [lia | auto]]].
  split; [apply length_insert |]. split; [lia |].
  intros i b Hb. rewrite byte_at_insert by (apply Z.div_pos; lia).
  destruct ((i =? (frn - 1) / 7) && _) eqn:E3; [| exact Hb].
  apply andb_true_iff in E3 as [E3 _]. apply Z.eqb_eq in E3. subst i.
  rewrite Z.lor_spec, Hb. reflexivity.
Qed.

Lemma addHandlers_monotone (calls : list (option (addr * IAsterixDataItemHandler T) * N)) :
  forall c : AsterixCategoryHandler T,
    length (mandatoryFspec (addHandlers calls c)) = length (mandatoryFspec c) /\
    mandatoryFspecSize c <= mandatoryFspecSize (addHandlers calls c) /\
    forall i b, Z.testbit (byte_at (mandatoryFspec c) i) b = true ->
                Z.testbit (byte_at (mandatoryFspec (addHandlers calls c)) i) b = true.
Proof.
  induction calls as [| [h frn] calls IH]; intros c.
  - split; [reflexivity | split; [simpl; lia | auto]].
  - simpl. destruct (addHandler_monotone h frn c) as (L1 & S1 & B1).
    destruct (IH (addHandler h frn c)) as (L2 & S2 & B2).
    unfold addHandlers in *. simpl in *.
    split; [congruence |]. split; [lia | auto].
Qed.

(** Registering a mandatory handler sets its bit and covers its byte. *)
Lemma addHandler_sets_bit (p : addr) (hd : IAsterixDataItemHandler T) (f : Z)
    (c : AsterixCategoryHandler T) :
  length (mandatoryFspec c) = 20%nat -> isMandatory hd = true -> 1 <= f <= 128 ->
  Z.testbit (byte_at (mandatoryFspec (addHandler (Some (p, hd)) (Z.to_N f) c)) ((f - 1) / 7))
            (7 - (f - 1) mod 7) = true /\
  (f - 1) / 7 + 1 <= mandatoryFspecSize (addHandler (Some (p, hd)) (Z.to_N f) c).
Proof.
  intros Hlen Hm Hf. unfold addHandler. cbv zeta. rewrite Z2N.id by lia.
  destruct ((f =? 0) || (f >? MAX_FRNS)) eqn:E.
  { apply orb_true_iff in E. unfold MAX_FRNS in E. lia. }
  rewrite Hm. simpl.
  assert (Hidx : 0 <= (f - 1) / 7 < 20).
  { split; [apply Z.div_pos; lia | apply Z.div_lt_upper_bound; lia]. }
  assert (Hbit : 1 <= 7 - (f - 1) mod 7 <= 7).
  { pose proof (Z.mod_pos_bound (f - 1) 7 ltac:(lia)). lia. }
  split; [| lia].
  rewrite byte_at_insert by lia. unfold view_size. rewrite Hlen.
  change (Z.of_nat 20) with 20.
  rewrite Z.eqb_refl. destruct ((f - 1) / 7 <? 20) eqn:E2; [| lia]. simpl.
  rewrite Z.lor_spec. apply orb_true_iff. right.
  unfold wrap8. change (2 ^ 8) with (2 ^ 8). rewrite Z.mod_pow2_bits_low by lia.
  rewrite Z.shiftl_spec by lia.
  replace (7 - (f - 1) mod 7 - (7 - (f - 1) mod 7)) with 0 by lia. reflexivity.
Qed.

(** A set mask bit that the received FSPEC lacks is a violation. *)
Lemma missing_bit_violation (c : AsterixCategoryHandler T) (fspec : list Z) (i b : Z) :
  0 <= i -> 0 <= b -> i + 1 <= mandatoryFspecSize c ->
  Z.testbit (byte_at (mandatoryFspec c) i) b = true ->
  Z.testbit (byte_at fspec i) b = false ->
  fspec_violation c fspec.
Proof.
  intros Hi Hb Hsz Hmask Hrecv. right. exists (Z.to_nat i).
  split; [lia |]. unfold missing_bits.
  rewrite <- !byte_at_nat. rewrite Z2Nat.id by lia.
  intros Hzero.
  assert (Hbit : Z.testbit (Z.land (byte_at (mandatoryFspec c) i)
                                   (Z.lnot (byte_at fspec i))) b = true).
  { rewrite Z.land_spec, Z.lnot_spec by lia. rewrite Hmask, Hrecv. reflexivity. }
  rewrite Hzero, Z.bits_0 in Hbit. discriminate.
Qed.

End Registration.

(** C10: the mandatory mask only grows. Over any sequence of registrations
    the mask keeps every bit it has and [mandatoryFspecSize] does not
    decrease; once a mandatory handler has been registered at FRN [f], bit
    [7 - (f - 1) mod 7] of byte [(f - 1) / 7] stays set whatever is
    registered afterwards (also a non-mandatory handler at [f]), and a
    record whose FSPEC lacks that bit is rejected as a protocol violation. *)
Theorem mandatory_mask_only_grows :
  forall (T : Type) (c : AsterixCategoryHandler T),
    length (mandatoryFspec c) = 20%nat ->
    (forall calls,
        mandatoryFspecSize c <= mandatoryFspecSize (addHandlers calls c) /\
        forall i b, Z.testbit (byte_at (mandatoryFspec c) i) b = true ->
                    Z.testbit (byte_at (mandatoryFspec (addHandlers calls c)) i) b = true) /\
    (forall p hd f calls,
        isMandatory hd = true -> 1 <= f <= 128 ->
        let c' := addHandlers calls (addHandler (Some (p, hd)) (Z.to_N f) c) in
        Z.testbit (byte_at (mandatoryFspec c') ((f - 1) / 7)) (7 - (f - 1) mod 7) = true /\
        (f - 1) / 7 + 1 <= mandatoryFspecSize c' /\
        forall (fspec payload : list Z) (context : T) (w : World),
          Z.testbit (byte_at fspec ((f - 1) / 7)) (7 - (f - 1) mod 7) = false ->
          _processDataRecordInternal c' fspec payload context w =
            Returned (0, mkWalk context payload [])
                     (set_stats (fetch_add ProtocolViolations 1) w)).
Proof.
  intros T c Hlen. split.
  - intros calls. destruct (addHandlers_monotone calls c) as (_ & Hs & Hb). auto.
  - intros p hd f calls Hm Hf c'.
    destruct (addHandler_sets_bit p hd f c Hlen Hm Hf) as [Hbit Hsize].
    destruct (addHandlers_monotone calls (addHandler (Some (p, hd)) (Z.to_N f) c))
      as (_ & Hs & Hb).
    fold c' in Hs, Hb.
    assert (Hset : Z.testbit (byte_at (mandatoryFspec c') ((f - 1) / 7))
                             (7 - (f - 1) mod 7) = true) by auto.
    split; [exact Hset |]. split; [lia |].
    intros fspec payload context w Hlack.
    apply internal_on_violation.
    apply (missing_bit_violation c' fspec ((f - 1) / 7) (7 - (f - 1) mod 7)); auto.
    + apply Z.div_pos; lia.
    + pose proof (Z.mod_pos_bound (f - 1) 7 ltac:(lia)). lia.
    + lia.
Qed.

Lemma mandatory_mask_only_grows_witness :
  let c' := addHandlers [(Some (10%nat, Cat001.I001_131_Handler), 1%N)]
              (addHandler (Some (0%nat, Cat001.I001_010_Handler)) 1%N new_category) in
  Z.testbit (byte_at (mandatoryFspec c') 0) 7 = true /\
  1 <= mandatoryFspecSize c' /\
  _processDataRecordInternal c' [0x40] [0x00; 0x00] new_Asterix1Report initial_world =
    Returned (0, mkWalk new_Asterix1Report [0x00; 0x00] [])
             (set_stats (fetch_add ProtocolViolations 1) initial_world).
Proof.
  destruct (proj2 (mandatory_mask_only_grows Asterix1Report new_category eq_refl)
              0%nat Cat001.I001_010_Handler 1
              [(Some (10%nat, Cat001.I001_131_Handler), 1%N)] eq_refl ltac:(lia))
    as (Hbit & Hsize & Hreject).
  split; [exact Hbit |]. split; [exact Hsize |].
  apply Hreject. reflexivity.
Defined.

(** ** Packets *)

Section Packets.

Lemma ret_returned {A} (a b : A) (w w' : World) :
  ret a w = Returned b w' -> a = b /\ w = w'.
Proof. unfold ret. intros H. inversion H. auto. Qed.

Lemma counter_bump_other (k k' : Counter) (n : Z) (w : World) :
  k' <> k -> counter k (stats (set_stats (fetch_add k' n) w)) = counter k (stats w).
Proof. intros H. simpl. apply counter_fetch_add_other. exact H. Qed.

Lemma dispatchRecord_keeps (k : Counter) (h : IAsterixCategoryHandler) :
  keeps_counter k h ->
  forall recordView w r w',
    dispatchRecord recordView h w = Returned r w' ->
    counter k (stats w') = counter k (stats w).
Proof.
  intros Hk recordView w r w' H. unfold dispatchRecord in H.
  destruct (fspec_scan recordView 0 0 0) as [[[fspecSize li] lv] |];
    [| apply ret_returned in H as [_ <-]; reflexivity].
  destruct ((lv >? 0) && _); [apply ret_returned in H as [_ <-]; reflexivity |].
  destruct (fspecSize >? view_size recordView);
    [apply ret_returned in H as [_ <-]; reflexivity |].
  apply bind_returned in H as (consumed & w1 & Hp & H).
  apply Hk in Hp.
  destruct (consumed >? 0); apply ret_returned in H as [_ <-]; exact Hp.
Qed.

Lemma records_loop_keeps (k : Counter) (h : IAsterixCategoryHandler) :
  keeps_counter k h -> k <> RecordParseErrors ->
  forall fuel block length offset w u w',
    records_loop fuel block length h offset w = Returned u w' ->
    counter k (stats w') = counter k (stats w).
Proof.
  intros Hk Hne. induction fuel as [| fuel IH]; intros block length offset w u w' H.
  - simpl in H. destruct (offset <? length); [discriminate |].
    apply ret_returned in H as [_ <-]. reflexivity.
  - simpl in H. destruct (offset <? length);
      [| apply ret_returned in H as [_ <-]; reflexivity].
    apply bind_returned in H as (consumed & w1 & Hd & H).
    apply (dispatchRecord_keeps k h Hk) in Hd.
    destruct (consumed >? 0).
    + apply IH in H. congruence.
    + inversion H; subst. rewrite counter_bump_other by congruence. exact Hd.
Qed.

(** A block that was parsed: either it was refused (0), or its declared
    length was accepted and returned. *)
Lemma processDataBlock_ok (k : Counter) (ph : AsterixPacketHandler) :
  handlers_keep k ph -> k <> RecordParseErrors -> k <> UnhandledCategories ->
  forall block w b w',
    processDataBlock ph block w = Returned b w' ->
    counter k (stats w') = counter k (stats w) /\
    ((b = 0 /\ w' = w) \/
     (b = readBe16 block 1 /\ Constants.HEADER_SIZE <= b <= view_size block)).
Proof.
  intros Hk Hn1 Hn2 block w b w' H. unfold processDataBlock in H.
  destruct (view_size block <? Constants.HEADER_SIZE);
    [apply ret_returned in H as [<- <-]; auto |].
  destruct ((readBe16 block 1 <? Constants.HEADER_SIZE) ||
            (readBe16 block 1 >? view_size block)) eqn:E;
    [apply ret_returned in H as [<- <-]; auto |].
  apply orb_false_iff in E as [E1 E2].
  apply bind_returned in H as (u & w1 & Hbody & H).
  apply ret_returned in H as [<- <-].
  split; [| right; split; [reflexivity | lia]].
  destruct (categoryHandlers ph !! _) as [[[p h] |] |] eqn:Hlook.
  - apply (records_loop_keeps k h (Hk _ _ _ Hlook) Hn1) in Hbody. exact Hbody.
  - inversion Hbody; subst. apply counter_bump_other. congruence.
  - inversion Hbody; subst. apply counter_bump_other. congruence.
Qed.

Lemma blocks_loop_ok (k : Counter) (ph : AsterixPacketHandler) :
  handlers_keep k ph ->
  k <> RecordParseErrors -> k <> UnhandledCategories -> k <> MalformedBlocks ->
  forall fuel buffer acc w bs rest w',
    blocks_loop fuel ph buffer acc w = Returned (bs, rest) w' ->
    counter k (stats w') = counter k (stats w) /\
    exists new, bs = acc ++ new /\ splits_into buffer new rest.
Proof.
  intros Hk Hn1 Hn2 Hn3.
  induction fuel as [| fuel IH]; intros buffer acc w bs rest w' H.
  - simpl in H. destruct (view_size buffer >=? Constants.MIN_BLOCK_SIZE); [discriminate |].
    apply ret_returned in H as [H <-]. inversion H; subst.
    split; [reflexivity |]. exists []. rewrite app_nil_r. split; [reflexivity | constructor].
  - simpl in H. destruct (view_size buffer >=? Constants.MIN_BLOCK_SIZE).
    + apply bind_returned in H as (b & w1 & Hblock & H).
      apply (processDataBlock_ok k ph Hk Hn1 Hn2) in Hblock as [Hc Hb].
      destruct (b >? 0) eqn:E.
      * destruct Hb as [[-> _] | [Hb1 Hb2]]; [discriminate |].
        apply IH in H as [Hc' (new & -> & Hsplit)].
        split; [congruence |]. exists (b :: new).
        split; [rewrite <- app_assoc; reflexivity |].
        apply splits_block; auto.
      * apply bind_returned in H as (u & w2 & Hbump & H).
        apply ret_returned in H as [H <-]. inversion H; subst.
        inversion Hbump; subst.
        split; [rewrite counter_bump_other by congruence; exact Hc |].
        exists []. rewrite app_nil_r. split; [reflexivity | constructor].
    + apply ret_returned in H as [H <-]. inversion H; subst.
      split; [reflexivity |]. exists []. rewrite app_nil_r. split; [reflexivity | constructor].
Qed.

Lemma splits_into_sizes (buffer blocks rest : list Z) :
  splits_into buffer blocks rest ->
  sumZ blocks + view_size rest = view_size buffer /\
  Forall (fun b => Constants.HEADER_SIZE <= b) blocks.
Proof.
  induction 1 as [rest | buffer b bs rest Hb Hr Hs [IH1 IH2]].
  - split; [simpl; lia | constructor].
  - split; [| constructor; [lia | exact IH2]].
    unfold Constants.HEADER_SIZE in Hr.
    rewrite view_size_drop in IH1 by lia. simpl. lia.
Qed.

(** C3 (P1): when [handlePacket] returns, the buffer is the accepted blocks
    followed by a rest, the declared lengths of the blocks plus the length
    of that rest make the length of the buffer, and the length of the rest
    is what the call added to [trailingBytesCount]. *)
Theorem packet_bytes_accounted :
  forall (ph : AsterixPacketHandler) (data : list Z) (w w' : World) (blocks : list Z),
    handlers_keep TrailingBytesCount ph ->
    0 <= trailingBytesCount (stats w) < 2 ^ 64 ->
    handlePacket ph data w = Returned blocks w' ->
    exists rest : list Z,
      splits_into data blocks rest /\
      trailingBytesCount (stats w') =
        wrap64 (trailingBytesCount (stats w) + view_size rest) /\
      sumZ blocks + view_size rest = view_size data.
Proof.
  intros ph data w w' blocks Hkeep Hrange H. unfold handlePacket in H.
  assert (Hid : wrap64 (trailingBytesCount (stats w) + 0) = trailingBytesCount (stats w)).
  { unfold wrap64. rewrite Z.add_0_r. apply Z.mod_small. exact Hrange. }
  destruct (view_size data =? 0) eqn:E.
  - apply ret_returned in H as [<- <-].
    assert (data = []) as -> by (destruct data; [reflexivity | unfold view_size in E; simpl in E; lia]).
    exists []. split; [constructor |]. split; [exact (eq_sym Hid) | reflexivity].
  - apply bind_returned in H as (u & w1 & Hbump & H). inversion Hbump; subst w1. clear Hbump.
    apply bind_returned in H as ([bs rest] & w2 & Hloop & H).
    apply (blocks_loop_ok TrailingBytesCount ph Hkeep) in Hloop
      as [Hc (new & Hbs & Hsplit)]; try discriminate.
    simpl in Hbs. subst bs. simpl in H.
    apply bind_returned in H as (u' & w3 & Htrail & H).
    apply ret_returned in H as [<- <-].
    exists rest. split; [exact Hsplit |].
    split; [| apply splits_into_sizes; exact Hsplit].
    rewrite counter_bump_other in Hc by discriminate. simpl in Hc.
    destruct (negb (view_size rest =? 0)) eqn:E2.
    + inversion Htrail; subst. simpl. rewrite Hc. reflexivity.
    + apply ret_returned in Htrail as [_ <-]. rewrite Hc.
      apply negb_false_iff, Z.eqb_eq in E2. rewrite E2. exact (eq_sym Hid).
Qed.

(** The two category handlers of the library touch only the counters of the
    walk. *)
Lemma Asterix1_keeps (k : Counter) (h : Cat001.Asterix1Handler) :
  k <> MalformedRecords -> k <> UnhandledItems -> k <> ProtocolViolations ->
  keeps_counter k (Asterix1 h).
Proof.
  intros H1 H2 H3 fspec payload w w' r Hrun. simpl in Hrun.
  unfold Cat001.processDataRecord in Hrun.
  apply bind_returned in Hrun as ([r0 st] & w1 & Hint & Hrun).
  apply (internal_accounting (Cat001.base h) k) in Hint as (Hc & _); auto.
  simpl in Hrun. destruct (r0 >? 0).
  - inversion Hrun; subst. simpl. exact Hc.
  - apply ret_returned in Hrun as [_ <-]. exact Hc.
Qed.

Lemma Asterix2_keeps (k : Counter) (h : Cat002.Asterix2Handler) :
  k <> MalformedRecords -> k <> UnhandledItems -> k <> ProtocolViolations ->
  keeps_counter k (Asterix2 h).
Proof.
  intros H1 H2 H3 fspec payload w w' r Hrun. simpl in Hrun.
  unfold Cat002.processDataRecord in Hrun.
  apply bind_returned in Hrun as ([r0 st] & w1 & Hint & Hrun).
  apply (internal_accounting (Cat002.base h) k) in Hint as (Hc & _); auto.
  simpl in Hrun. destruct (r0 >? 0).
  - inversion Hrun; subst. simpl. exact Hc.
  - apply ret_returned in Hrun as [_ <-]. exact Hc.
Qed.

Lemma handlers_keep_new (k : Counter) : handlers_keep k new_AsterixPacketHandler.
Proof.
  intros cat p h H. unfold new_AsterixPacketHandler, categoryHandlers in H.
  apply lookup_replicate in H as [H _]. discriminate.
Qed.

Lemma handlers_keep_register (k : Counter) (category : Z) (p : addr)
    (h : IAsterixCategoryHandler) (ph : AsterixPacketHandler) :
  keeps_counter k h -> handlers_keep k ph ->
  handlers_keep k (registerCategoryHandler category (Some (p, h)) ph).
Proof.
  intros Hh Hph cat p' h' Hlook.
  unfold registerCategoryHandler in Hlook. cbn [categoryHandlers] in Hlook.
  apply list_lookup_insert_Some in Hlook as [(_ & Heq & _) | (_ & Hold)].
  - inversion Heq; subst. exact Hh.
  - exact (Hph _ _ _ Hold).
Qed.

Lemma cat001_receiver_keeps (k : Counter) :
  k <> MalformedRecords -> k <> UnhandledItems -> k <> ProtocolViolations ->
  handlers_keep k cat001_receiver.
Proof.
  intros H1 H2 H3. apply handlers_keep_register; [| apply handlers_keep_new].
  apply Asterix1_keeps; assumption.
Qed.

(** Scenario S2 followed by two stray bytes. *)
Lemma packet_bytes_accounted_witness :
  exists (w' : World) (rest : list Z),
    handlePacket cat001_receiver
      [0x01; 0x00; 0x0F; 0xF8; 0x01; 0x02; 0x20; 0x00; 0x80; 0x40; 0x00;
       0x00; 0x00; 0x00; 0x00; 0xAA; 0xBB] initial_world = Returned [15] w' /\
    splits_into
      [0x01; 0x00; 0x0F; 0xF8; 0x01; 0x02; 0x20; 0x00; 0x80; 0x40; 0x00;
       0x00; 0x00; 0x00; 0x00; 0xAA; 0xBB] [15] rest /\
    trailingBytesCount (stats w') =
      wrap64 (trailingBytesCount (stats initial_world) + view_size rest) /\
    sumZ [15] + view_size rest = 17.
Proof.
  eexists. 
  assert (Hrun : handlePacket cat001_receiver
      [0x01; 0x00; 0x0F; 0xF8; 0x01; 0x02; 0x20; 0x00; 0x80; 0x40; 0x00;
       0x00; 0x00; 0x00; 0x00; 0xAA; 0xBB] initial_world = Returned [15] ?[w'])
    by (vm_compute; reflexivity).
  destruct (packet_bytes_accounted cat001_receiver _ initial_world _ [15]
              (cat001_receiver_keeps TrailingBytesCount ltac:(discriminate)
                 ltac:(discriminate) ltac:(discriminate))
              ltac:(simpl; lia) Hrun) as (rest & Hsplit & Htrail & Hsum).
  exists rest. split; [exact Hrun |]. split; [exact Hsplit |].
  split; [exact Htrail | exact Hsum].
Defined.

Lemma processDataBlock_refuses (ph : AsterixPacketHandler) (block : list Z) (w : World) :
  readBe16 block 1 < Constants.HEADER_SIZE -> processDataBlock ph block w = Returned 0 w.
Proof.
  intros H. unfold processDataBlock.
  destruct (view_size block <? Constants.HEADER_SIZE); [reflexivity |].
  apply Z.ltb_lt in H. rewrite H. reflexivity.
Qed.

(** C4 (S4), as the code has it: a buffer of at least [MIN_BLOCK_SIZE] bytes
    whose first header declares less than [HEADER_SIZE] bytes is counted as
    one packet and one malformed block, no block is consumed and nothing of
    the rest is parsed, and the whole buffer is added to
    [trailingBytesCount]. *)
Theorem malformed_first_block :
  forall (ph : AsterixPacketHandler) (data : list Z) (w : World),
    Constants.MIN_BLOCK_SIZE <= view_size data ->
    readBe16 data 1 < Constants.HEADER_SIZE ->
    handlePacket ph data w =
      Returned []
        (set_stats (fetch_add TrailingBytesCount (view_size data))
           (set_stats (fetch_add MalformedBlocks 1)
              (set_stats (fetch_add TotalPackets 1) w))).
Proof.
  intros ph data w Hsize Hlen. unfold Constants.MIN_BLOCK_SIZE in Hsize.
  unfold handlePacket.
  destruct (view_size data =? 0) eqn:E; [lia |].
  assert (Hfuel : exists fuel, length data = S fuel).
  { destruct data as [| x data]; [unfold view_size in Hsize; simpl in Hsize; lia |].
    eexists; reflexivity. }
  destruct Hfuel as [fuel ->]. cbn [blocks_loop].
  destruct (view_size data >=? Constants.MIN_BLOCK_SIZE) eqn:E1;
    [| unfold Constants.MIN_BLOCK_SIZE in E1; lia].
  unfold bind, bump. rewrite processDataBlock_refuses by exact Hlen.
  change (0 >? 0) with false. cbv beta iota. unfold ret. cbn [fst snd].
  rewrite E. reflexivity.
Qed.

Lemma malformed_first_block_witness :
  handlePacket cat001_receiver [0x01; 0x00; 0x02; 0x80; 0x00; 0x00] initial_world =
    Returned []
      (set_stats (fetch_add TrailingBytesCount 6)
         (set_stats (fetch_add MalformedBlocks 1)
            (set_stats (fetch_add TotalPackets 1) initial_world))).
Proof.
  apply (malformed_first_block cat001_receiver
           [0x01; 0x00; 0x02; 0x80; 0x00; 0x00] initial_world).
  - vm_compute. discriminate.
  - reflexivity.
Defined.

(** On the input of S4 the call adds 6 to [trailingBytesCount]; on the same
    header cut to 4 bytes no block is parsed and [malformedBlocks] stays. *)
Lemma malformed_length_counts_trailing :
  match handlePacket cat001_receiver [0x01; 0x00; 0x02; 0x80; 0x00; 0x00] initial_world with
  | Returned _ w' =>
      malformedBlocks (stats w') = 1 /\
      trailingBytesCount (stats w') = 6 /\
      trailingBytesCount (stats w') <> trailingBytesCount (stats initial_world)
  | _ => False
  end /\
  match handlePacket cat001_receiver [0x01; 0x00; 0x02; 0x80] initial_world with
  | Returned _ w' =>
      malformedBlocks (stats w') = malformedBlocks (stats initial_world)
  | _ => False
  end.
Proof. vm_compute. repeat split; discriminate. Qed.

(** C6, as the code has it: on an empty buffer [handlePacket] returns at
    once and changes nothing, [totalPackets] included. *)
Theorem empty_packet_is_ignored :
  forall (ph : AsterixPacketHandler) (w : World), handlePacket ph [] w = Returned [] w.
Proof. reflexivity. Qed.

(** An empty buffer does not count as a packet. *)
Lemma empty_packet_not_counted :
  match handlePacket cat001_receiver [] initial_world with
  | Returned _ w' =>
      totalPackets (stats w') = totalPackets (stats initial_world) /\
      totalPackets (stats w') <> wrap64 (totalPackets (stats initial_world) + 1)
  | _ => False
  end.
Proof. vm_compute. split; [reflexivity | discriminate]. Qed.

(** The first octet of I001/020 with a reserved bit set makes the decoder
    throw. *)
Lemma I001_020_reserved_bits_throw (report : Asterix1Report) (data : list Z) :
  Z.land (byte_at data 0) 0xC0 <> 0 ->
  Cat001.I001_020_decode report data = inl uninterpretedItem.
Proof.
  intros H. unfold Cat001.I001_020_decode, Cat001.nonzero.
  apply Z.eqb_neq in H. rewrite H. reflexivity.
Qed.

(** C5: a category 001 record whose I001/020 first octet is [0x80] (reserved
    bit 7 set). The exception of the decoder leaves [handlePacket]; the
    packet was counted and no other counter moved. *)
Theorem reserved_bits_exception_escapes :
  handlePacket cat001_receiver [0x01; 0x00; 0x07; 0xC0; 0x01; 0x02; 0x80] initial_world =
    Thrown uninterpretedItem (set_stats (fetch_add TotalPackets 1) initial_world).
Proof. vm_compute. reflexivity. Qed.

End Packets.

(** ** The decoder comes back *)

(** The loops of the model carry a bound on their number of turns. The
    bounds are never reached when the item handlers report a size: the
    packet handler returns or leaves by an exception. *)

Section ComesBack.

Lemma clear_top_rank (b : Z) :
  0 < b < 256 ->
  0 <= clear_top b < 256 /\ (bit_rank (clear_top b) < bit_rank b)%nat.
Proof.
  intros Hb.
  assert (Hall : forallb (fun n : nat =>
                   let b := Z.of_nat n in
                   (0 <=? clear_top b) && (clear_top b <? 256) &&
                   (bit_rank (clear_top b) <? bit_rank b)%nat)
                 (seq 1 255) = true) by (vm_compute; reflexivity).
  rewrite forallb_forall in Hall.
  specialize (Hall (Z.to_nat b)). rewrite Z2Nat.id in Hall by lia.
  assert (Hin : In (Z.to_nat b) (seq 1 255)) by (apply in_seq; lia).
  apply Hall in Hin. apply andb_true_iff in Hin as [Hin H3].
  apply andb_true_iff in Hin as [H1 H2].
  apply Nat.ltb_lt in H3. lia.
Qed.

Lemma land_FE_range (x : Z) : 0 <= Z.land x 0xFE < 256.
Proof.
  replace (Z.land x 0xFE) with (Z.land (Z.land x 0xFE) (Z.ones 8))
    by (rewrite <- Z.land_assoc; reflexivity).
  rewrite Z.land_ones by lia. apply Z.mod_pos_bound. lia.
Qed.

Lemma bit_rank_byte (b : Z) : 0 <= b < 256 -> (bit_rank b <= 8)%nat.
Proof.
  intros Hb. unfold bit_rank.
  assert (Z.log2 (2 * b + 1) < 9) by (apply Z.log2_lt_pow2; lia). lia.
Qed.

Lemma bit_rank_positive (b : Z) : 0 < b -> (0 < bit_rank b)%nat.
Proof.
  intros Hb. unfold bit_rank.
  assert (0 < Z.log2 (2 * b + 1)) by (apply Z.log2_pos; lia). lia.
Qed.

Lemma slot_at_Some {A} (table : list (option A)) (index : Z) (x : A) :
  slot_at table index = Some x -> exists n : nat, table !! n = Some (Some x).
Proof.
  unfold slot_at. destruct (index <? 0); [discriminate |].
  destruct (table !! Z.to_nat index) as [o |] eqn:E; simpl; [| discriminate].
  intros ->. exists (Z.to_nat index). exact E.
Qed.

Section Table.

Context {T : Type}.
Variable c : AsterixCategoryHandler T.
Hypothesis Htotal : sizes_total c.

Lemma items_loop_comes_back :
  forall fuel frn_base itemBits st w,
    0 <= itemBits < 256 -> (bit_rank itemBits <= fuel)%nat ->
    view_size (ws_remaining st) < 65536 ->
    items_loop fuel c frn_base itemBits st w <> Diverges.
Proof.
  induction fuel as [| fuel IH]; intros frn_base itemBits st w Hb Hrank Hsz.
  - simpl. destruct (itemBits =? 0) eqn:E; [discriminate |].
    pose proof (bit_rank_positive itemBits ltac:(lia)). lia.
  - simpl. destruct (itemBits =? 0) eqn:E; [discriminate |].
    destruct (slot_at (itemLookup c) _) as [[p handler] |] eqn:Hlook; [| discriminate].
    apply slot_at_Some in Hlook as [slot Hlook].
    pose proof (proj1 (Forall_lookup _ _) Htotal _ _ Hlook (ws_remaining st) Hsz) as Hsize.
    destruct (getSize handler (ws_remaining st)) as [n |]; [| congruence].
    cbv zeta. set (itemSize := Z.of_N n).
    destruct ((itemSize =? 0) || (itemSize >? view_size (ws_remaining st))) eqn:E1;
      [discriminate |].
    destruct (decode handler _ _) as [e | context']; [discriminate |].
    fold (clear_top itemBits).
    destruct (clear_top_rank itemBits ltac:(lia)) as [Hr1 Hr2].
    apply IH; [exact Hr1 | lia |]. simpl.
    unfold view_size in *. rewrite length_drop. lia.
Qed.

Lemma fspec_loop_comes_back (payload : list Z) :
  forall fspec frn_base st w,
    view_size (ws_remaining st) < 65536 ->
    fspec_loop c payload fspec frn_base st w <> Diverges.
Proof.
  induction fspec as [| fspecByte rest IH]; intros frn_base st w Hsz; [discriminate |].
  cbn [fspec_loop]. unfold bind at 1.
  destruct (items_loop 8 c frn_base (Z.land fspecByte 254) st w)
    as [[early st'] w1 | e w1 |] eqn:Hitems; cbv beta iota; [| discriminate |].
  - simpl. destruct early as [r |]; [discriminate |].
    destruct (Z.land fspecByte 1 =? 0); [discriminate |].
    apply IH.
    apply (items_loop_ok c TotalPackets 8) in Hitems as [(_ & _ & Hle) _];
      try discriminate.
    lia.
  - exfalso. revert Hitems. apply items_loop_comes_back; [| | exact Hsz].
    + apply land_FE_range.
    + apply bit_rank_byte, land_FE_range.
Qed.

Lemma internal_comes_back (fspec payload : list Z) (context : T) (w : World) :
  view_size payload < 65536 ->
  _processDataRecordInternal c fspec payload context w <> Diverges.
Proof.
  intros Hsz. unfold _processDataRecordInternal.
  destruct (view_size fspec <? mandatoryFspecSize c); [discriminate |].
  destruct (mandatory_missing c fspec); [discriminate |].
  apply fspec_loop_comes_back. exact Hsz.
Qed.

End Table.

Lemma Asterix1_comes_back (h : Cat001.Asterix1Handler) :
  sizes_total (Cat001.base h) -> comes_back (Asterix1 h).
Proof.
  intros Ht fspec payload w Hsz. simpl. unfold Cat001.processDataRecord, bind.
  pose proof (internal_comes_back (Cat001.base h) Ht fspec payload
                new_Asterix1Report w Hsz) as Hint.
  destruct (_processDataRecordInternal _ _ _ _ w) as [[r st] w1 | e w1 |];
    cbv beta iota; [| discriminate | exfalso; exact (Hint eq_refl)].
  simpl. destruct (r >? 0); discriminate.
Qed.

Lemma Asterix2_comes_back (h : Cat002.Asterix2Handler) :
  sizes_total (Cat002.base h) -> comes_back (Asterix2 h).
Proof.
  intros Ht fspec payload w Hsz. simpl. unfold Cat002.processDataRecord, bind.
  pose proof (internal_comes_back (Cat002.base h) Ht fspec payload
                new_Asterix2Report w Hsz) as Hint.
  destruct (_processDataRecordInternal _ _ _ _ w) as [[r st] w1 | e w1 |];
    cbv beta iota; [| discriminate | exfalso; exact (Hint eq_refl)].
  simpl. destruct (r >? 0); discriminate.
Qed.

Lemma dispatchRecord_comes_back (h : IAsterixCategoryHandler) (recordView : list Z)
    (w : World) :
  comes_back h -> view_size recordView < 65536 ->
  dispatchRecord recordView h w <> Diverges.
Proof.
  intros Hh Hsz. unfold dispatchRecord.
  destruct (fspec_scan recordView 0 0 0) as [[[fspecSize li] lv] |]; [| discriminate].
  destruct ((lv >? 0) && _); [discriminate |].
  destruct (fspecSize >? view_size recordView); [discriminate |].
  unfold bind.
  pose proof (Hh (take (Z.to_nat fspecSize) recordView)
                 (drop (Z.to_nat fspecSize) recordView) w) as Hp.
  destruct (processDataRecord h _ _ w) as [consumed w1 | e w1 |]; cbv beta iota;
    [destruct (consumed >? 0); discriminate | discriminate |].
  exfalso. refine (Hp _ eq_refl). unfold view_size in *. rewrite length_drop. lia.
Qed.

Lemma records_loop_comes_back (h : IAsterixCategoryHandler) (block : list Z) (length : Z) :
  comes_back h -> length < 65536 ->
  forall fuel offset w,
    0 <= offset -> (Z.to_nat (length - offset) <= fuel)%nat ->
    records_loop fuel block length h offset w <> Diverges.
Proof.
  intros Hh Hlen. induction fuel as [| fuel IH]; intros offset w Hoff Hfuel.
  - simpl. destruct (offset <? length) eqn:E; [lia | discriminate].
  - simpl. destruct (offset <? length) eqn:E; [| discriminate].
    unfold bind.
    pose proof (dispatchRecord_comes_back h
                  (take (Z.to_nat (length - offset)) (drop (Z.to_nat offset) block)) w Hh)
      as Hd.
    destruct (dispatchRecord _ h w) as [consumed w1 | e w1 |]; cbv beta iota;
      [| discriminate |].
    + destruct (consumed >? 0) eqn:E1; [| discriminate].
      apply IH; lia.
    + exfalso. refine (Hd _ eq_refl). unfold view_size. rewrite length_take. lia.
Qed.

Lemma readBe16_range (sv : list Z) (offset : Z) : 0 <= readBe16 sv offset < 65536.
Proof. unfold readBe16, wrap16. apply Z.mod_pos_bound. reflexivity. Qed.

Lemma processDataBlock_comes_back (ph : AsterixPacketHandler) (block : list Z) (w : World) :
  handlers_come_back ph -> processDataBlock ph block w <> Diverges.
Proof.
  intros Hph. unfold processDataBlock.
  destruct (view_size block <? Constants.HEADER_SIZE); [discriminate |].
  destruct ((readBe16 block 1 <? Constants.HEADER_SIZE) || _); [discriminate |].
  pose proof (readBe16_range block 1) as Hr.
  unfold bind.
  destruct (categoryHandlers ph !! _) as [[[p h] |] |] eqn:Hlook;
    [| discriminate | discriminate].
  pose proof (records_loop_comes_back h block (readBe16 block 1) (Hph _ _ _ Hlook)
                ltac:(lia) (Z.to_nat (readBe16 block 1)) Constants.HEADER_SIZE w
                ltac:(unfold Constants.HEADER_SIZE; lia)
                ltac:(unfold Constants.HEADER_SIZE; lia)) as Hloop.
  destruct (records_loop _ _ _ h _ w) as [u w1 | e w1 |]; cbv beta iota;
    [discriminate | discriminate |].
  exfalso. exact (Hloop eq_refl).
Qed.

Lemma processDataBlock_length (ph : AsterixPacketHandler) (block : list Z)
    (w w' : World) (b : Z) :
  processDataBlock ph block w = Returned b w' ->
  b = 0 \/ Constants.HEADER_SIZE <= b <= view_size block.
Proof.
  intros H. unfold processDataBlock in H.
  destruct (view_size block <? Constants.HEADER_SIZE);
    [apply ret_returned in H as [<- _]; auto |].
  destruct ((readBe16 block 1 <? Constants.HEADER_SIZE) ||
            (readBe16 block 1 >? view_size block)) eqn:E;
    [apply ret_returned in H as [<- _]; auto |].
  apply orb_false_iff in E as [E1 E2].
  apply bind_returned in H as (u & w1 & _ & H).
  apply ret_returned in H as [<- _]. right. lia.
Qed.

Lemma blocks_loop_comes_back (ph : AsterixPacketHandler) :
  handlers_come_back ph ->
  forall fuel buffer acc w,
    (length buffer <= fuel)%nat ->
    blocks_loop fuel ph buffer acc w <> Diverges.
Proof.
  intros Hph. induction fuel as [| fuel IH]; intros buffer acc w Hfuel.
  - simpl. destruct (view_size buffer >=? Constants.MIN_BLOCK_SIZE) eqn:E; [| discriminate].
    unfold view_size, Constants.MIN_BLOCK_SIZE in E. lia.
  - simpl. destruct (view_size buffer >=? Constants.MIN_BLOCK_SIZE) eqn:E; [| discriminate].
    unfold bind at 1.
    pose proof (processDataBlock_comes_back ph buffer w Hph) as Hb.
    destruct (processDataBlock ph buffer w) as [b w1 | e w1 |] eqn:Hblock; cbv beta iota;
      [| discriminate | exfalso; exact (Hb eq_refl)].
    destruct (b >? 0) eqn:E1; [| discriminate].
    apply IH. apply processDataBlock_length in Hblock.
    unfold Constants.HEADER_SIZE, view_size in Hblock.
    rewrite length_drop. lia.
Qed.

(** [handlePacket] returns or throws. *)
Lemma handlePacket_comes_back (ph : AsterixPacketHandler) (data : list Z) (w : World) :
  handlers_come_back ph -> handlePacket ph data w <> Diverges.
Proof.
  intros Hph. unfold handlePacket.
  destruct (view_size data =? 0); [discriminate |].
  unfold bind, bump.
  pose proof (blocks_loop_comes_back ph Hph (length data) data []
                (set_stats (fetch_add TotalPackets 1) w) ltac:(lia)) as Hloop.
  destruct (blocks_loop (length data) ph data [] (set_stats (fetch_add TotalPackets 1) w))
    as [[bs rest] w1 | e w1 |]; cbv beta iota;
    [| discriminate | exfalso; exact (Hloop eq_refl)].
  cbn [fst snd]. destruct (negb (view_size rest =? 0)); discriminate.
Qed.

(** With a positive increment the extended-length scan ends. *)
Lemma ext_scan_total (i : Z) (data : list Z) :
  1 <= i < 256 -> view_size data < 2 ^ 63 ->
  forall fuel p,
    0 <= p -> (Z.to_nat (view_size data - p) < fuel)%nat ->
    ext_scan fuel i data p <> None.
Proof.
  intros Hi Hsz. change (2 ^ 63) with 9223372036854775808 in Hsz.
  induction fuel as [| fuel IH]; intros p Hp Hfuel; [lia |].
  simpl. destruct (p <? view_size data) eqn:E; [| discriminate].
  destruct (Z.land (byte_at data p) 1 =? 0); [discriminate |].
  rewrite wrap64_small by lia. apply IH; lia.
Qed.

Lemma ext_getSize_total (k i : Z) (data : list Z) :
  0 <= k < 256 -> 1 <= i < 256 -> view_size data < 2 ^ 63 ->
  ext_getSize k i data <> None.
Proof.
  intros Hk Hi Hsz. unfold ext_getSize.
  assert (Hlen : 0 <= view_size data) by (unfold view_size; lia).
  destruct (Z.eq_dec k 0) as [-> | Hk0].
  - change (wrap64 (0 - 1)) with 18446744073709551615. simpl ext_scan.
    change (2 ^ 63) with 9223372036854775808 in Hsz.
    destruct (18446744073709551615 <? view_size data) eqn:E; [lia | discriminate].
  - rewrite wrap64_small by lia.
    pose proof (ext_scan_total i data Hi Hsz (S (length data)) (k - 1) ltac:(lia)
                  ltac:(unfold view_size; lia)) as Hscan.
    destruct (ext_scan (S (length data)) i data (k - 1)); [discriminate | congruence].
Qed.

Lemma sizes_total_new {T} : sizes_total (@new_category T).
Proof. unfold sizes_total, new_category, itemLookup. apply Forall_replicate. exact I. Qed.

Lemma sizes_total_addHandler {T} (p : addr) (hd : IAsterixDataItemHandler T) (frn : N)
    (c : AsterixCategoryHandler T) :
  (forall data : list Z, view_size data < 65536 -> getSize hd data <> None) ->
  sizes_total c -> sizes_total (addHandler (Some (p, hd)) frn c).
Proof.
  intros Hhd Hc. unfold sizes_total, addHandler. cbv zeta.
  destruct ((Z.of_N frn =? 0) || (Z.of_N frn >? MAX_FRNS)); [exact Hc |].
  destruct (isMandatory hd); unfold itemLookup at 1; apply Forall_insert; auto.
Qed.

Lemma FixedLength_total {T} name mandatory length (dec : T -> list Z -> exn + T)
    (data : list Z) :
  getSize (FixedLength name mandatory length dec) data <> None.
Proof. discriminate. Qed.

Lemma ExtendedLength_total {T} name mandatory (dec : T -> list Z -> exn + T)
    (data : list Z) :
  view_size data < 65536 ->
  getSize (ExtendedLength name mandatory 1 1 dec) data <> None.
Proof.
  intros Hsz. simpl.
  pose proof (ext_getSize_total 1 1 data ltac:(lia) ltac:(lia)
                ltac:(change (2 ^ 63) with 9223372036854775808; lia)) as H.
  destruct (ext_getSize 1 1 data); [discriminate | congruence].
Qed.

Lemma Asterix1_sizes_total : sizes_total (Cat001.registerHandlers new_category).
Proof.
  unfold Cat001.registerHandlers, addHandlers. cbn [fold_left fst snd].
  repeat (apply sizes_total_addHandler;
          [intros data Hsz; first [apply FixedLength_total | apply ExtendedLength_total; exact Hsz]
          |]).
  apply sizes_total_new.
Qed.

Lemma Asterix2_sizes_total : sizes_total (Cat002.registerHandlers new_category).
Proof.
  unfold Cat002.registerHandlers, addHandlers. cbn [fold_left fst snd].
  repeat (apply sizes_total_addHandler;
          [intros data Hsz; first [apply FixedLength_total | apply ExtendedLength_total; exact Hsz]
          |]).
  apply sizes_total_new.
Qed.

Lemma handlers_come_back_new : handlers_come_back new_AsterixPacketHandler.
Proof.
  intros cat p h H. unfold new_AsterixPacketHandler, categoryHandlers in H.
  apply lookup_replicate in H as [H _]. discriminate.
Qed.

Lemma handlers_come_back_register (category : Z) (p : addr)
    (h : IAsterixCategoryHandler) (ph : AsterixPacketHandler) :
  comes_back h -> handlers_come_back ph ->
  handlers_come_back (registerCategoryHandler category (Some (p, h)) ph).
Proof.
  intros Hh Hph cat p' h' Hlook.
  unfold registerCategoryHandler in Hlook. cbn [categoryHandlers] in Hlook.
  apply list_lookup_insert_Some in Hlook as [(_ & Heq & _) | (_ & Hold)].
  - inversion Heq; subst. exact Hh.
  - exact (Hph _ _ _ Hold).
Qed.

(** The category 001 receiver returns or throws on every buffer. *)
Lemma cat001_receiver_comes_back (data : list Z) (w : World) :
  handlePacket cat001_receiver data w <> Diverges.
Proof.
  apply handlePacket_comes_back.
  apply handlers_come_back_register; [| apply handlers_come_back_new].
  apply Asterix1_comes_back. exact Asterix1_sizes_total.
Qed.

End ComesBack.

(** ** Scenarios of the specification, run on the model *)

Section Scenarios.

(** S2: one category 001 block with items 010, 020, 040, 070 and 090. *)
Example scenario_single_block :
  match handlePacket cat001_receiver
          [0x01; 0x00; 0x0F; 0xF8; 0x01; 0x02; 0x20; 0x00; 0x80; 0x40; 0x00;
           0x00; 0x00; 0x00; 0x00] initial_world with
  | Returned blocks w' =>
      blocks = [15] /\
      stats w' = mkStats 1 0 0 0 0 0 0 0 /\
      delivered1 w' =
        [(0%nat, mkReport1 (1, 2) 0 128 16384 (Some (0, false, false, false))
                   (Some (0, false, false)) 0 2 0 false false)]
  | _ => False
  end.
Proof. vm_compute. repeat split; reflexivity. Qed.

(** S3: a block of a category nobody handles is skipped cleanly. *)
Example scenario_unhandled_category :
  match handlePacket cat001_receiver [0x2A; 0x00; 0x05; 0x80; 0x00] initial_world with
  | Returned blocks w' => blocks = [5] /\ stats w' = mkStats 1 0 1 0 0 0 0 0
  | _ => False
  end.
Proof. vm_compute. split; reflexivity. Qed.

(** S5: a record without the mandatory I001/010 reaches no listener. *)
Example scenario_missing_mandatory :
  match handlePacket cat001_receiver [0x01; 0x00; 0x05; 0x40; 0x20] initial_world with
  | Returned blocks w' =>
      protocolViolations (stats w') = 1 /\ recordParseErrors (stats w') = 1 /\
      delivered1 w' = []
  | _ => False
  end.
Proof. vm_compute. repeat split; reflexivity. Qed.

(** A record that is refused takes the rest of its block with it: the
    second, well-formed record of this block is not decoded. *)
Example scenario_block_abandoned :
  match handlePacket cat001_receiver
          [0x01; 0x00; 0x09; 0x40; 0x20; 0xC0; 0x01; 0x02; 0x20] initial_world with
  | Returned blocks w' =>
      blocks = [9] /\ recordParseErrors (stats w') = 1 /\ delivered1 w' = []
  | _ => False
  end.
Proof. vm_compute. repeat split; reflexivity. Qed.

(** An extended-length handler with a zero increment never leaves its scan
    when the byte it looks at has FX set. *)
Example scenario_zero_increment : ext_getSize 1 0 [0x01; 0x00] = None.
Proof. reflexivity. Qed.

End Scenarios.

(** * Further properties of the decoder *)

(** ** The time reconciler as a round trip *)

Section ReconcilerRoundTrip.

Import Tod.

Lemma same_lsp_is_far (t X ref k : Z) :
  0 <= t < 11059200 -> 0 <= X < 11059200 -> 0 <= ref < 11059200 ->
  X = t + 65536 * k -> k <> 0 ->
  Z.min (Z.abs (t - ref)) (11059200 - Z.abs (t - ref)) < 24576 ->
  24576 < Z.min (Z.abs (X - ref)) (11059200 - Z.abs (X - ref)).
Proof. intros. lia. Qed.

(** Where a candidate with the low bits of [t] stands: it is [t], or it is
    further from the reference than [t] is. *)
Lemma candidate_is_time_or_far (t ref X k : Z) :
  0 <= t < maxTOD -> 0 <= ref < maxTOD -> 0 <= X ->
  X = t + 65536 * k ->
  circular_distance t ref < 24576 ->
  (X = t /\ candidate_distance ref X = circular_distance t ref) \/
  (X <> t /\ circular_distance t ref < candidate_distance ref X).
Proof.
  intros Ht Hr HX Hk Hd.
  destruct (candidate_facts ref X Hr HX) as (Rx & Jx & Vx).
  destruct (Z.eq_dec k 0) as [-> | Hk0].
  - left. assert (HXt : X = t) by lia. clear Hk. subst X. split; [reflexivity |]. apply Vx. lia.
  - right. split; [lia |].
    destruct (Z.lt_ge_cases X maxTOD) as [Hlt | Hge].
    + destruct (Vx Hlt) as [-> _]. unfold circular_distance in *.
      rewrite maxTOD_value in *.
      pose proof (same_lsp_is_far t X ref k Ht ltac:(lia) Hr Hk Hk0 Hd). lia.
    + rewrite (Jx Hge). unfold circular_distance in *. rewrite maxTOD_value in *. lia.
Qed.

(** X1: truncating a time of day to its low 16 bits and expanding it against
    a reference less than 24576 ticks (192 s) away on the circle of the day
    gives the time back. *)
Theorem expandTruncatedTime_recovers (t ref : Z) :
  0 <= t < maxTOD -> 0 <= ref < maxTOD ->
  circular_distance t ref < 24576 ->
  expandTruncatedTime (t mod 65536) ref = t.
Proof.
  intros Ht Hr Hd.
  assert (Hl : 0 <= t mod 65536 < 65536) by (apply Z.mod_pos_bound; lia).
  rewrite expandTruncatedTime_closest by assumption.
  destruct (candidates_closed_form (t mod 65536) ref Hl Hr) as (Hq & _ & HA & HB & HC).
  pose proof (Z.div_mod t 65536 ltac:(lia)) as Ht'.
  pose proof (Z.div_mod ref 65536 ltac:(lia)) as Hr'.
  pose proof (Z.mod_pos_bound ref 65536 ltac:(lia)) as Hrm.
  set (q := ref / 65536) in *. set (r := ref mod 65536) in *.
  set (lsp := t mod 65536) in *. set (qt := t / 65536) in *.
  assert (Hqt : 0 <= qt < 169).
  { subst qt. rewrite maxTOD_value in Ht.
    split; [apply Z.div_pos; lia | apply Z.div_lt_upper_bound; lia]. }
  assert (FA : exists k, candidateA lsp ref = t + 65536 * k /\ k = q - qt)
    by (exists (q - qt); lia).
  assert (FB : exists k, candidateB lsp ref = t + 65536 * k /\
                         k = if 0 <? q then q - 1 - qt else 168 - qt)
    by (rewrite HB; destruct (0 <? q) eqn:E; eexists; split; try reflexivity; lia).
  assert (FC : exists k, candidateC lsp ref = t + 65536 * k /\
                         k = if q <? 168 then q + 1 - qt else - qt)
    by (rewrite HC; destruct (q <? 168) eqn:E; eexists; split; try reflexivity; lia).
  destruct FA as (ka & EA & Hka). destruct FB as (kb & EB & Hkb). destruct FC as (kc & EC & Hkc).
  assert (Hone : ka = 0 \/ kb = 0 \/ kc = 0).
  { unfold circular_distance in Hd. rewrite maxTOD_value in *.
    destruct (0 <? q) eqn:E1; destruct (q <? 168) eqn:E2; lia. }
  assert (Hab : ka <> kb) by (destruct (0 <? q) eqn:E1; lia).
  assert (Hac : ka <> kc) by (destruct (q <? 168) eqn:E1; lia).
  assert (Hbc : kb <> kc) by (destruct (0 <? q) eqn:E1; destruct (q <? 168) eqn:E2; lia).
  assert (HA0 : 0 <= candidateA lsp ref) by lia.
  assert (HB0 : 0 <= candidateB lsp ref) by (rewrite HB; destruct (0 <? q) eqn:E; lia).
  assert (HC0 : 0 <= candidateC lsp ref) by (rewrite HC; destruct (q <? 168) eqn:E; lia).
  pose proof (candidate_is_time_or_far t ref _ ka Ht Hr HA0 EA Hd) as PA.
  pose proof (candidate_is_time_or_far t ref _ kb Ht Hr HB0 EB Hd) as PB.
  pose proof (candidate_is_time_or_far t ref _ kc Ht Hr HC0 EC Hd) as PC.
  unfold closest_candidate. cbv zeta.
  clear Hkb Hkc HA HB HC Ht' Hr'.
  destruct ((candidate_distance ref (candidateA lsp ref) <=?
             candidate_distance ref (candidateB lsp ref)) &&
            (candidate_distance ref (candidateA lsp ref) <=?
             candidate_distance ref (candidateC lsp ref))) eqn:E3;
  [apply andb_true_iff in E3 as [E3 E4] | apply andb_false_iff in E3];
  destruct (candidate_distance ref (candidateB lsp ref) <=?
            candidate_distance ref (candidateC lsp ref)) eqn:E5;
  lia.
Qed.

Lemma expandTruncatedTime_recovers_witness :
  expandTruncatedTime (100 mod 65536) (maxTOD - 100) = 100.
Proof.
  apply (expandTruncatedTime_recovers 100 (maxTOD - 100)).
  - rewrite maxTOD_value. lia.
  - rewrite maxTOD_value. lia.
  - vm_compute. reflexivity.
Defined.

(** X2: whatever 32-bit reference is stored for the source, inside the day
    or not, the expanded time is a 32-bit value whose low 16 bits are the
    transmitted ones. *)
Theorem expandTruncatedTime_keeps_lsp (lsp ref : Z) :
  0 <= lsp < 65536 -> 0 <= ref < 2 ^ 32 ->
  0 <= expandTruncatedTime lsp ref < 2 ^ 32 /\
  Z.land (expandTruncatedTime lsp ref) 0xFFFF = lsp.
Proof.
  intros Hl Hr. unfold expandTruncatedTime. cbv zeta.
  rewrite (land_msp_mask ref Hr). change (2 ^ 32) with 4294967296 in *.
  assert (Hq : 0 <= ref / 65536 < 65536)
    by (split; [apply Z.div_pos; lia | apply Z.div_lt_upper_bound; lia]).
  set (q := ref / 65536) in *.
  rewrite kTopMsp_value, !lor_window_lsp by lia. unfold kWindow.
  assert (HB : (if 65536 * q >? 0 then wrap32 (65536 * q + lsp - 65536)
                else 65536 * 168 + lsp) =
               65536 * (if 0 <? q then q - 1 else 168) + lsp).
  { destruct (65536 * q >? 0) eqn:E1; destruct (0 <? q) eqn:E2; try lia.
    rewrite wrap32_small by lia. lia. }
  assert (HC : (if 65536 * q <? 65536 * 168 then wrap32 (65536 * q + lsp + 65536)
                else lsp) =
               65536 * (if q <? 168 then q + 1 else 0) + lsp).
  { destruct (65536 * q <? 65536 * 168) eqn:E1; destruct (q <? 168) eqn:E2; try lia.
    rewrite wrap32_small by lia. lia. }
  rewrite HB, HC.
  assert (Hb : 0 <= (if 0 <? q then q - 1 else 168) < 65536)
    by (destruct (0 <? q) eqn:E; lia).
  assert (Hc : 0 <= (if q <? 168 then q + 1 else 0) < 65536)
    by (destruct (q <? 168) eqn:E; lia).
  set (d1 := getDist ref (65536 * q + lsp)).
  set (d2 := getDist ref _). 
  destruct (d2 <? d1); set (d3 := getDist ref _); destruct (d3 <? _);
    (split; [lia | apply land_low16; lia]).
Qed.

Lemma expandTruncatedTime_keeps_lsp_witness :
  0 <= expandTruncatedTime 0x1234 0xFFFFFF < 2 ^ 32 /\
  Z.land (expandTruncatedTime 0x1234 0xFFFFFF) 0xFFFF = 0x1234.
Proof.
  apply (expandTruncatedTime_keeps_lsp 0x1234 0xFFFFFF); [lia |].
  change (2 ^ 32) with 4294967296. lia.
Defined.

(** X3: the clock-derived reference is always inside the day, whatever the
    clock reads. *)
Theorem calculateCurrentTod_in_day (now : Z) :
  0 <= Cat001.calculateCurrentTod now < maxTOD.
Proof.
  unfold Cat001.calculateCurrentTod. cbv zeta.
  pose proof (Z.mod_pos_bound now (86400 * 1000000) ltac:(lia)) as Hm.
  set (micros := now mod (86400 * 1000000)) in *.
  assert (Hw : wrap64 (micros * 128) = micros * 128)
    by (unfold wrap64; apply Z.mod_small; change (2 ^ 64) with 18446744073709551616; lia).
  rewrite Hw.
  assert (Hd : 0 <= micros * 128 / 1000000 < 11059200).
  { split; [apply Z.div_pos; lia | apply Z.div_lt_upper_bound; lia]. }
  rewrite wrap32_small by lia. rewrite maxTOD_value. exact Hd.
Qed.

End ReconcilerRoundTrip.

(** ** The item decoders *)

Section Decoders.

(** A property checked on the 256 bytes holds of every byte. *)
Lemma byte_cases (P : Z -> bool) :
  forallb P all_bytes = true -> forall b : Z, 0 <= b < 256 -> P b = true.
Proof.
  intros Hall b Hb. rewrite forallb_forall in Hall. apply Hall.
  unfold all_bytes. apply in_map_iff. exists (Z.to_nat b).
  split; [lia | apply in_seq; lia].
Qed.

Lemma byte_pair_cases (P : Z -> Z -> bool) :
  forallb (fun a => forallb (P a) all_bytes) all_bytes = true ->
  forall a b : Z, 0 <= a < 256 -> 0 <= b < 256 -> P a b = true.
Proof.
  intros Hall a b Ha Hb.
  pose proof (byte_cases _ Hall a Ha) as Hrow. cbv beta in Hrow.
  exact (byte_cases _ Hrow b Hb).
Qed.

Lemma readBe16_bytes (sv : list Z) (offset : Z) :
  0 <= byte_at sv offset < 256 -> 0 <= byte_at sv (offset + 1) < 256 ->
  readBe16 sv offset = 256 * byte_at sv offset + byte_at sv (offset + 1).
Proof.
  intros Ha Hb. unfold readBe16.
  assert (Hall : forallb (fun a => forallb (fun b =>
                    wrap16 (Z.lor (Z.shiftl a 8) b) =? 256 * a + b) all_bytes) all_bytes
                 = true) by (vm_compute; reflexivity).
  apply Z.eqb_eq.
  exact (byte_pair_cases (fun a b => wrap16 (Z.lor (Z.shiftl a 8) b) =? 256 * a + b)
           Hall _ _ Ha Hb).
Qed.

(** X4: the big-endian 16-bit read is [256 * high + low] on bytes, and a
    16-bit value on anything. *)
Theorem readBe16_value (sv : list Z) (offset : Z) :
  0 <= readBe16 sv offset < 65536 /\
  (0 <= byte_at sv offset < 256 -> 0 <= byte_at sv (offset + 1) < 256 ->
   readBe16 sv offset = 256 * byte_at sv offset + byte_at sv (offset + 1)).
Proof. split; [apply readBe16_range | apply readBe16_bytes]. Qed.

Lemma readBe16_value_witness :
  readBe16 [0x01; 0x00; 0x0F; 0xF8] 1 = 256 * 0x00 + 0x0F.
Proof.
  apply (proj2 (readBe16_value [0x01; 0x00; 0x0F; 0xF8] 1)); vm_compute; split; congruence.
Defined.

(** X5: I001/020 throws exactly when a reserved bit of the first octet is
    set, or the first octet announces a second one that has a reserved bit
    or its own FX bit set; otherwise it stores the two SSR/PSR bits, raises
    SPI when bit 2 is set, stores the two DS1/DS2 bits of a second octet,
    and touches nothing else. *)
Theorem I001_020_decode_outcome (report : Asterix1Report) (data : list Z) :
  let octet1 := byte_at data 0 in
  let octet2 := byte_at data 1 in
  let rejected :=
    Z.land octet1 0xC0 <> 0 \/
    (Z.land octet1 0x01 <> 0 /\ (Z.land octet2 0x98 <> 0 \/ Z.land octet2 0x01 <> 0)) in
  (rejected -> Cat001.I001_020_decode report data = inl uninterpretedItem) /\
  (~ rejected ->
   Cat001.I001_020_decode report data =
     inr (mkReport1 (r1_sourceIdentifier report) (r1_TOD report) (r1_rawRange report)
            (r1_rawAzimuth report) (r1_mode3A report) (r1_ssrHeight report)
            (r1_todLSP report)
            (Z.shiftr (Z.land octet1 0x30) 4)
            (if Z.land octet1 0x01 =? 0 then r1_ds1ds2 report
             else Z.shiftr (Z.land octet2 0x60) 5)
            (negb (Z.land octet1 0x04 =? 0) || r1_spi report)
            (r1_hasLspClock report)) /\
   0 <= Z.shiftr (Z.land octet1 0x30) 4 <= 3 /\
   0 <= Z.shiftr (Z.land octet2 0x60) 5 <= 3).
Proof.
  cbv zeta. unfold Cat001.I001_020_decode, Cat001.nonzero. cbv zeta.
  set (octet1 := byte_at data 0). set (octet2 := byte_at data 1).
  split.
  - intros [H | [H1 [H | H]]].
    + apply Z.eqb_neq in H. rewrite H. reflexivity.
    + destruct (Z.land octet1 192 =? 0); [| reflexivity]. simpl.
      apply Z.eqb_neq in H1, H. rewrite H1, H. reflexivity.
    + destruct (Z.land octet1 192 =? 0); [| reflexivity]. simpl.
      apply Z.eqb_neq in H1, H. rewrite H1. simpl.
      destruct (Z.land octet2 152 =? 0); [| reflexivity]. simpl.
      rewrite H. reflexivity.
  - intros Hok. split.
    + destruct (Z.land octet1 192 =? 0) eqn:E1;
        [| exfalso; apply Hok; left; apply Z.eqb_neq; exact E1]. simpl.
      destruct (Z.land octet1 1 =? 0) eqn:E2; simpl.
      * destruct (Z.land octet1 4 =? 0); destruct report; reflexivity.
      * destruct (Z.land octet2 152 =? 0) eqn:E3;
          [| exfalso; apply Hok; right; split; [| left]; apply Z.eqb_neq; assumption].
        destruct (Z.land octet2 1 =? 0) eqn:E4;
          [| exfalso; apply Hok; right; split; [| right]; apply Z.eqb_neq; assumption].
        simpl. destruct (Z.land octet1 4 =? 0); destruct report; reflexivity.
    + assert (Hrange : forall x m n, 0 <= m -> 0 <= n ->
                0 <= Z.shiftr (Z.land x m) n <= Z.shiftr m n).
      { intros x m n Hm Hn. rewrite !Z.shiftr_div_pow2 by lia.
        assert (0 <= Z.land x m <= m).
        { split; [apply Z.land_nonneg; lia |].
          destruct (Z.eq_dec m 0) as [-> | Hm0]; [rewrite Z.land_0_r; lia |].
          replace (Z.land x m) with (m - Z.ldiff m x).
          - pose proof (proj2 (Z.ldiff_nonneg m x) (or_introl Hm)). lia.
          - rewrite (Z.land_comm x m).
            pose proof (Z.sub_nocarry_ldiff m (Z.ldiff m x)) as Hs.
            rewrite Hs.
            + apply Z.bits_inj'. intros k Hk.
              rewrite !Z.ldiff_spec, Z.land_spec.
              destruct (Z.testbit m k), (Z.testbit x k); reflexivity.
            + apply Z.bits_inj'. intros k Hk.
              rewrite !Z.ldiff_spec, Z.bits_0.
              destruct (Z.testbit m k), (Z.testbit x k); reflexivity. }
        split; [apply Z.div_pos; lia | apply Z.div_le_mono; lia]. }
      split; [apply (Hrange octet1 0x30 4); lia | apply (Hrange octet2 0x60 5); lia].
Qed.

Lemma I001_020_decode_outcome_witness :
  Cat001.I001_020_decode new_Asterix1Report [0x21; 0x43] = inl uninterpretedItem /\
  Cat001.I001_020_decode new_Asterix1Report [0x24] =
    inr (mkReport1 (0, 0) 0 0 0 None None 0 2 0 true false).
Proof.
  split.
  - apply (proj1 (I001_020_decode_outcome new_Asterix1Report [0x21; 0x43])).
    right. split; [vm_compute; discriminate | right; vm_compute; discriminate].
  - apply (proj2 (I001_020_decode_outcome new_Asterix1Report [0x24])).
    intros [H | [H _]]; vm_compute in H; congruence.
Defined.

(** X6: I001/090 on two bytes: validity and garbled are bits 15 and 14, and
    the height is the low 14 bits read as a two's complement number, so it
    lies in [-8192, 8192). *)
Theorem I001_090_decode_signed (report : Asterix1Report) (data : list Z) :
  0 <= byte_at data 0 < 256 -> 0 <= byte_at data 1 < 256 ->
  let raw := 256 * byte_at data 0 + byte_at data 1 in
  Cat001.I001_090_decode report data =
    inr (Cat001.setSSRHeight (signed14 raw) (Z.testbit raw 15) (Z.testbit raw 14) report) /\
  - 8192 <= signed14 raw < 8192.
Proof.
  intros Ha Hb raw. split.
  - unfold Cat001.I001_090_decode. cbv zeta.
    pose proof (readBe16_bytes data 0 Ha Hb) as Hread. change (0 + 1) with 1 in Hread.
    rewrite Hread. fold raw.
    assert (Hall : forallb (fun a => forallb (fun b =>
               let raw := 256 * a + b in
               let t := Z.land raw 0x3FFF in
               let t := if Cat001.nonzero (Z.land t 0x2000) then Z.lor t 0xC000 else t in
               ((if t <? 32768 then t else t - 65536) =? signed14 raw) &&
               eqb (Cat001.nonzero (Z.land raw 0x8000)) (Z.testbit raw 15) &&
               eqb (Cat001.nonzero (Z.land raw 0x4000)) (Z.testbit raw 14))
             all_bytes) all_bytes = true) by (vm_compute; reflexivity).
    pose proof (byte_pair_cases _ Hall _ _ Ha Hb) as H. cbv beta zeta in H. fold raw in H.
    apply andb_true_iff in H as [H H3]. apply andb_true_iff in H as [H1 H2].
    apply Z.eqb_eq in H1. apply eqb_prop in H2, H3.
    rewrite H1, H2, H3. reflexivity.
  - unfold signed14. cbv zeta.
    pose proof (Z.mod_pos_bound raw 16384 ltac:(lia)).
    destruct (raw mod 16384 <? 8192) eqn:E; lia.
Qed.

Lemma I001_090_decode_signed_witness :
  Cat001.I001_090_decode new_Asterix1Report [0xBF; 0xFF] =
    inr (Cat001.setSSRHeight (-1) true false new_Asterix1Report).
Proof.
  apply (proj1 (I001_090_decode_signed new_Asterix1Report [0xBF; 0xFF]
                  ltac:(vm_compute; split; congruence)
                  ltac:(vm_compute; split; congruence))).
Defined.

(** X7: I001/141 reads its two bytes through plain (signed) [char]: when
    the second byte is below 0x80 the stored clock is the big-endian value,
    and when it is 0x80 or more its sign extension fills the high byte, so
    the stored clock is [0xFF00 + second byte] whatever the first byte is. *)
Theorem I001_141_decode_sign_extends (report : Asterix1Report) (data : list Z) :
  0 <= byte_at data 0 < 256 -> 0 <= byte_at data 1 < 256 ->
  Cat001.I001_141_decode report data =
    inr (Cat001.set_lsp
           (if byte_at data 1 <? 128 then 256 * byte_at data 0 + byte_at data 1
            else 0xFF00 + byte_at data 1) report).
Proof.
  intros Ha Hb. unfold Cat001.I001_141_decode. cbv zeta.
  assert (Hall : forallb (fun a => forallb (fun b =>
             wrap16 (Z.lor (Z.shiftl (wrap16 (char_value a)) 8) (char_value b)) =?
             (if b <? 128 then 256 * a + b else 0xFF00 + b))
           all_bytes) all_bytes = true) by (vm_compute; reflexivity).
  pose proof (byte_pair_cases _ Hall _ _ Ha Hb) as H. cbv beta in H.
  apply Z.eqb_eq in H. rewrite H. reflexivity.
Qed.

Lemma I001_141_decode_sign_extends_witness :
  Cat001.I001_141_decode new_Asterix1Report [0x12; 0x80] =
    inr (Cat001.set_lsp 0xFF80 new_Asterix1Report).
Proof.
  apply (I001_141_decode_sign_extends new_Asterix1Report [0x12; 0x80]);
    vm_compute; split; congruence.
Defined.

(** X8: I002/030 stores the 24-bit big-endian value of its three bytes; the
    value is below 2^24 and is not compared with the length of the day. *)
Theorem I002_030_decode_value (context : Asterix2Report) (data : list Z) :
  0 <= byte_at data 0 < 256 -> 0 <= byte_at data 1 < 256 -> 0 <= byte_at data 2 < 256 ->
  Cat002.I002_030_decode context data =
    inr (mkReport2 (r2_sourceIdentifier context)
           (65536 * byte_at data 0 + 256 * byte_at data 1 + byte_at data 2)
           (r2_rawAntennaSpeed context)).
Proof.
  intros Ha Hb Hc. unfold Cat002.I002_030_decode. cbv zeta.
  set (a := byte_at data 0) in *. set (b := byte_at data 1) in *.
  set (c := byte_at data 2) in *.
  assert (Hab : Z.lor (Z.shiftl a 16) (Z.shiftl b 8) = Z.shiftl (256 * a + b) 8).
  { assert (Hall : forallb (fun a => forallb (fun b =>
               Z.lor (Z.shiftl a 16) (Z.shiftl b 8) =? Z.shiftl (256 * a + b) 8)
             all_bytes) all_bytes = true) by (vm_compute; reflexivity).
    apply Z.eqb_eq. exact (byte_pair_cases _ Hall _ _ Ha Hb). }
  rewrite Hab. rewrite Z.shiftl_mul_pow2 by lia. change (2 ^ 8) with 256.
  replace ((256 * a + b) * 256) with (256 * (256 * a + b)) by lia.
  assert (Hlor : Z.lor (256 * (256 * a + b)) c = 256 * (256 * a + b) + c).
  { replace (256 * (256 * a + b)) with (Z.shiftl (256 * a + b) 8)
      by (rewrite Z.shiftl_mul_pow2 by lia; change (2 ^ 8) with 256; lia).
    rewrite <- Z.lxor_lor.
    - rewrite <- Z.add_nocarry_lxor; [reflexivity |].
      apply Z.bits_inj'. intros n Hn. rewrite Z.land_spec, Z.bits_0.
      destruct (Z.lt_ge_cases n 8).
      + rewrite Z.shiftl_spec_low by lia. reflexivity.
      + destruct (Z.eq_dec c 0) as [-> | Hnz]; [rewrite Z.bits_0; apply andb_false_r |].
        rewrite (Z.bits_above_log2 c n); [apply andb_false_r | lia |].
        apply Z.lt_le_trans with 8; [apply Z.log2_lt_pow2; lia | lia].
    - apply Z.bits_inj'. intros n Hn. rewrite Z.land_spec, Z.bits_0.
      destruct (Z.lt_ge_cases n 8).
      + rewrite Z.shiftl_spec_low by lia. reflexivity.
      + destruct (Z.eq_dec c 0) as [-> | Hnz]; [rewrite Z.bits_0; apply andb_false_r |].
        rewrite (Z.bits_above_log2 c n); [apply andb_false_r | lia |].
        apply Z.lt_le_trans with 8; [apply Z.log2_lt_pow2; lia | lia]. }
  rewrite Hlor. f_equal. f_equal. lia.
Qed.

Lemma I002_030_decode_value_witness :
  Cat002.I002_030_decode new_Asterix2Report [0xFF; 0xFF; 0xFF] =
    inr (mkReport2 (0, 0) (65536 * 0xFF + 256 * 0xFF + 0xFF) 0).
Proof.
  apply (I002_030_decode_value new_Asterix2Report [0xFF; 0xFF; 0xFF]);
    vm_compute; split; congruence.
Defined.

(** X26: I001/070 on two bytes: the validity, garbled and local flags are
    bits 15, 14 and 13, and the code stored is the low 12 bits, below 4096,
    whatever the flags are. *)
Theorem I001_070_decode_value (report : Asterix1Report) (data : list Z) :
  0 <= byte_at data 0 < 256 -> 0 <= byte_at data 1 < 256 ->
  let raw := 256 * byte_at data 0 + byte_at data 1 in
  Cat001.I001_070_decode report data =
    inr (Cat001.setMode3A (raw mod 4096) (Z.testbit raw 15) (Z.testbit raw 14)
           (Z.testbit raw 13) report) /\
  0 <= raw mod 4096 < 4096.
Proof.
  intros Ha Hb raw. split; [| apply Z.mod_pos_bound; lia].
  unfold Cat001.I001_070_decode. cbv zeta.
  pose proof (readBe16_bytes data 0 Ha Hb) as Hread. change (0 + 1) with 1 in Hread.
  rewrite Hread. fold raw.
  assert (Hall : forallb (fun a => forallb (fun b =>
             let raw := 256 * a + b in
             (Z.land raw 0x0FFF =? raw mod 4096) &&
             eqb (Cat001.nonzero (Z.land raw 0x8000)) (Z.testbit raw 15) &&
             eqb (Cat001.nonzero (Z.land raw 0x4000)) (Z.testbit raw 14) &&
             eqb (Cat001.nonzero (Z.land raw 0x2000)) (Z.testbit raw 13))
           all_bytes) all_bytes = true) by (vm_compute; reflexivity).
  pose proof (byte_pair_cases _ Hall _ _ Ha Hb) as H. cbv beta zeta in H. fold raw in H.
  apply andb_true_iff in H as [H H4]. apply andb_true_iff in H as [H H3].
  apply andb_true_iff in H as [H1 H2].
  apply Z.eqb_eq in H1. apply eqb_prop in H2, H3, H4.
  rewrite H1, H2, H3, H4. reflexivity.
Qed.

Lemma I001_070_decode_value_witness :
  Cat001.I001_070_decode new_Asterix1Report [0xB2; 0x34] =
    inr (Cat001.setMode3A 0x234 true false true new_Asterix1Report).
Proof.
  apply (proj1 (I001_070_decode_value new_Asterix1Report [0xB2; 0x34]
                  ltac:(vm_compute; split; congruence)
                  ltac:(vm_compute; split; congruence))).
Defined.

End Decoders.

(** ** The FSPEC walk, item by item *)

Section WalkCount.

Context {T : Type}.
Variable c : AsterixCategoryHandler T.

Lemma clear_top_bits_set (b : Z) :
  0 < b < 256 -> bits_set (clear_top b) = bits_set b - 1.
Proof.
  intros Hb.
  assert (Hall : forallb (fun b => (b =? 0) || (bits_set (clear_top b) =? bits_set b - 1))
                   all_bytes = true) by (vm_compute; reflexivity).
  pose proof (byte_cases _ Hall b ltac:(lia)) as H. cbv beta in H.
  apply orb_true_iff in H as [H | H]; lia.
Qed.

Lemma bits_set_item_bits (x : Z) : bits_set (Z.land x 0xFE) = item_bits_set x.
Proof.
  unfold bits_set, item_bits_set, sumZ. cbn [map fold_right].
  rewrite !Z.land_spec.
  change (Z.testbit 254 7) with true. change (Z.testbit 254 6) with true.
  change (Z.testbit 254 5) with true. change (Z.testbit 254 4) with true.
  change (Z.testbit 254 3) with true. change (Z.testbit 254 2) with true.
  change (Z.testbit 254 1) with true. change (Z.testbit 254 0) with false.
  rewrite !andb_true_r, andb_false_r. cbn [Z.b2z]. lia.
Qed.

Lemma items_loop_count :
  forall fuel frn_base itemBits st w st' w',
    0 <= itemBits < 256 ->
    items_loop fuel c frn_base itemBits st w = Returned (None, st') w' ->
    Z.of_nat (length (ws_decoded st')) = Z.of_nat (length (ws_decoded st)) + bits_set itemBits /\
    (Forall (fun s => 0 < s) (ws_decoded st) -> Forall (fun s => 0 < s) (ws_decoded st')).
Proof.
  induction fuel as [| fuel IH]; intros frn_base itemBits st w st' w' Hb H.
  - simpl in H. destruct (itemBits =? 0) eqn:E; [| discriminate].
    apply Z.eqb_eq in E. subst. inversion H; subst.
    split; [change (bits_set 0) with 0; lia | auto].
  - simpl in H. destruct (itemBits =? 0) eqn:E.
    { apply Z.eqb_eq in E. subst. inversion H; subst.
      split; [change (bits_set 0) with 0; lia | auto]. }
    destruct (slot_at (itemLookup c) _) as [[p handler] |]; [| discriminate].
    destruct (getSize handler (ws_remaining st)) as [n |]; [| discriminate].
    cbv zeta in H. set (itemSize := Z.of_N n) in *.
    destruct ((itemSize =? 0) || (itemSize >? view_size (ws_remaining st))) eqn:E1;
      [discriminate |].
    apply orb_false_iff in E1 as [E1 E2].
    destruct (decode handler _ _) as [e | context']; [discriminate |].
    fold (clear_top itemBits) in H.
    destruct (clear_top_rank itemBits ltac:(lia)) as [Hr _].
    apply IH in H as [Hlen Hpos]; [| exact Hr]. simpl in Hlen, Hpos.
    rewrite length_app in Hlen. simpl in Hlen.
    rewrite clear_top_bits_set in Hlen by lia.
    split; [lia |]. intros Hall. apply Hpos. apply Forall_app. split; [exact Hall |].
    constructor; [| constructor]. subst itemSize. lia.
Qed.

Lemma fspec_loop_count (payload : list Z) :
  forall fspec frn_base st w r st' w',
    fspec_loop c payload fspec frn_base st w = Returned (r, st') w' ->
    0 < r ->
    Z.of_nat (length (ws_decoded st')) =
      Z.of_nat (length (ws_decoded st)) + fspec_item_count fspec /\
    (Forall (fun s => 0 < s) (ws_decoded st) -> Forall (fun s => 0 < s) (ws_decoded st')).
Proof.
  induction fspec as [| fspecByte rest IH]; intros frn_base st w r st' w' H Hr.
  - inversion H; subst. lia.
  - cbn [fspec_loop] in H. apply bind_returned in H as ([early st1] & w1 & Hitems & H).
    pose proof Hitems as Hitems'.
    apply (items_loop_ok c TotalPackets 8) in Hitems' as [_ He]; try discriminate.
    cbn [fst snd] in H. destruct He as [-> | ->];
      [| apply ret_returned in H as [H _]; inversion H; lia].
    apply items_loop_count in Hitems as [Hlen Hpos]; [| apply land_FE_range].
    rewrite bits_set_item_bits in Hlen.
    cbn [fspec_item_count]. rewrite land_one_testbit in H.
    destruct (Z.testbit fspecByte 0); simpl negb in H; cbv iota in H.
    + apply IH in H as [Hlen' Hpos']; [| exact Hr]. split; [lia | auto].
    + apply ret_returned in H as [H _]. inversion H; subst. split; [lia | auto].
Qed.

End WalkCount.

(** X9: a walk that returns a positive byte count has decoded exactly as
    many items as the FSPEC has item bits set, up to its first byte with FX
    clear, and every decoded item has a positive size. *)
Theorem walk_decodes_every_announced_item :
  forall (T : Type) (c : AsterixCategoryHandler T) (fspec payload : list Z)
         (context : T) (w w' : World) (r : Z) (st : WalkState T),
    _processDataRecordInternal c fspec payload context w = Returned (r, st) w' ->
    0 < r ->
    Z.of_nat (length (ws_decoded st)) = fspec_item_count fspec /\
    Forall (fun s => 0 < s) (ws_decoded st).
Proof.
  intros T c fspec payload context w w' r st Hrun Hr.
  destruct (fspec_violation_dec c fspec) as [Hv | Hv].
  - rewrite internal_on_violation in Hrun by exact Hv. inversion Hrun; subst. lia.
  - rewrite internal_without_violation in Hrun by exact Hv.
    apply fspec_loop_count in Hrun as [Hlen Hpos]; [| exact Hr].
    simpl in Hlen, Hpos. split; [lia | apply Hpos; constructor].
Qed.

Lemma walk_decodes_every_announced_item_witness :
  exists (st : WalkState Asterix1Report) (w' : World),
    _processDataRecordInternal (Cat001.base Cat001.new_Asterix1Handler) [0xF8]
      [0x01; 0x02; 0x20; 0x00; 0x80; 0x40; 0x00; 0x00; 0x00; 0x00; 0x00]
      new_Asterix1Report initial_world = Returned (11, st) w' /\
    Z.of_nat (length (ws_decoded st)) = fspec_item_count [0xF8] /\
    Forall (fun s => 0 < s) (ws_decoded st).
Proof.
  eexists _, _.
  assert (Hrun : _processDataRecordInternal (Cat001.base Cat001.new_Asterix1Handler) [0xF8]
      [0x01; 0x02; 0x20; 0x00; 0x80; 0x40; 0x00; 0x00; 0x00; 0x00; 0x00]
      new_Asterix1Report initial_world = Returned (11, ?[st]) ?[w'])
    by (vm_compute; reflexivity).
  split; [exact Hrun |].
  exact (walk_decodes_every_announced_item _ _ _ _ _ _ _ _ _ Hrun ltac:(lia)).
Defined.

(** ** The FSPEC scan of dispatchRecord *)

Section FspecScan.

(** A scan fails only when the view runs out, or ten bytes have gone by,
    with FX set on every byte met. *)
Lemma fspec_scan_fails (rest : list Z) :
  forall n li lv,
    0 <= n ->
    fspec_scan rest n li lv = None ->
    forall i : nat, n + Z.of_nat i < Constants.MAX_FSPEC_SIZE ->
                    Z.of_nat i < view_size rest -> fx_at rest (Z.of_nat i) = true.
Proof.
  unfold Constants.MAX_FSPEC_SIZE.
  induction rest as [| b rest IH]; intros n li lv Hn H i Hi Hlen.
  - unfold view_size in Hlen. simpl in Hlen. lia.
  - simpl in H. destruct (n >=? Constants.MAX_FSPEC_SIZE) eqn:E.
    { unfold Constants.MAX_FSPEC_SIZE in E. lia. }
    unfold Constants.FX_BIT in H. rewrite land_one_testbit in H.
    destruct (Z.testbit b 0) eqn:Hfx; simpl negb in H; cbv iota in H; [| discriminate].
    destruct i as [| i].
    + unfold fx_at, byte_at. simpl. exact Hfx.
    + assert (Hsz : view_size (b :: rest) = 1 + view_size rest)
        by (unfold view_size; simpl length; lia).
      pose proof (fun Hn => IH _ _ _ Hn H i) as IH'. clear IH.
      specialize (IH' ltac:(lia) ltac:(lia) ltac:(lia)). rename IH' into IH.
      unfold fx_at, byte_at in *.
      destruct (Z.of_nat (S i) <? 0) eqn:E1; [apply Z.ltb_lt in E1; lia |].
      destruct (Z.of_nat i <? 0) eqn:E2; [apply Z.ltb_lt in E2; lia |].
      rewrite Nat2Z.id in *. simpl. exact IH.
Qed.

(** X10: the FSPEC found by dispatchRecord has 1 to 10 bytes, all inside
    the record view, with FX set on every byte but the last; and when no
    FSPEC is found (the record is refused), every byte among the first ten
    of the view has FX set. *)
Theorem fspec_scan_finds_the_fspec (recordView : list Z) :
  (forall fspecSize li lv,
     fspec_scan recordView 0 0 0 = Some (fspecSize, li, lv) ->
     1 <= fspecSize <= 10 /\ fspecSize <= view_size recordView /\
     (forall i : nat, Z.of_nat i < fspecSize - 1 -> fx_at recordView (Z.of_nat i) = true) /\
     fx_at recordView (fspecSize - 1) = false) /\
  (fspec_scan recordView 0 0 0 = None ->
   forall i : nat, Z.of_nat i < 10 -> Z.of_nat i < view_size recordView ->
                   fx_at recordView (Z.of_nat i) = true).
Proof.
  split.
  - intros fspecSize li lv H.
    apply fspec_scan_shape in H as (H1 & H2 & H3 & H4 & _); [| lia].
    unfold Constants.MAX_FSPEC_SIZE in H1.
    split; [lia |]. split; [lia |]. split.
    + intros i Hi. apply H3. lia.
    + replace (fspecSize - 1) with (fspecSize - 1 - 0) by lia. exact H4.
  - intros H i Hi Hlen.
    apply (fspec_scan_fails recordView 0 0 0 ltac:(lia) H i); [| exact Hlen].
    unfold Constants.MAX_FSPEC_SIZE. lia.
Qed.

Lemma fspec_scan_finds_the_fspec_witness :
  1 <= 2 <= 10 /\ 2 <= view_size [0x81; 0x40; 0x07] /\
  (forall i : nat, Z.of_nat i < 2 - 1 -> fx_at [0x81; 0x40; 0x07] (Z.of_nat i) = true) /\
  fx_at [0x81; 0x40; 0x07] (2 - 1) = false.
Proof.
  apply (proj1 (fspec_scan_finds_the_fspec [0x81; 0x40; 0x07]) 2 1 0x40).
  reflexivity.
Defined.

(** X11: the two rejections that follow the scan never happen. The scan
    stops within [MAX_FSPEC_SIZE] = 10 bytes, so the last byte with an item
    bit has an index of at most 9 and the test against FRN 128 (index 18)
    is false, and the FSPEC never exceeds the view: a record is refused by
    dispatchRecord only when the scan fails or the category handler
    returns 0. *)
Theorem dispatchRecord_frn_check_is_dead (recordView : list Z)
    (handler : IAsterixCategoryHandler) :
  (forall fspecSize li lv,
     fspec_scan recordView 0 0 0 = Some (fspecSize, li, lv) ->
     (lv >? 0) && ((li >? 18) || ((li =? 18) && negb (Z.land lv 0x3E =? 0))) = false /\
     (fspecSize >? view_size recordView) = false /\
     dispatchRecord recordView handler =
       (do consumed <- processDataRecord handler
                         (take (Z.to_nat fspecSize) recordView)
                         (drop (Z.to_nat fspecSize) recordView);
        if consumed >? 0 then ret (fspecSize + consumed) else ret 0)) /\
  (fspec_scan recordView 0 0 0 = None -> dispatchRecord recordView handler = ret 0).
Proof.
  split.
  - intros fspecSize li lv H. pose proof H as Hscan.
    apply fspec_scan_shape in H as (H1 & H2 & _ & _ & H5); [| lia].
    unfold Constants.MAX_FSPEC_SIZE in H1.
    assert (Hli : li <= 9) by (destruct H5 as [[-> _] | H5]; lia).
    assert (G1 : (lv >? 0) && ((li >? 18) || ((li =? 18) && negb (Z.land lv 0x3E =? 0)))
                 = false).
    { destruct (li >? 18) eqn:E1; [lia |]. destruct (li =? 18) eqn:E2; [lia |].
      simpl. apply andb_false_r. }
    assert (G2 : (fspecSize >? view_size recordView) = false) by lia.
    split; [exact G1 |]. split; [exact G2 |].
    unfold dispatchRecord. rewrite Hscan, G1, G2. reflexivity.
  - intros H. unfold dispatchRecord. rewrite H. reflexivity.
Qed.

Lemma dispatchRecord_frn_check_is_dead_witness :
  dispatchRecord [0xFF; 0xFF; 0xFF; 0xFF; 0xFF; 0xFF; 0xFF; 0xFF; 0xFF; 0xFF; 0x00]
                 (Asterix1 Cat001.new_Asterix1Handler) = ret 0.
Proof.
  apply (proj2 (dispatchRecord_frn_check_is_dead
                  [0xFF; 0xFF; 0xFF; 0xFF; 0xFF; 0xFF; 0xFF; 0xFF; 0xFF; 0xFF; 0x00]
                  (Asterix1 Cat001.new_Asterix1Handler))).
  reflexivity.
Defined.

(** X12: a category handler derived from the template never makes
    dispatchRecord report more bytes than the record view holds, so the
    record loop of a block never steps past the declared length. *)
Theorem dispatchRecord_stays_in_view :
  forall (T : Type) (c : AsterixCategoryHandler T) (fresh : T)
         (H : IAsterixCategoryHandler) (recordView : list Z) (w w' : World) (m : Z),
    built_on_template H c fresh ->
    dispatchRecord recordView H w = Returned m w' ->
    0 <= m <= view_size recordView.
Proof.
  intros T c fresh H recordView w w' m Hbuilt Hrun.
  assert (Hlen : 0 <= view_size recordView) by (unfold view_size; lia).
  destruct (Z.le_gt_cases m 0) as [Hm | Hm].
  - assert (m = 0); [| lia].
    unfold dispatchRecord in Hrun.
    destruct (fspec_scan recordView 0 0 0) as [[[fspecSize li] lv] |] eqn:Hscan;
      [| apply ret_returned in Hrun as [<- _]; reflexivity].
    apply fspec_scan_bound in Hscan.
    destruct ((lv >? 0) && _); [apply ret_returned in Hrun as [<- _]; reflexivity |].
    destruct (fspecSize >? view_size recordView);
      [apply ret_returned in Hrun as [<- _]; reflexivity |].
    apply bind_returned in Hrun as (consumed & w1 & _ & Hrun).
    destruct (consumed >? 0) eqn:E; apply ret_returned in Hrun as [<- _]; [| reflexivity].
    lia.
  - apply dispatchRecord_positive in Hrun
      as (fspecSize & li & lv & consumed & Hscan & Hsz & Hp & Hc & ->); [| lia].
    specialize (Hbuilt (take (Z.to_nat fspecSize) recordView)
                       (drop (Z.to_nat fspecSize) recordView) w).
    destruct (_processDataRecordInternal c _ _ fresh w) as [[r st] w1 | e w1 |] eqn:Hint.
    + destruct Hbuilt as (w2 & Hb). simpl in Hb. rewrite Hb in Hp.
      injection Hp as <- <-.
      apply (internal_accounting c TotalPackets) in Hint as (_ & Hs & Hret);
        try discriminate.
      rewrite view_size_drop in Hs, Hret by lia.
      assert (0 <= view_size (ws_remaining st)) by (unfold view_size; lia).
      destruct Hret as [Hret | Hret]; lia.
    + rewrite Hbuilt in Hp. discriminate.
    + rewrite Hbuilt in Hp. discriminate.
Qed.

Lemma dispatchRecord_stays_in_view_witness :
  0 <= 12 <= view_size [0xF8; 0x01; 0x02; 0x20; 0x00; 0x80; 0x40; 0x00; 0x00; 0x00; 0x00; 0x00].
Proof.
  eapply (dispatchRecord_stays_in_view Asterix1Report
            (Cat001.base Cat001.new_Asterix1Handler) new_Asterix1Report
            (Asterix1 Cat001.new_Asterix1Handler) _ initial_world).
  - apply Asterix1_built_on_template.
  - vm_compute. reflexivity.
Defined.

End FspecScan.

(** ** Blocks *)

Section Blocks.

Lemma byte_at_app_l (b rest : list Z) (i : Z) :
  i < view_size b -> byte_at (b ++ rest) i = byte_at b i.
Proof.
  intros Hi. unfold byte_at, view_size in *.
  destruct (i <? 0) eqn:E; [reflexivity |].
  rewrite lookup_app_l by lia. reflexivity.
Qed.

Lemma readBe16_app_l (b rest : list Z) (offset : Z) :
  offset + 1 < view_size b -> readBe16 (b ++ rest) offset = readBe16 b offset.
Proof.
  intros H. unfold readBe16. rewrite !byte_at_app_l by lia. reflexivity.
Qed.

Lemma records_loop_local (h : IAsterixCategoryHandler) (b rest : list Z) (length : Z) :
  length <= view_size b ->
  forall fuel offset w,
    0 <= offset ->
    records_loop fuel (b ++ rest) length h offset w = records_loop fuel b length h offset w.
Proof.
  intros Hlen. induction fuel as [| fuel IH]; intros offset w Hoff; [reflexivity |].
  simpl. destruct (offset <? length) eqn:E; [| reflexivity].
  assert (Hview : take (Z.to_nat (length - offset)) (drop (Z.to_nat offset) (b ++ rest)) =
                  take (Z.to_nat (length - offset)) (drop (Z.to_nat offset) b)).
  { unfold view_size in Hlen.
    rewrite drop_app_le by lia. apply take_app_le. rewrite length_drop. lia. }
  rewrite Hview. unfold bind.
  destruct (dispatchRecord _ h w) as [consumed w1 | e w1 |]; [| reflexivity | reflexivity].
  destruct (consumed >? 0) eqn:E1; [| reflexivity].
  apply IH. lia.
Qed.

(** X13: a block is processed from its declared bytes alone: whatever
    follows a complete block in the buffer has no influence on the records
    decoded, the counters or the length returned. *)
Theorem processDataBlock_ignores_what_follows (ph : AsterixPacketHandler)
    (b rest : list Z) (w : World) :
  Constants.HEADER_SIZE <= view_size b -> readBe16 b 1 <= view_size b ->
  processDataBlock ph (b ++ rest) w = processDataBlock ph b w.
Proof.
  unfold Constants.HEADER_SIZE. intros Hhdr Hlen. unfold processDataBlock.
  assert (Hsz : view_size (b ++ rest) = view_size b + view_size rest)
    by (unfold view_size; rewrite length_app; lia).
  assert (Hrest : 0 <= view_size rest) by (unfold view_size; lia).
  rewrite readBe16_app_l, byte_at_app_l by lia.
  unfold Constants.HEADER_SIZE.
  destruct (view_size (b ++ rest) <? 3) eqn:E1; [lia |].
  destruct (view_size b <? 3) eqn:E2; [lia |].
  destruct (readBe16 b 1 <? 3) eqn:E3; [reflexivity |].
  destruct (readBe16 b 1 >? view_size (b ++ rest)) eqn:E4; [lia |].
  destruct (readBe16 b 1 >? view_size b) eqn:E5; [lia |].
  cbn [orb]. unfold bind.
  destruct (categoryHandlers ph !! _) as [[[p h] |] |]; [| reflexivity | reflexivity].
  rewrite records_loop_local by lia. reflexivity.
Qed.

Lemma processDataBlock_ignores_what_follows_witness :
  processDataBlock cat001_receiver
    ([0x01; 0x00; 0x07; 0xC0; 0x01; 0x02; 0x20] ++ [0x02; 0x00; 0x03]) initial_world =
  processDataBlock cat001_receiver [0x01; 0x00; 0x07; 0xC0; 0x01; 0x02; 0x20] initial_world.
Proof.
  apply (processDataBlock_ignores_what_follows cat001_receiver
           [0x01; 0x00; 0x07; 0xC0; 0x01; 0x02; 0x20] [0x02; 0x00; 0x03] initial_world);
    vm_compute; discriminate.
Defined.

(** A block that is refused has a declared length below the header size or
    beyond the bytes at hand. *)
Lemma processDataBlock_refused (ph : AsterixPacketHandler) (block : list Z) (w w' : World) :
  processDataBlock ph block w = Returned 0 w' ->
  Constants.HEADER_SIZE <= view_size block ->
  w' = w /\
  (readBe16 block 1 < Constants.HEADER_SIZE \/ view_size block < readBe16 block 1).
Proof.
  intros H Hsz. unfold processDataBlock in H.
  destruct (view_size block <? Constants.HEADER_SIZE) eqn:E; [lia |].
  destruct ((readBe16 block 1 <? Constants.HEADER_SIZE) ||
            (readBe16 block 1 >? view_size block)) eqn:E1.
  - apply ret_returned in H as [_ <-]. split; [reflexivity |].
    apply orb_true_iff in E1. lia.
  - apply orb_false_iff in E1 as [E1 E2].
    apply bind_returned in H as (u & w1 & _ & H).
    apply ret_returned in H as [H _]. unfold Constants.HEADER_SIZE in *. lia.
Qed.

(** How the block loop ends: with fewer than [MIN_BLOCK_SIZE] bytes left, or
    on a refused header, counted once. *)
Lemma blocks_loop_exit (ph : AsterixPacketHandler) :
  handlers_keep MalformedBlocks ph ->
  forall fuel buffer acc w bs rest w',
    blocks_loop fuel ph buffer acc w = Returned (bs, rest) w' ->
    (view_size rest < Constants.MIN_BLOCK_SIZE /\
     malformedBlocks (stats w') = malformedBlocks (stats w)) \/
    (Constants.MIN_BLOCK_SIZE <= view_size rest /\
     malformedBlocks (stats w') = wrap64 (malformedBlocks (stats w) + 1) /\
     (readBe16 rest 1 < Constants.HEADER_SIZE \/ view_size rest < readBe16 rest 1)).
Proof.
  intros Hk. unfold Constants.MIN_BLOCK_SIZE.
  induction fuel as [| fuel IH]; intros buffer acc w bs rest w' H.
  - simpl in H. destruct (view_size buffer >=? Constants.MIN_BLOCK_SIZE) eqn:E;
      [discriminate |].
    apply ret_returned in H as [H <-]. inversion H; subst.
    left. unfold Constants.MIN_BLOCK_SIZE in E. split; [lia | reflexivity].
  - simpl in H. destruct (view_size buffer >=? Constants.MIN_BLOCK_SIZE) eqn:E.
    + unfold Constants.MIN_BLOCK_SIZE in E.
      apply bind_returned in H as (b & w1 & Hblock & H).
      destruct (b >? 0) eqn:E1.
      * apply (processDataBlock_ok MalformedBlocks ph Hk) in Hblock as [Hc _];
          try discriminate.
        apply IH in H. simpl in Hc. rewrite Hc in H. exact H.
      * apply bind_returned in H as (u & w2 & Hbump & H).
        apply ret_returned in H as [H <-]. inversion H; subst.
        inversion Hbump; subst.
        pose proof (processDataBlock_length ph rest w w1 b Hblock) as Hb.
        assert (b = 0) by (unfold Constants.HEADER_SIZE in Hb; lia). subst b.
        apply processDataBlock_refused in Hblock as [-> Hwhy];
          [| unfold Constants.HEADER_SIZE; lia].
        right. split; [lia |]. split; [reflexivity | exact Hwhy].
    + apply ret_returned in H as [H <-]. inversion H; subst.
      left. unfold Constants.MIN_BLOCK_SIZE in E. split; [lia | reflexivity].
Qed.

Lemma splits_into_rest (buffer blocks rest : list Z) :
  splits_into buffer blocks rest -> rest = drop (Z.to_nat (sumZ blocks)) buffer.
Proof.
  induction 1 as [rest | buffer b bs rest Hb Hr Hs IH]; [reflexivity |].
  apply splits_into_sizes in Hs as [Hsum Hall].
  assert (0 <= sumZ bs).
  { clear -Hall. induction Hall as [| x l Hx Hl IH]; simpl; [lia |].
    unfold Constants.HEADER_SIZE in Hx. lia. }
  unfold Constants.HEADER_SIZE in Hr.
  rewrite IH. rewrite drop_drop. simpl sumZ. f_equal. lia.
Qed.

(** X14: a call of [handlePacket] on a non-empty buffer that returns has
    counted one packet. With [rest] the bytes after the consumed blocks:
    when fewer than [MIN_BLOCK_SIZE] bytes are left no malformed block is
    counted; otherwise exactly one is, and the header at the start of
    [rest] declares fewer than [HEADER_SIZE] bytes or more than are left. *)
Theorem handlePacket_counts (ph : AsterixPacketHandler) (data : list Z)
    (w w' : World) (blocks : list Z) :
  handlers_keep TotalPackets ph -> handlers_keep MalformedBlocks ph ->
  data <> [] ->
  handlePacket ph data w = Returned blocks w' ->
  let rest := drop (Z.to_nat (sumZ blocks)) data in
  totalPackets (stats w') = wrap64 (totalPackets (stats w) + 1) /\
  (view_size rest < Constants.MIN_BLOCK_SIZE ->
   malformedBlocks (stats w') = malformedBlocks (stats w)) /\
  (Constants.MIN_BLOCK_SIZE <= view_size rest ->
   malformedBlocks (stats w') = wrap64 (malformedBlocks (stats w) + 1) /\
   (readBe16 rest 1 < Constants.HEADER_SIZE \/ view_size rest < readBe16 rest 1)).
Proof.
  intros Hkt Hkm Hne H rest0. unfold handlePacket in H.
  destruct (view_size data =? 0) eqn:E.
  { destruct data; [congruence | unfold view_size in E; simpl in E; lia]. }
  apply bind_returned in H as (u & w1 & Hbump & H). inversion Hbump; subst w1. clear Hbump.
  apply bind_returned in H as ([bs rest] & w2 & Hloop & H).
  pose proof Hloop as Hloop1. pose proof Hloop as Hloop2.
  apply (blocks_loop_ok TotalPackets ph Hkt) in Hloop
    as [Hc (new & Hbs & Hsplit)]; try discriminate.
  apply (blocks_loop_exit ph Hkm) in Hloop1.
  simpl in Hbs. subst bs. cbn [fst snd] in H.
  apply bind_returned in H as (u' & w3 & Htrail & H).
  apply ret_returned in H as [<- <-].
  apply splits_into_rest in Hsplit. fold rest0 in Hsplit. subst rest0.
  assert (Hsame : stats w3 = stats w2 \/
                  stats w3 = fetch_add TrailingBytesCount (view_size rest) (stats w2)).
  { destruct (negb (view_size rest =? 0)).
    - inversion Htrail; subst. right. reflexivity.
    - apply ret_returned in Htrail as [_ <-]. left. reflexivity. }
  assert (Ht : totalPackets (stats w3) = totalPackets (stats w2))
    by (destruct Hsame as [-> | ->]; reflexivity).
  assert (Hm : malformedBlocks (stats w3) = malformedBlocks (stats w2))
    by (destruct Hsame as [-> | ->]; reflexivity).
  rewrite Ht, Hm. simpl in Hc. rewrite <- Hsplit.
  split; [exact Hc |].
  simpl in Hloop1.
  unfold Constants.MIN_BLOCK_SIZE in *.
  destruct Hloop1 as [[Ha Hb] | (Ha & Hb & Hc')].
  - split; intros Hsz; [exact Hb | lia].
  - split; intros Hsz; [lia | split; [exact Hb | exact Hc']].
Qed.

Lemma handlePacket_counts_witness :
  exists w',
    handlePacket cat001_receiver
      [0x2A; 0x00; 0x05; 0x80; 0x00; 0x01; 0x00; 0x02; 0x80; 0x00; 0x00] initial_world
      = Returned [5] w' /\
    totalPackets (stats w') = wrap64 (totalPackets (stats initial_world) + 1) /\
    malformedBlocks (stats w') = wrap64 (malformedBlocks (stats initial_world) + 1).
Proof.
  eexists.
  assert (Hrun : handlePacket cat001_receiver
      [0x2A; 0x00; 0x05; 0x80; 0x00; 0x01; 0x00; 0x02; 0x80; 0x00; 0x00] initial_world
      = Returned [5] ?[w']) by (vm_compute; reflexivity).
  split; [exact Hrun |].
  assert (Hkt : handlers_keep TotalPackets cat001_receiver)
    by (apply cat001_receiver_keeps; discriminate).
  assert (Hkm : handlers_keep MalformedBlocks cat001_receiver)
    by (apply cat001_receiver_keeps; discriminate).
  assert (Hne : [0x2A; 0x00; 0x05; 0x80; 0x00; 0x01; 0x00; 0x02; 0x80; 0x00; 0x00] <> [])
    by discriminate.
  destruct (handlePacket_counts cat001_receiver
              [0x2A; 0x00; 0x05; 0x80; 0x00; 0x01; 0x00; 0x02; 0x80; 0x00; 0x00]
              initial_world _ [5] Hkt Hkm Hne Hrun) as (Ht & _ & Hm).
  split; [exact Ht |]. apply Hm. vm_compute. discriminate.
Defined.

(** X15: a buffer that is exactly one block of a category without a handler
    is consumed whole: one packet and one unhandled category are counted,
    and nothing else changes. *)
Theorem unhandled_block_is_skipped (ph : AsterixPacketHandler) (data : list Z) (w : World) :
  Constants.MIN_BLOCK_SIZE <= view_size data ->
  readBe16 data 1 = view_size data ->
  (forall p h, categoryHandlers ph !! Z.to_nat (byte_at data 0) <> Some (Some (p, h))) ->
  handlePacket ph data w =
    Returned [view_size data]
      (set_stats (fetch_add UnhandledCategories 1)
         (set_stats (fetch_add TotalPackets 1) w)).
Proof.
  unfold Constants.MIN_BLOCK_SIZE. intros Hsize Hlen Hnone. unfold handlePacket.
  destruct (view_size data =? 0) eqn:E; [lia |].
  assert (Hblock : forall w0, processDataBlock ph data w0 =
             Returned (view_size data) (set_stats (fetch_add UnhandledCategories 1) w0)).
  { intros w0. unfold processDataBlock, Constants.HEADER_SIZE. rewrite Hlen.
    destruct (view_size data <? 3) eqn:E1; [lia |].
    destruct (view_size data >? view_size data) eqn:E2; [lia |]. cbn [orb].
    unfold bind.
    destruct (categoryHandlers ph !! _) as [[[p h] |] |] eqn:Hlook;
      [exfalso; exact (Hnone p h eq_refl) | reflexivity | reflexivity]. }
  assert (Hfuel : exists fuel, length data = S fuel).
  { destruct data as [| x data]; [unfold view_size in Hsize; simpl in Hsize; lia |].
    eexists; reflexivity. }
  destruct Hfuel as [fuel Hfuel]. rewrite Hfuel. cbn [blocks_loop].
  destruct (view_size data >=? Constants.MIN_BLOCK_SIZE) eqn:E1;
    [| unfold Constants.MIN_BLOCK_SIZE in E1; lia].
  unfold bind, bump. rewrite Hblock.
  destruct (view_size data >? 0) eqn:E2; [| lia].
  assert (Hdrop : drop (Z.to_nat (view_size data)) data = []).
  { apply drop_ge. unfold view_size. lia. }
  rewrite Hdrop.
  assert (Hend : forall f acc w0, blocks_loop f ph [] acc w0 = Returned (acc, []) w0)
    by (intros [| f] acc w0; reflexivity).
  rewrite Hend. reflexivity.
Qed.

Lemma unhandled_block_is_skipped_witness :
  handlePacket cat001_receiver [0x2A; 0x00; 0x05; 0x80; 0x00] initial_world =
    Returned [5]
      (set_stats (fetch_add UnhandledCategories 1)
         (set_stats (fetch_add TotalPackets 1) initial_world)).
Proof.
  apply (unhandled_block_is_skipped cat001_receiver [0x2A; 0x00; 0x05; 0x80; 0x00]
           initial_world).
  - vm_compute. discriminate.
  - reflexivity.
  - intros p h. vm_compute. discriminate.
Defined.

Lemma records_loop_errors (h : IAsterixCategoryHandler) (block : list Z) (length : Z) :
  keeps_counter RecordParseErrors h ->
  forall fuel offset w u w',
    records_loop fuel block length h offset w = Returned u w' ->
    recordParseErrors (stats w') = recordParseErrors (stats w) \/
    recordParseErrors (stats w') = wrap64 (recordParseErrors (stats w) + 1).
Proof.
  intros Hk. induction fuel as [| fuel IH]; intros offset w u w' H.
  - simpl in H. destruct (offset <? length); [discriminate |].
    apply ret_returned in H as [_ <-]. left. reflexivity.
  - simpl in H. destruct (offset <? length).
    + apply bind_returned in H as (consumed & w1 & Hrec & H).
      apply (dispatchRecord_keeps RecordParseErrors h Hk) in Hrec. simpl in Hrec.
      rewrite <- Hrec. destruct (consumed >? 0).
      * apply IH in H. exact H.
      * inversion H; subst. right. reflexivity.
    + apply ret_returned in H as [_ <-]. left. reflexivity.
Qed.

(** X27: a block costs at most one record parse error. The record loop
    stops at the first record that is refused, so [processDataBlock] leaves
    recordParseErrors as it was or one higher, however many records the
    block holds. *)
Theorem processDataBlock_at_most_one_parse_error (ph : AsterixPacketHandler)
    (block : list Z) (w w' : World) (b : Z) :
  handlers_keep RecordParseErrors ph ->
  processDataBlock ph block w = Returned b w' ->
  recordParseErrors (stats w') = recordParseErrors (stats w) \/
  recordParseErrors (stats w') = wrap64 (recordParseErrors (stats w) + 1).
Proof.
  intros Hk H. unfold processDataBlock in H.
  destruct (view_size block <? Constants.HEADER_SIZE).
  { apply ret_returned in H as [_ <-]. left. reflexivity. }
  destruct ((readBe16 block 1 <? Constants.HEADER_SIZE) || _).
  { apply ret_returned in H as [_ <-]. left. reflexivity. }
  apply bind_returned in H as (u & w1 & Hbody & H).
  apply ret_returned in H as [_ <-].
  destruct (categoryHandlers ph !! _) as [[[p h] |] |] eqn:Hlook.
  - exact (records_loop_errors h _ _ (Hk _ _ _ Hlook) _ _ _ _ _ Hbody).
  - inversion Hbody; subst. left. reflexivity.
  - inversion Hbody; subst. left. reflexivity.
Qed.

Lemma processDataBlock_at_most_one_parse_error_witness :
  exists w' : World,
    processDataBlock cat001_receiver
      [0x01; 0x00; 0x09; 0x00; 0x00; 0x00; 0x00; 0x00; 0x00] initial_world
      = Returned 9 w' /\
    recordParseErrors (stats w') = wrap64 (recordParseErrors (stats initial_world) + 1).
Proof.
  assert (Hrun : exists w', processDataBlock cat001_receiver
            [0x01; 0x00; 0x09; 0x00; 0x00; 0x00; 0x00; 0x00; 0x00] initial_world
            = Returned 9 w') by (eexists; vm_compute; reflexivity).
  destruct Hrun as [w' Hrun]. exists w'. split; [exact Hrun |].
  assert (Hk : handlers_keep RecordParseErrors cat001_receiver)
    by (apply cat001_receiver_keeps; discriminate).
  destruct (processDataBlock_at_most_one_parse_error cat001_receiver _ _ _ _ Hk Hrun)
    as [Hsame | Hone]; [| exact Hone].
  exfalso. vm_compute in Hrun. injection Hrun as <-. vm_compute in Hsame. discriminate.
Defined.

End Blocks.

(** ** What a record does to the world *)

Section WalkEffect.

Context {T : Type}.
Variable c : AsterixCategoryHandler T.

Lemma items_loop_effect :
  forall fuel frn_base itemBits st w early st' w',
    items_loop fuel c frn_base itemBits st w = Returned (early, st') w' ->
    (early = None /\ w' = w) \/ (early = Some 0 /\ walk_effect w w' 0).
Proof.
  induction fuel as [| fuel IH]; intros frn_base itemBits st w early st' w' H.
  - simpl in H. destruct (itemBits =? 0); [| discriminate].
    inversion H; subst. left. auto.
  - simpl in H. destruct (itemBits =? 0).
    { inversion H; subst. left. auto. }
    destruct (slot_at (itemLookup c) _) as [[p handler] |].
    + destruct (getSize handler (ws_remaining st)) as [n |]; [| discriminate].
      cbv zeta in H.
      destruct ((Z.of_N n =? 0) || (Z.of_N n >? view_size (ws_remaining st))).
      * inversion H; subst. right. split; [reflexivity |].
        right. split; [reflexivity |]. exists MalformedRecords. auto.
      * destruct (decode handler _ _) as [e | context']; [discriminate |].
        apply IH in H. exact H.
    + inversion H; subst. right. split; [reflexivity |].
      right. split; [reflexivity |]. exists UnhandledItems. auto.
Qed.

Lemma items_loop_thrown :
  forall fuel frn_base itemBits st w e w',
    items_loop fuel c frn_base itemBits st w = Thrown e w' -> w' = w.
Proof.
  induction fuel as [| fuel IH]; intros frn_base itemBits st w e w' H.
  - simpl in H. destruct (itemBits =? 0); discriminate.
  - simpl in H. destruct (itemBits =? 0); [discriminate |].
    destruct (slot_at (itemLookup c) _) as [[p handler] |]; [| discriminate].
    destruct (getSize handler (ws_remaining st)) as [n |]; [| discriminate].
    cbv zeta in H.
    destruct ((Z.of_N n =? 0) || (Z.of_N n >? view_size (ws_remaining st)));
      [discriminate |].
    destruct (decode handler _ _) as [e' | context'].
    + inversion H. reflexivity.
    + apply IH in H. exact H.
Qed.

Lemma fspec_loop_effect (payload : list Z) :
  forall fspec frn_base st w r st' w',
    fspec_loop c payload fspec frn_base st w = Returned (r, st') w' ->
    walk_effect w w' r.
Proof.
  induction fspec as [| fspecByte rest IH]; intros frn_base st w r st' w' H.
  - inversion H; subst. right. split; [reflexivity |]. exists MalformedRecords. auto.
  - cbn [fspec_loop] in H. apply bind_returned in H as ([early st1] & w1 & Hitems & H).
    apply items_loop_effect in Hitems. cbn [fst snd] in H.
    destruct Hitems as [[-> ->] | (-> & He)].
    + destruct (Z.land fspecByte 1 =? 0).
      * inversion H; subst. left. reflexivity.
      * apply IH in H. exact H.
    + inversion H; subst. exact He.
Qed.

Lemma bind_thrown {A B} (m : M A) (k : A -> M B) (w w' : World) (e : exn) :
  bind m k w = Thrown e w' ->
  m w = Thrown e w' \/ exists a w1, m w = Returned a w1 /\ k a w1 = Thrown e w'.
Proof.
  unfold bind. destruct (m w) as [a w1 | e1 w1 |]; try discriminate.
  - intros H. right. exists a, w1. auto.
  - intros H. left. inversion H. reflexivity.
Qed.

Lemma fspec_loop_thrown (payload : list Z) :
  forall fspec frn_base st w e w',
    fspec_loop c payload fspec frn_base st w = Thrown e w' -> w' = w.
Proof.
  induction fspec as [| fspecByte rest IH]; intros frn_base st w e w' H.
  - discriminate.
  - cbn [fspec_loop] in H.
    apply bind_thrown in H as [H | ([early st1] & w1 & Hitems & H)].
    + apply items_loop_thrown in H. exact H.
    + apply items_loop_effect in Hitems. cbn [fst snd] in H.
      destruct Hitems as [[-> ->] | (-> & _)]; [| discriminate].
      destruct (Z.land fspecByte 1 =? 0); [discriminate |].
      apply IH in H. exact H.
Qed.

Lemma internal_effect (fspec payload : list Z) (context : T) (w w' : World)
    (r : Z) (st : WalkState T) :
  _processDataRecordInternal c fspec payload context w = Returned (r, st) w' ->
  walk_effect w w' r.
Proof.
  intros H. destruct (fspec_violation_dec c fspec) as [Hv | Hv].
  - rewrite internal_on_violation in H by exact Hv. inversion H; subst.
    right. split; [reflexivity |]. exists ProtocolViolations. auto.
  - rewrite internal_without_violation in H by exact Hv.
    apply fspec_loop_effect in H. exact H.
Qed.

Lemma internal_thrown (fspec payload : list Z) (context : T) (w w' : World) (e : exn) :
  _processDataRecordInternal c fspec payload context w = Thrown e w' -> w' = w.
Proof.
  intros H. destruct (fspec_violation_dec c fspec) as [Hv | Hv].
  - rewrite internal_on_violation in H by exact Hv. discriminate.
  - rewrite internal_without_violation in H by exact Hv.
    apply fspec_loop_thrown in H. exact H.
Qed.

Lemma internal_nonneg (fspec payload : list Z) (context : T) (w w' : World)
    (r : Z) (st : WalkState T) :
  _processDataRecordInternal c fspec payload context w = Returned (r, st) w' -> 0 <= r.
Proof.
  intros H. destruct (fspec_violation_dec c fspec) as [Hv | Hv].
  - rewrite internal_on_violation in H by exact Hv. inversion H; subst. lia.
  - rewrite internal_without_violation in H by exact Hv.
    apply (fspec_loop_ok c TotalPackets) in H as [(_ & _ & Hle) Hr]; try discriminate.
    simpl in Hle. lia.
Qed.

End WalkEffect.

Section RecordEffect.

(** X16: what a category 001 record does when [processDataRecord] returns
    [r]. With [r = 0] the world is untouched or one of malformedRecords,
    unhandledItems and protocolViolations went up by one: nothing is
    delivered and no time is stored. With [r > 0] no counter moves, one
    report goes to every listener in the order of registration, and its time
    of day, also stored for its source, is the time stored for that source
    before the record (the clock when there is none), expanded from the
    truncated time when the record carries one. *)
Theorem Cat001_record_effect (h : Cat001.Asterix1Handler) (fspec payload : list Z)
    (w w' : World) (r : Z) :
  Cat001.processDataRecord h fspec payload w = Returned r w' ->
  0 <= r /\
  (r = 0 -> walk_effect w w' 0) /\
  (0 < r ->
   exists report : Asterix1Report,
     let ref := default (Cat001.calculateCurrentTod (now_micros w))
                        (sources w !! r1_sourceIdentifier report) in
     r1_TOD report =
       (if r1_hasLspClock report
        then Tod.expandTruncatedTime (r1_todLSP report) ref else ref) /\
     w' = mkWorld (stats w)
            (<[r1_sourceIdentifier report := r1_TOD report]> (sources w))
            (now_micros w)
            (delivered1 w ++ map (fun l => (l, report)) (Cat001.listeners h))
            (delivered2 w)).
Proof.
  intros H. unfold Cat001.processDataRecord in H.
  apply bind_returned in H as ([r0 st] & w1 & Hwalk & H). cbn [fst snd] in H.
  pose proof (internal_nonneg _ _ _ _ _ _ _ _ Hwalk) as Hpos.
  apply internal_effect in Hwalk.
  destruct (r0 >? 0) eqn:E.
  - destruct Hwalk as [-> | [-> _]]; [| lia].
    injection H as <- <-. split; [lia |]. split; [lia |]. intros _.
    set (ref := default (Cat001.calculateCurrentTod (now_micros w))
                        (sources w !! r1_sourceIdentifier (ws_context st))).
    exists (Cat001.set_TOD
              (if r1_hasLspClock (ws_context st)
               then Tod.expandTruncatedTime (r1_todLSP (ws_context st)) ref else ref)
              (ws_context st)).
    split; reflexivity.
  - apply ret_returned in H as [-> ->]. split; [exact Hpos |].
    split; [| lia]. intros ->. exact Hwalk.
Qed.

Lemma Cat001_record_effect_witness :
  exists w' : World,
    Cat001.processDataRecord (Cat001.addListener 7%nat Cat001.new_Asterix1Handler)
      [0xC0] [0x01; 0x02; 0x20] initial_world = Returned 3 w' /\
    exists report : Asterix1Report,
      delivered1 w' = [(7%nat, report)] /\
      sources w' = <[r1_sourceIdentifier report := r1_TOD report]> (sources initial_world).
Proof.
  assert (Hrun : exists w', Cat001.processDataRecord
            (Cat001.addListener 7%nat Cat001.new_Asterix1Handler)
            [0xC0] [0x01; 0x02; 0x20] initial_world = Returned 3 w')
    by (eexists; vm_compute; reflexivity).
  destruct Hrun as [w' Hrun]. exists w'. split; [exact Hrun |].
  destruct (Cat001_record_effect _ _ _ _ _ _ Hrun) as (_ & _ & Hyes).
  destruct (Hyes ltac:(lia)) as (report & _ & ->).
  exists report. split; reflexivity.
Defined.

(** X17: what a category 002 record does when [processDataRecord] returns
    [r]. With [r = 0] nothing is delivered and no time is stored; at most
    one of the three walk counters went up by one. With [r > 0] no counter
    moves, the time of day of the report is stored for its source and the
    report goes to every listener in the order of registration. *)
Theorem Cat002_record_effect (h : Cat002.Asterix2Handler) (fspec payload : list Z)
    (w w' : World) (r : Z) :
  Cat002.processDataRecord h fspec payload w = Returned r w' ->
  0 <= r /\
  (r = 0 -> walk_effect w w' 0) /\
  (0 < r ->
   exists report : Asterix2Report,
     w' = mkWorld (stats w)
            (<[r2_sourceIdentifier report := r2_TOD report]> (sources w))
            (now_micros w) (delivered1 w)
            (delivered2 w ++ map (fun l => (l, report)) (Cat002.listeners h))).
Proof.
  intros H. unfold Cat002.processDataRecord in H.
  apply bind_returned in H as ([r0 st] & w1 & Hwalk & H). cbn [fst snd] in H.
  pose proof (internal_nonneg _ _ _ _ _ _ _ _ Hwalk) as Hpos.
  apply internal_effect in Hwalk.
  destruct (r0 >? 0) eqn:E.
  - destruct Hwalk as [-> | [-> _]]; [| lia].
    injection H as <- <-. split; [lia |]. split; [lia |]. intros _.
    exists (ws_context st). reflexivity.
  - apply ret_returned in H as [-> ->]. split; [exact Hpos |].
    split; [| lia]. intros ->. exact Hwalk.
Qed.

Lemma Cat002_record_effect_witness :
  exists w' : World,
    Cat002.processDataRecord (Cat002.mkHandler2 (Cat002.base Cat002.new_Asterix2Handler) [4%nat])
      [0xD0] [0x01; 0x02; 0x01; 0x00; 0x12; 0x34] initial_world = Returned 6 w' /\
    exists report : Asterix2Report,
      delivered2 w' = [(4%nat, report)] /\
      sources w' = <[r2_sourceIdentifier report := r2_TOD report]> (sources initial_world).
Proof.
  assert (Hrun : exists w', Cat002.processDataRecord
            (Cat002.mkHandler2 (Cat002.base Cat002.new_Asterix2Handler) [4%nat])
            [0xD0] [0x01; 0x02; 0x01; 0x00; 0x12; 0x34] initial_world = Returned 6 w')
    by (eexists; vm_compute; reflexivity).
  destruct Hrun as [w' Hrun]. exists w'. split; [exact Hrun |].
  destruct (Cat002_record_effect _ _ _ _ _ _ Hrun) as (_ & _ & Hyes).
  destruct (Hyes ltac:(lia)) as (report & ->).
  exists report. split; reflexivity.
Defined.

End RecordEffect.

(** ** The mandatory items of the two categories *)

Section MandatoryItems.

Lemma land_lnot_zero (m b : Z) : Z.land m (Z.lnot b) = 0 <-> Z.land b m = m.
Proof.
  split; intros H; apply Z.bits_inj'; intros n Hn.
  - apply (f_equal (fun z => Z.testbit z n)) in H.
    rewrite Z.land_spec, Z.lnot_spec, Z.bits_0 in H by exact Hn.
    rewrite Z.land_spec.
    destruct (Z.testbit m n), (Z.testbit b n); simpl in *; congruence.
  - apply (f_equal (fun z => Z.testbit z n)) in H.
    rewrite Z.land_spec in H.
    rewrite Z.land_spec, Z.lnot_spec, Z.bits_0 by exact Hn.
    destruct (Z.testbit m n), (Z.testbit b n); simpl in *; congruence.
Qed.

(** A category whose mask is one byte long refuses exactly the FSPECs whose
    first byte lacks a bit of that byte. *)
Lemma one_byte_mask_violation {T} (c : AsterixCategoryHandler T) (mask : Z)
    (fspec : list Z) :
  mandatoryFspecSize c = 1 -> mandatoryFspec c !! 0%nat = Some mask ->
  fspec_violation c fspec <-> first_byte_lacks mask fspec.
Proof.
  intros Hsize Hmask. unfold fspec_violation. rewrite Hsize. split.
  - intros [Hshort | (i & Hi & Hbits)].
    + destruct fspec as [| b rest]; [exact I |].
      unfold view_size in Hshort. simpl in Hshort. lia.
    + assert (i = 0%nat) by lia. subst i.
      unfold missing_bits in Hbits. rewrite Hmask in Hbits.
      destruct fspec as [| b rest]; [exact I |]. simpl in *.
      intros Heq. apply Hbits. apply land_lnot_zero. exact Heq.
  - intros Hl. destruct fspec as [| b rest].
    + left. unfold view_size. simpl. lia.
    + right. exists 0%nat. split; [lia |].
      unfold missing_bits. rewrite Hmask. simpl in *.
      intros Heq. apply Hl. apply land_lnot_zero. exact Heq.
Qed.

(** X18: category 001 requires I001/010 and I001/020. A record whose FSPEC
    is empty or whose first FSPEC byte lacks bit 0x80 or 0x40 is refused:
    [processDataRecord] returns 0 and only protocolViolations changes, by
    one. Every other record leaves protocolViolations alone. *)
Theorem Cat001_requires_010_and_020 (ls : list nat) (fspec payload : list Z) (w : World) :
  let h := Cat001.mkHandler1 (Cat001.base Cat001.new_Asterix1Handler) ls in
  (first_byte_lacks 0xC0 fspec ->
   Cat001.processDataRecord h fspec payload w =
     Returned 0 (set_stats (fetch_add ProtocolViolations 1) w)) /\
  (~ first_byte_lacks 0xC0 fspec ->
   forall r w', Cat001.processDataRecord h fspec payload w = Returned r w' ->
                protocolViolations (stats w') = protocolViolations (stats w)).
Proof.
  intros h.
  assert (Hiff : fspec_violation (Cat001.base h) fspec <-> first_byte_lacks 0xC0 fspec)
    by (apply one_byte_mask_violation; reflexivity).
  split.
  - intros Hl. apply Hiff in Hl. unfold Cat001.processDataRecord.
    unfold bind. rewrite internal_on_violation by exact Hl. reflexivity.
  - intros Hl r w' H. rewrite <- Hiff in Hl. unfold Cat001.processDataRecord in H.
    apply bind_returned in H as ([r0 st] & w1 & Hwalk & H). cbn [fst snd] in H.
    rewrite internal_without_violation in Hwalk by exact Hl.
    apply (fspec_loop_ok _ ProtocolViolations) in Hwalk as [(Hc & _) _];
      try discriminate.
    simpl in Hc. rewrite <- Hc.
    destruct (r0 >? 0).
    + injection H as <- <-. reflexivity.
    + apply ret_returned in H as [_ <-]. reflexivity.
Qed.

Lemma Cat001_requires_010_and_020_witness :
  first_byte_lacks 0xC0 [0x80] /\
  Cat001.processDataRecord
    (Cat001.mkHandler1 (Cat001.base Cat001.new_Asterix1Handler) [0%nat])
    [0x80] [0x01; 0x02] initial_world =
    Returned 0 (set_stats (fetch_add ProtocolViolations 1) initial_world).
Proof.
  assert (Hl : first_byte_lacks 0xC0 [0x80]) by (simpl; discriminate).
  split; [exact Hl |].
  exact (proj1 (Cat001_requires_010_and_020 [0%nat] [0x80] [0x01; 0x02] initial_world) Hl).
Defined.

(** X19: category 002 requires I002/010, I002/000 and I002/030. A record
    whose FSPEC is empty or whose first FSPEC byte lacks bit 0x80, 0x40 or
    0x10 is refused: [processDataRecord] returns 0 and only
    protocolViolations changes, by one. Every other record leaves
    protocolViolations alone. *)
Theorem Cat002_requires_010_000_and_030 (ls : list nat) (fspec payload : list Z)
    (w : World) :
  let h := Cat002.mkHandler2 (Cat002.base Cat002.new_Asterix2Handler) ls in
  (first_byte_lacks 0xD0 fspec ->
   Cat002.processDataRecord h fspec payload w =
     Returned 0 (set_stats (fetch_add ProtocolViolations 1) w)) /\
  (~ first_byte_lacks 0xD0 fspec ->
   forall r w', Cat002.processDataRecord h fspec payload w = Returned r w' ->
                protocolViolations (stats w') = protocolViolations (stats w)).
Proof.
  intros h.
  assert (Hiff : fspec_violation (Cat002.base h) fspec <-> first_byte_lacks 0xD0 fspec)
    by (apply one_byte_mask_violation; reflexivity).
  split.
  - intros Hl. apply Hiff in Hl. unfold Cat002.processDataRecord.
    unfold bind. rewrite internal_on_violation by exact Hl. reflexivity.
  - intros Hl r w' H. rewrite <- Hiff in Hl. unfold Cat002.processDataRecord in H.
    apply bind_returned in H as ([r0 st] & w1 & Hwalk & H). cbn [fst snd] in H.
    rewrite internal_without_violation in Hwalk by exact Hl.
    apply (fspec_loop_ok _ ProtocolViolations) in Hwalk as [(Hc & _) _];
      try discriminate.
    simpl in Hc. rewrite <- Hc.
    destruct (r0 >? 0).
    + injection H as <- <-. reflexivity.
    + apply ret_returned in H as [_ <-]. reflexivity.
Qed.

Lemma Cat002_requires_010_000_and_030_witness :
  first_byte_lacks 0xD0 [0xC0] /\
  Cat002.processDataRecord
    (Cat002.mkHandler2 (Cat002.base Cat002.new_Asterix2Handler) [0%nat])
    [0xC0] [0x01; 0x02; 0x01] initial_world =
    Returned 0 (set_stats (fetch_add ProtocolViolations 1) initial_world).
Proof.
  assert (Hl : first_byte_lacks 0xD0 [0xC0]) by (simpl; discriminate).
  split; [exact Hl |].
  exact (proj1 (Cat002_requires_010_000_and_030 [0%nat] [0xC0] [0x01; 0x02; 0x01]
                  initial_world) Hl).
Defined.

End MandatoryItems.

(** ** Lookup tables and ownership pools *)

Section Ownership.

Lemma NoDup_fst_filter {A} (f : addr * A -> bool) (l : list (addr * A)) :
  NoDup (map fst l) -> NoDup (map fst (List.filter f l)).
Proof.
  induction l as [| x l IH]; simpl; intros H; [constructor |].
  apply NoDup_cons in H as [Hx Hl].
  destruct (f x); simpl; [| apply IH; exact Hl].
  apply NoDup_cons. split; [| apply IH; exact Hl].
  intros Hin. apply Hx. apply list_elem_of_In in Hin. apply list_elem_of_In.
  apply in_map_iff in Hin as (y & Hy & Hin). apply filter_In in Hin as [Hin _].
  apply in_map_iff. exists y. auto.
Qed.

(** The step both registration functions make: the slot [i] is pointed at
    the new object, whose owner joins the pool after the owner of the object
    the slot pointed to, if any, has left it. *)
Lemma replace_slot_consistent {A} (table : list (option (addr * A)))
    (pool : list (addr * A)) (i : nat) (p : addr) (a : A) :
  consistent table pool -> (i < length table)%nat -> fresh_address p pool ->
  consistent (<[i := Some (p, a)]> table)
    ((match table !! i with
      | Some (Some (old, _)) => List.filter (fun e => negb (Nat.eqb (fst e) old)) pool
      | _ => pool
      end) ++ [(p, a)]).
Proof.
  intros (Hnd & Hin & Hown & Hdist) Hi Hfresh. unfold fresh_address in Hfresh.
  set (pool' := match table !! i with
                | Some (Some (old, _)) =>
                    List.filter (fun e => negb (Nat.eqb (fst e) old)) pool
                | _ => pool
                end).
  assert (Hsub : forall e, In e pool' -> In e pool).
  { intros e He. subst pool'. destruct (table !! i) as [[[old b] |] |]; auto.
    apply filter_In in He as [He _]. exact He. }
  assert (Hkeep : forall (j : nat) q b, j <> i -> table !! j = Some (Some (q, b)) ->
                                       In (q, b) pool').
  { intros j q b Hj Hq. subst pool'.
    destruct (table !! i) as [[[old b0] |] |] eqn:Hslot; eauto.
    apply filter_In. split; [eauto |]. simpl.
    apply negb_true_iff, Nat.eqb_neq. intros ->.
    apply Hj. exact (Hdist _ _ _ _ _ Hq Hslot). }
  assert (Hgone : forall q b, In (q, b) pool' ->
                              forall b0, table !! i <> Some (Some (q, b0))).
  { intros q b Hq b0 Hslot. subst pool'. rewrite Hslot in Hq.
    apply filter_In in Hq as [_ Hq]. simpl in Hq.
    apply negb_true_iff, Nat.eqb_neq in Hq. congruence. }
  assert (Hnd' : NoDup (map fst pool')).
  { subst pool'. destruct (table !! i) as [[[old b] |] |]; auto.
    apply NoDup_fst_filter. exact Hnd. }
  assert (Hfresh' : ~ In p (map fst pool')).
  { intros Hp. apply Hfresh. apply in_map_iff in Hp as (e & He & Hp).
    apply in_map_iff. exists e. auto. }
  assert (Hlook : forall (j : nat) q b,
             <[i := Some (p, a)]> table !! j = Some (Some (q, b)) ->
             (j = i /\ q = p /\ b = a) \/ (j <> i /\ table !! j = Some (Some (q, b)))).
  { intros j q b Hj. destruct (decide (j = i)) as [-> | Hne].
    - rewrite list_lookup_insert_eq in Hj by exact Hi. left. inversion Hj. auto.
    - rewrite list_lookup_insert_ne in Hj by congruence. right. auto. }
  repeat split.
  - rewrite map_app. simpl. apply NoDup_app. split; [exact Hnd' |].
    split; [| apply NoDup_singleton].
    intros q Hq Hq'. apply list_elem_of_singleton in Hq'. subst q.
    apply Hfresh'. apply list_elem_of_In. exact Hq.
  - intros j q b Hj. apply in_or_app. apply Hlook in Hj as [(-> & -> & ->) | [Hne Hj]].
    + right. left. reflexivity.
    + left. eauto.
  - intros q b Hq. apply in_app_or in Hq as [Hq | [Hq | []]].
    + destruct (Hown q b (Hsub _ Hq)) as [j Hj]. exists j.
      rewrite list_lookup_insert_ne; [exact Hj |].
      intros <-. exact (Hgone _ _ Hq _ Hj).
    + inversion Hq; subst. exists i. apply list_lookup_insert_eq. exact Hi.
  - intros j k q b b' Hj Hk.
    apply Hlook in Hj as [(-> & -> & ->) | [Hnej Hj]];
      apply Hlook in Hk as [(-> & Hq & ->) | [Hnek Hk]]; try reflexivity.
    + exfalso. apply Hfresh. apply in_map_iff. exists (p, b'). split; [reflexivity | eauto].
    + subst q. exfalso. apply Hfresh. apply in_map_iff. exists (p, b).
      split; [reflexivity | eauto].
    + eauto.
Qed.

(** X20: [addHandler] keeps the lookup table of a category and its
    ownership pool consistent, whatever the FRN: when the handler passed in
    is a newly allocated object, every observer pointer still points to an
    owned handler, a replaced handler is no longer owned, and no handler is
    owned or pointed to twice. *)
Theorem addHandler_keeps_ownership {T} (h : option (addr * IAsterixDataItemHandler T))
    (frn : N) (c : AsterixCategoryHandler T) :
  consistent (itemLookup c) (handlerOwnership c) ->
  length (itemLookup c) = 128%nat ->
  (forall p hd, h = Some (p, hd) -> fresh_address p (handlerOwnership c)) ->
  let c' := addHandler h frn c in
  consistent (itemLookup c') (handlerOwnership c') /\ length (itemLookup c') = 128%nat.
Proof.
  intros Hc Hlen Hfresh c'. subst c'. unfold addHandler.
  destruct h as [[p hd] |]; [| auto].
  destruct ((Z.of_N frn =? 0) || (Z.of_N frn >? MAX_FRNS)) eqn:E; [auto |].
  apply orb_false_iff in E as [E1 E2]. unfold MAX_FRNS in E2.
  destruct (isMandatory hd); cbn [itemLookup handlerOwnership].
  - split; [| rewrite length_insert; exact Hlen].
    apply replace_slot_consistent; [exact Hc | lia | eauto].
  - split; [| rewrite length_insert; exact Hlen].
    apply replace_slot_consistent; [exact Hc | lia | eauto].
Qed.

Lemma consistent_empty {A} (n : nat) :
  consistent (replicate n (@None (addr * A))) [].
Proof.
  assert (Hnone : forall (i : nat) p (a : A),
             replicate n (@None (addr * A)) !! i <> Some (Some (p, a))).
  { intros i p a H. apply lookup_replicate in H as [H _]. discriminate. }
  repeat split.
  - constructor.
  - intros i p a H. exfalso. exact (Hnone _ _ _ H).
  - intros p a [].
  - intros i j p a a' H. exfalso. exact (Hnone _ _ _ H).
Qed.

Lemma addHandler_keeps_ownership_witness :
  let c' := addHandler (Some (0%nat, Cat001.I001_010_Handler)) 1 new_category in
  consistent (itemLookup c') (handlerOwnership c') /\ length (itemLookup c') = 128%nat.
Proof.
  apply (addHandler_keeps_ownership (Some (0%nat, Cat001.I001_010_Handler)) 1
           new_category).
  - apply consistent_empty.
  - reflexivity.
  - intros p hd _ [].
Defined.

(** X21: [registerCategoryHandler] keeps the category table of the packet
    handler and its pool consistent in the same way, and the handler passed
    in is the one found for the category afterwards. *)
Theorem registerCategoryHandler_keeps_ownership (category : Z) (p : addr)
    (h : IAsterixCategoryHandler) (ph : AsterixPacketHandler) :
  consistent (categoryHandlers ph) (categoryPool ph) ->
  length (categoryHandlers ph) = 256%nat ->
  0 <= category < Constants.MAX_CATEGORIES ->
  fresh_address p (categoryPool ph) ->
  let ph' := registerCategoryHandler category (Some (p, h)) ph in
  consistent (categoryHandlers ph') (categoryPool ph') /\
  length (categoryHandlers ph') = 256%nat /\
  categoryHandlers ph' !! Z.to_nat category = Some (Some (p, h)).
Proof.
  intros Hc Hlen Hcat Hfresh ph'. subst ph'. unfold Constants.MAX_CATEGORIES in Hcat.
  unfold registerCategoryHandler. cbn [categoryHandlers categoryPool].
  split; [| split].
  - apply replace_slot_consistent; [exact Hc | lia | exact Hfresh].
  - rewrite length_insert. exact Hlen.
  - apply list_lookup_insert_eq. lia.
Qed.

Lemma registerCategoryHandler_keeps_ownership_witness :
  let ph' := registerCategoryHandler 2
               (Some (1%nat, Asterix2 Cat002.new_Asterix2Handler)) cat001_receiver in
  consistent (categoryHandlers ph') (categoryPool ph') /\
  length (categoryHandlers ph') = 256%nat /\
  categoryHandlers ph' !! Z.to_nat 2 =
    Some (Some (1%nat, Asterix2 Cat002.new_Asterix2Handler)).
Proof.
  apply (registerCategoryHandler_keeps_ownership 2 1%nat
           (Asterix2 Cat002.new_Asterix2Handler) cat001_receiver).
  - unfold cat001_receiver, registerCategoryHandler, new_AsterixPacketHandler.
    cbn [categoryHandlers categoryPool].
    rewrite lookup_replicate_2 by (simpl; lia).
    apply (replace_slot_consistent (replicate 256 None) [] (Z.to_nat 1)).
    + apply consistent_empty.
    + rewrite length_replicate. simpl. lia.
    + intros [].
  - unfold cat001_receiver, registerCategoryHandler, new_AsterixPacketHandler.
    cbn [categoryHandlers]. rewrite length_insert, length_replicate. reflexivity.
  - unfold Constants.MAX_CATEGORIES. lia.
  - unfold fresh_address. simpl. intros [H | []]. discriminate.
Defined.

End Ownership.

(** ** FastBitReader *)

Section BitReader.

Import FastBitReader.

Lemma readBit_value (r : t) (bitOffset : Z) :
  0 <= bitOffset <= 7 ->
  readBit r bitOffset =
    Some (Z.testbit (current r) bitOffset, advance r (bitOffset - 1)).
Proof.
  intros Ho. unfold readBit.
  destruct (bitOffset <? 0) eqn:E1; [lia |].
  destruct (bitOffset >=? 32) eqn:E2; [lia |]. cbn [orb].
  rewrite (land_one_testbit (Z.shiftr (current r) bitOffset)).
  rewrite negb_involutive, Z.shiftr_spec by lia. reflexivity.
Qed.

Lemma readBit_times_closed :
  forall (n : nat) (r : t) (bitOffset acc : Z),
    0 <= bitOffset <= 7 -> Z.of_nat n <= bitOffset + 1 ->
    readBit_times n r bitOffset acc =
      Some (msb_first n (current r) bitOffset acc, advance r (bitOffset - Z.of_nat n)).
Proof.
  induction n as [| n IH]; intros r bitOffset acc Ho Hn.
  - simpl. unfold advance. rewrite Z.sub_0_r.
    destruct (bitOffset <? 0) eqn:E; [lia | reflexivity].
  - cbn [readBit_times msb_first]. rewrite readBit_value by exact Ho.
    destruct n as [| n].
    + simpl. change (Z.of_nat 1) with 1. destruct (advance r (bitOffset - 1)); reflexivity.
    + assert (Hroom : 1 <= bitOffset) by lia.
      unfold advance at 1. destruct (bitOffset - 1 <? 0) eqn:E;
        [apply Z.ltb_lt in E; lia |].
      rewrite IH by lia. do 3 f_equal. lia.
Qed.

Lemma readBits_value_checked :
  forallb (fun b =>
    forallb (fun o =>
      forallb (fun n =>
        wrap8 (Z.land (Z.shiftr b (Z.of_nat o - Z.of_nat n + 1))
                      (wrap8 (Z.shiftl 1 (Z.of_nat n) - 1)))
        =? msb_first n b (Z.of_nat o) 0) (seq 1 (o + 1))) (seq 0 8)) all_bytes = true.
Proof. vm_compute. reflexivity. Qed.

(** X22: when the [n >= 1] bits asked for are in the current byte
    ([n <= bitOffset + 1]), [readBits<n>] is defined and gives what [n]
    calls of [readBit] give: the same bits, most significant first, and the
    same reader position and offset afterwards. *)
Theorem readBits_agrees_with_readBit (n : nat) (r : FastBitReader.t) (bitOffset : Z) :
  0 <= bitOffset <= 7 -> 1 <= Z.of_nat n <= bitOffset + 1 ->
  0 <= FastBitReader.current r < 256 ->
  FastBitReader.readBits (Z.of_nat n) r bitOffset = readBit_times n r bitOffset 0 /\
  FastBitReader.readBits (Z.of_nat n) r bitOffset <> None.
Proof.
  intros Ho Hn Hb.
  rewrite readBit_times_closed by lia.
  assert (Hv : readBits (Z.of_nat n) r bitOffset =
               Some (msb_first n (current r) bitOffset 0,
                     advance r (bitOffset - Z.of_nat n))).
  { unfold readBits.
    destruct (bitOffset - Z.of_nat n + 1 <? 0) eqn:E1; [lia |].
    destruct (bitOffset - Z.of_nat n + 1 >=? 32) eqn:E2; [lia |]. cbn [orb].
    do 2 f_equal.
    pose proof (byte_cases _ readBits_value_checked (current r) Hb) as Hrow.
    cbv beta in Hrow. rewrite forallb_forall in Hrow.
    specialize (Hrow (Z.to_nat bitOffset) ltac:(apply in_seq; lia)).
    rewrite forallb_forall in Hrow.
    specialize (Hrow n ltac:(apply in_seq; lia)).
    rewrite Z2Nat.id in Hrow by lia. apply Z.eqb_eq in Hrow. exact Hrow. }
  rewrite Hv. split; [reflexivity | discriminate].
Qed.

Lemma readBits_agrees_with_readBit_witness :
  FastBitReader.readBits (Z.of_nat 3) (FastBitReader.mk [0xB5; 0x01] 0) 5 =
    readBit_times 3 (FastBitReader.mk [0xB5; 0x01] 0) 5 0 /\
  FastBitReader.readBits (Z.of_nat 3) (FastBitReader.mk [0xB5; 0x01] 0) 5 <> None.
Proof.
  apply (readBits_agrees_with_readBit 3 (FastBitReader.mk [0xB5; 0x01] 0) 5).
  - lia.
  - simpl. lia.
  - unfold FastBitReader.current, byte_at. simpl. lia.
Defined.

End BitReader.

(** ** Exceptions *)

Section Exceptions.

Variable P : exn -> Prop.

Section WalkRaises.

Context {T : Type}.
Variable c : AsterixCategoryHandler T.
Hypothesis Hdec : decoders_raise P c.

Lemma decoder_raises (index : Z) (p : addr) (hd : IAsterixDataItemHandler T)
    (context : T) (data : list Z) (e : exn) :
  slot_at (itemLookup c) index = Some (p, hd) ->
  decode hd context data = inl e -> P e.
Proof.
  intros Hslot Hthrow. apply slot_at_Some in Hslot as [n Hn].
  unfold decoders_raise in Hdec. rewrite Forall_lookup in Hdec.
  exact (Hdec _ _ Hn _ _ _ Hthrow).
Qed.

Lemma items_loop_raises :
  forall fuel frn_base itemBits st w e w',
    items_loop fuel c frn_base itemBits st w = Thrown e w' -> P e.
Proof.
  induction fuel as [| fuel IH]; intros frn_base itemBits st w e w' H.
  - simpl in H. destruct (itemBits =? 0); discriminate.
  - simpl in H. destruct (itemBits =? 0); [discriminate |].
    destruct (slot_at (itemLookup c) _) as [[p handler] |] eqn:Hslot; [| discriminate].
    destruct (getSize handler (ws_remaining st)) as [n |]; [| discriminate].
    cbv zeta in H.
    destruct ((Z.of_N n =? 0) || (Z.of_N n >? view_size (ws_remaining st)));
      [discriminate |].
    destruct (decode handler _ _) as [e' | context'] eqn:Hd.
    + inversion H; subst. exact (decoder_raises _ _ _ _ _ _ Hslot Hd).
    + apply IH in H. exact H.
Qed.

Lemma fspec_loop_raises (payload : list Z) :
  forall fspec frn_base st w e w',
    fspec_loop c payload fspec frn_base st w = Thrown e w' -> P e.
Proof.
  induction fspec as [| fspecByte rest IH]; intros frn_base st w e w' H.
  - discriminate.
  - cbn [fspec_loop] in H.
    apply bind_thrown in H as [H | ([early st1] & w1 & _ & H)].
    + apply items_loop_raises in H. exact H.
    + cbn [fst snd] in H. destruct early; [discriminate |].
      destruct (Z.land fspecByte 1 =? 0); [discriminate |].
      apply IH in H. exact H.
Qed.

Lemma internal_raises (fspec payload : list Z) (context : T) (w w' : World) (e : exn) :
  _processDataRecordInternal c fspec payload context w = Thrown e w' -> P e.
Proof.
  intros H. destruct (fspec_violation_dec c fspec) as [Hv | Hv].
  - rewrite internal_on_violation in H by exact Hv. discriminate.
  - rewrite internal_without_violation in H by exact Hv.
    apply fspec_loop_raises in H. exact H.
Qed.

End WalkRaises.

Lemma decoders_raise_new {T} : decoders_raise P (@new_category T).
Proof.
  unfold decoders_raise, new_category, itemLookup. apply Forall_replicate. exact I.
Qed.

Lemma decoders_raise_addHandler {T} (p : addr) (hd : IAsterixDataItemHandler T)
    (frn : N) (c : AsterixCategoryHandler T) :
  (forall context data e, decode hd context data = inl e -> P e) ->
  decoders_raise P c -> decoders_raise P (addHandler (Some (p, hd)) frn c).
Proof.
  intros Hhd Hc. unfold decoders_raise, addHandler. cbv zeta.
  destruct ((Z.of_N frn =? 0) || (Z.of_N frn >? MAX_FRNS)); [exact Hc |].
  destruct (isMandatory hd); unfold itemLookup at 1; apply Forall_insert; auto.
Qed.

Lemma Asterix1_raises (h : Cat001.Asterix1Handler) :
  decoders_raise P (Cat001.base h) -> raises_only P (Asterix1 h).
Proof.
  intros Hdec fspec payload w w' e H. simpl in H. unfold Cat001.processDataRecord in H.
  apply bind_thrown in H as [H | ([r st] & w1 & _ & H)].
  - exact (internal_raises _ Hdec _ _ _ _ _ _ H).
  - cbn [fst snd] in H. destruct (r >? 0); discriminate.
Qed.

Lemma Asterix2_raises (h : Cat002.Asterix2Handler) :
  decoders_raise P (Cat002.base h) -> raises_only P (Asterix2 h).
Proof.
  intros Hdec fspec payload w w' e H. simpl in H. unfold Cat002.processDataRecord in H.
  apply bind_thrown in H as [H | ([r st] & w1 & _ & H)].
  - exact (internal_raises _ Hdec _ _ _ _ _ _ H).
  - cbn [fst snd] in H. destruct (r >? 0); discriminate.
Qed.

Lemma dispatchRecord_raises (h : IAsterixCategoryHandler) (recordView : list Z)
    (w w' : World) (e : exn) :
  raises_only P h -> dispatchRecord recordView h w = Thrown e w' -> P e.
Proof.
  intros Hh H. unfold dispatchRecord in H.
  destruct (fspec_scan recordView 0 0 0) as [[[fspecSize lastDataIdx] lastDataValue] |];
    [| discriminate].
  destruct ((lastDataValue >? 0) && _); [discriminate |].
  destruct (fspecSize >? view_size recordView); [discriminate |].
  apply bind_thrown in H as [H | (consumed & w1 & _ & H)].
  - exact (Hh _ _ _ _ _ H).
  - destruct (consumed >? 0); discriminate.
Qed.

Lemma records_loop_raises (h : IAsterixCategoryHandler) (block : list Z) (length : Z) :
  raises_only P h ->
  forall fuel offset w e w',
    records_loop fuel block length h offset w = Thrown e w' -> P e.
Proof.
  intros Hh. induction fuel as [| fuel IH]; intros offset w e w' H.
  - simpl in H. destruct (offset <? length); discriminate.
  - simpl in H. destruct (offset <? length); [| discriminate].
    apply bind_thrown in H as [H | (consumed & w1 & _ & H)].
    + exact (dispatchRecord_raises _ _ _ _ _ Hh H).
    + destruct (consumed >? 0); [| discriminate]. apply IH in H. exact H.
Qed.

Lemma processDataBlock_raises (ph : AsterixPacketHandler) (block : list Z)
    (w w' : World) (e : exn) :
  handlers_raise_only P ph -> processDataBlock ph block w = Thrown e w' -> P e.
Proof.
  intros Hph H. unfold processDataBlock in H.
  destruct (view_size block <? Constants.HEADER_SIZE); [discriminate |].
  destruct ((readBe16 block 1 <? Constants.HEADER_SIZE) || _); [discriminate |].
  apply bind_thrown in H as [H | (u & w1 & _ & H)]; [| discriminate].
  destruct (categoryHandlers ph !! _) as [[[p h] |] |] eqn:Hlook; try discriminate.
  exact (records_loop_raises _ _ _ (Hph _ _ _ Hlook) _ _ _ _ _ H).
Qed.

Lemma blocks_loop_raises (ph : AsterixPacketHandler) :
  handlers_raise_only P ph ->
  forall fuel buffer acc w e w',
    blocks_loop fuel ph buffer acc w = Thrown e w' -> P e.
Proof.
  intros Hph. induction fuel as [| fuel IH]; intros buffer acc w e w' H.
  - simpl in H. destruct (view_size buffer >=? Constants.MIN_BLOCK_SIZE); discriminate.
  - simpl in H. destruct (view_size buffer >=? Constants.MIN_BLOCK_SIZE); [| discriminate].
    apply bind_thrown in H as [H | (b & w1 & _ & H)].
    + exact (processDataBlock_raises _ _ _ _ _ Hph H).
    + destruct (b >? 0); [apply IH in H; exact H | discriminate].
Qed.

Lemma handlePacket_raises (ph : AsterixPacketHandler) (data : list Z)
    (w w' : World) (e : exn) :
  handlers_raise_only P ph -> handlePacket ph data w = Thrown e w' -> P e.
Proof.
  intros Hph H. unfold handlePacket in H.
  destruct (view_size data =? 0); [discriminate |].
  apply bind_thrown in H as [H | (u & w1 & _ & H)]; [discriminate |].
  apply bind_thrown in H as [H | (res & w2 & _ & H)].
  - exact (blocks_loop_raises _ Hph _ _ _ _ _ _ H).
  - apply bind_thrown in H as [H | (u' & w3 & _ & H)]; [| discriminate].
    destruct (negb (view_size (snd res) =? 0)); discriminate.
Qed.

Lemma handlers_raise_only_new : handlers_raise_only P new_AsterixPacketHandler.
Proof.
  intros cat p h H. unfold new_AsterixPacketHandler, categoryHandlers in H.
  apply lookup_replicate in H as [H _]. discriminate.
Qed.

Lemma handlers_raise_only_register (category : Z) (p : addr)
    (h : IAsterixCategoryHandler) (ph : AsterixPacketHandler) :
  raises_only P h -> handlers_raise_only P ph ->
  handlers_raise_only P (registerCategoryHandler category (Some (p, h)) ph).
Proof.
  intros Hh Hph cat p' h' Hlook.
  unfold registerCategoryHandler in Hlook. cbn [categoryHandlers] in Hlook.
  apply list_lookup_insert_Some in Hlook as [(_ & Heq & _) | (_ & Hold)].
  - inversion Heq; subst. exact Hh.
  - exact (Hph _ _ _ Hold).
Qed.

End Exceptions.

Section ReceiverExceptions.

Lemma I001_020_raises (report : Asterix1Report) (data : list Z) (e : exn) :
  Cat001.I001_020_decode report data = inl e -> e = uninterpretedItem.
Proof.
  unfold Cat001.I001_020_decode. cbv zeta.
  repeat match goal with
         | |- context [if ?b then _ else _] => destruct b
         end; intros H; inversion H; reflexivity.
Qed.

Lemma Asterix1_decoders_raise :
  decoders_raise (fun e => e = uninterpretedItem) (Cat001.registerHandlers new_category).
Proof.
  unfold Cat001.registerHandlers, addHandlers. cbn [fold_left fst snd].
  repeat (apply decoders_raise_addHandler;
          [intros context data e H; first [discriminate | exact (I001_020_raises _ _ _ H)] |]).
  apply decoders_raise_new.
Qed.

Lemma Asterix2_decoders_raise :
  decoders_raise (fun _ => False) (Cat002.registerHandlers new_category).
Proof.
  unfold Cat002.registerHandlers, addHandlers. cbn [fold_left fst snd].
  repeat (apply decoders_raise_addHandler; [intros context data e H; discriminate |]).
  apply decoders_raise_new.
Qed.

Lemma cat001_receiver_raises :
  handlers_raise_only (fun e => e = uninterpretedItem) cat001_receiver.
Proof.
  apply handlers_raise_only_register; [| apply handlers_raise_only_new].
  apply Asterix1_raises. exact Asterix1_decoders_raise.
Qed.

(** X23: [handlePacket] raises nothing of its own: an exception that leaves
    it is one that the [processDataRecord] of a registered category handler
    raises. *)
Theorem handlePacket_raises_only_decoder_exceptions (P : exn -> Prop)
    (ph : AsterixPacketHandler) (data : list Z) (w w' : World) (e : exn) :
  handlers_raise_only P ph -> handlePacket ph data w = Thrown e w' -> P e.
Proof. apply handlePacket_raises. Qed.

Lemma handlePacket_raises_only_decoder_exceptions_witness :
  exists (e : exn) (w' : World),
    handlePacket cat001_receiver [0x01; 0x00; 0x07; 0xC0; 0x01; 0x02; 0xC0] initial_world
      = Thrown e w' /\ e = uninterpretedItem.
Proof.
  assert (Hrun : exists e w',
            handlePacket cat001_receiver [0x01; 0x00; 0x07; 0xC0; 0x01; 0x02; 0xC0]
              initial_world = Thrown e w')
    by (do 2 eexists; vm_compute; reflexivity).
  destruct Hrun as (e & w' & Hrun). exists e, w'. split; [exact Hrun |].
  exact (handlePacket_raises_only_decoder_exceptions (fun e => e = uninterpretedItem)
           cat001_receiver _ initial_world w' e cat001_receiver_raises Hrun).
Defined.

(** X24: the category 001 receiver returns from every buffer or lets
    [uninterpretedItem], the exception of I001/020, through; it raises
    nothing else and always comes back. *)
Theorem cat001_receiver_returns_or_uninterpreted (data : list Z) (w : World) :
  (exists blocks w', handlePacket cat001_receiver data w = Returned blocks w') \/
  (exists w', handlePacket cat001_receiver data w = Thrown uninterpretedItem w').
Proof.
  pose proof (cat001_receiver_comes_back data w) as Hback.
  destruct (handlePacket cat001_receiver data w) as [blocks w' | e w' |] eqn:H.
  - left. eauto.
  - right. apply (handlePacket_raises _ _ _ _ _ _ cat001_receiver_raises) in H as Heq.
    subst e. eauto.
  - congruence.
Qed.

(** X25: the category 002 receiver returns from every buffer: none of the
    category 002 decoders raises, and the loops over blocks, records, FSPEC
    bytes and items all end. *)
Theorem cat002_receiver_always_returns (data : list Z) (w : World) :
  exists blocks w', handlePacket cat002_receiver data w = Returned blocks w'.
Proof.
  assert (Hback : handlePacket cat002_receiver data w <> Diverges).
  { apply handlePacket_comes_back.
    apply handlers_come_back_register; [| apply handlers_come_back_new].
    apply Asterix2_comes_back. exact Asterix2_sizes_total. }
  assert (Hraise : handlers_raise_only (fun _ => False) cat002_receiver).
  { apply handlers_raise_only_register; [| apply handlers_raise_only_new].
    apply Asterix2_raises. exact Asterix2_decoders_raise. }
  destruct (handlePacket cat002_receiver data w) as [blocks w' | e w' |] eqn:H.
  - eauto.
  - exfalso. exact (handlePacket_raises _ _ _ _ _ _ Hraise H).
  - congruence.
Qed.

End ReceiverExceptions.

(** ** Listeners *)

Section Listeners.




End Listeners.

(** ** The source identifier of a report *)

Section SourceOfReport.

Context {T : Type}.
Variable c : AsterixCategoryHandler T.

Lemma decoder_keeps (Q : T -> Prop) (lo : nat) (index : Z) (p : addr)
    (hd : IAsterixDataItemHandler T) (context : T) (data : list Z) (context' : T) :
  decoders_keep Q lo c -> Z.of_nat lo <= index ->
  slot_at (itemLookup c) index = Some (p, hd) ->
  Q context -> decode hd context data = inr context' -> Q context'.
Proof.
  intros Hk Hlo Hslot HQ Hd. unfold slot_at in Hslot.
  destruct (index <? 0) eqn:E; [discriminate |].
  destruct (itemLookup c !! Z.to_nat index) as [slot |] eqn:Hlook; [| discriminate].
  simpl in Hslot. subst slot.
  unfold decoders_keep in Hk. rewrite Forall_lookup in Hk.
  assert (Hd' : drop lo (itemLookup c) !! (Z.to_nat index - lo)%nat = Some (Some (p, hd))).
  { rewrite lookup_drop. rewrite <- Hlook. f_equal. lia. }
  exact (Hk _ _ Hd' _ _ _ HQ Hd).
Qed.

Lemma item_bits_facts (bits : Z) :
  0 < bits < 256 ->
  clz32 (wrap32 (Z.shiftl bits 24)) = 7 - Z.log2 bits /\
  0 <= clear_top bits < 2 ^ Z.log2 bits.
Proof.
  intros Hb.
  assert (Hall : forallb (fun b =>
             (b =? 0) ||
             ((clz32 (wrap32 (Z.shiftl b 24)) =? 7 - Z.log2 b) &&
              (0 <=? clear_top b) && (clear_top b <? 2 ^ Z.log2 b))) all_bytes = true)
    by (vm_compute; reflexivity).
  pose proof (byte_cases _ Hall bits ltac:(lia)) as H. cbv beta in H.
  apply orb_true_iff in H as [H | H]; [lia |].
  apply andb_true_iff in H as [H H3]. apply andb_true_iff in H as [H1 H2].
  apply Z.eqb_eq in H1. apply Z.leb_le in H2. apply Z.ltb_lt in H3. auto.
Qed.

Lemma wrap16_small (z : Z) : 0 <= z < 65536 -> wrap16 z = z.
Proof. intros H. unfold wrap16. apply Z.mod_small. change (2 ^ 16) with 65536. lia. Qed.

Lemma items_loop_keeps_context (Q : T -> Prop) (lo : nat) (m : Z) :
  decoders_keep Q lo c -> 0 <= m <= 8 ->
  forall fuel frn_base itemBits st w early st' w',
    0 <= itemBits < 2 ^ (8 - m) ->
    1 <= frn_base -> frn_base + 7 < 65536 -> Z.of_nat lo <= frn_base + m - 1 ->
    Q (ws_context st) ->
    items_loop fuel c frn_base itemBits st w = Returned (early, st') w' ->
    Q (ws_context st').
Proof.
  intros Hk Hm.
  assert (Htop : 2 ^ (8 - m) <= 256).
  { change 256 with (2 ^ 8). apply Z.pow_le_mono_r; lia. }
  induction fuel as [| fuel IH];
    intros frn_base itemBits st w early st' w' Hbits Hbase Hmax Hlo HQ H.
  - simpl in H. destruct (itemBits =? 0); [| discriminate].
    inversion H; subst. exact HQ.
  - cbn [items_loop] in H. destruct (itemBits =? 0) eqn:E0.
    { inversion H; subst. exact HQ. }
    assert (Hpos : 0 < itemBits < 256) by lia.
    destruct (item_bits_facts itemBits Hpos) as [Hoff Hclear].
    assert (Hlog : Z.log2 itemBits < 8 - m) by (apply Z.log2_lt_pow2; lia).
    pose proof (Z.log2_nonneg itemBits) as Hlog0.
    fold (clear_top itemBits) in H. rewrite Hoff in H.
    rewrite wrap16_small in H by lia.
    destruct (slot_at (itemLookup c) _) as [[p handler] |] eqn:Hslot.
    + destruct (getSize handler (ws_remaining st)) as [n |]; [| discriminate].
      cbv zeta in H.
      destruct ((Z.of_N n =? 0) || (Z.of_N n >? view_size (ws_remaining st))).
      * inversion H; subst. exact HQ.
      * destruct (decode handler _ _) as [e | context'] eqn:Hd; [discriminate |].
        apply IH in H; [exact H | | exact Hbase | exact Hmax | exact Hlo |].
        -- split; [lia |].
           assert (2 ^ Z.log2 itemBits <= 2 ^ (8 - m)) by (apply Z.pow_le_mono_r; lia).
           lia.
        -- simpl. apply (decoder_keeps Q lo _ _ _ _ _ _ Hk) with (3 := HQ) (4 := Hd) (2 := Hslot).
           lia.
    + inversion H; subst. exact HQ.
Qed.

Lemma fspec_loop_keeps_context (Q : T -> Prop) (lo : nat) (payload : list Z) :
  decoders_keep Q lo c ->
  forall fspec frn_base st w r st' w',
    1 <= frn_base -> frn_base + 7 * view_size fspec < 65536 ->
    Z.of_nat lo <= frn_base - 1 ->
    Q (ws_context st) ->
    fspec_loop c payload fspec frn_base st w = Returned (r, st') w' ->
    Q (ws_context st').
Proof.
  intros Hk. induction fspec as [| fspecByte rest IH];
    intros frn_base st w r st' w' Hbase Hmax Hlo HQ H.
  - inversion H; subst. exact HQ.
  - assert (Hsz : view_size (fspecByte :: rest) = 1 + view_size rest)
      by (unfold view_size; simpl length; lia).
    assert (0 <= view_size rest) by (unfold view_size; lia).
    cbn [fspec_loop] in H. apply bind_returned in H as ([early st1] & w1 & Hitems & H).
    apply (items_loop_keeps_context Q lo 0 Hk ltac:(lia)) in Hitems;
      [| change (2 ^ (8 - 0)) with 256; apply land_FE_range | lia | lia | lia | exact HQ].
    cbn [fst snd] in H. destruct early as [r' |].
    + inversion H; subst. exact Hitems.
    + destruct (Z.land fspecByte 1 =? 0).
      * inversion H; subst. exact Hitems.
      * apply IH in H; [exact H | | | | exact Hitems];
          rewrite wrap16_small by lia; lia.
Qed.

Lemma byte_at_take (v : list Z) (n i : Z) :
  0 <= i < n -> byte_at (take (Z.to_nat n) v) i = byte_at v i.
Proof.
  intros Hi. unfold byte_at. destruct (i <? 0); [reflexivity |].
  rewrite lookup_take_lt by lia. reflexivity.
Qed.

(** A walk that accepts a record whose first FSPEC byte announces FRN 1
    leaves in the context the source identifier made of the first two bytes
    of the payload. *)
Lemma walk_reads_source_first (sid_of : T -> Z * Z) (payload : list Z) :
  source_comes_first sid_of c ->
  (forall s, decoders_keep (fun context => sid_of context = s) 1 c) ->
  forall fspecByte rest context w r st w',
    128 <= Z.land fspecByte 0xFE ->
    view_size (fspecByte :: rest) <= Constants.MAX_FSPEC_SIZE ->
    fspec_loop c payload (fspecByte :: rest) 1 (mkWalk context payload []) w
      = Returned (r, st) w' ->
    0 < r ->
    sid_of (ws_context st) = (byte_at payload 0, byte_at payload 1).
Proof.
  intros (p0 & hd0 & Hslot & Hsize & Hdec) Hkeep fspecByte rest context w r st w'
         Hbit Hlen H Hr.
  unfold Constants.MAX_FSPEC_SIZE in Hlen.
  assert (Hsz : view_size (fspecByte :: rest) = 1 + view_size rest)
    by (unfold view_size; simpl length; lia).
  assert (0 <= view_size rest) by (unfold view_size; lia).
  pose proof (land_FE_range fspecByte) as Hrange.
  set (bits := Z.land fspecByte 0xFE) in *.
  destruct (item_bits_facts bits ltac:(lia)) as [Hoff Hclear].
  assert (Hlog : Z.log2 bits = 7).
  { apply Z.le_antisymm.
    - assert (Z.log2 bits < 8) by (apply Z.log2_lt_pow2; [lia | change (2 ^ 8) with 256; lia]).
      lia.
    - change 7 with (Z.log2 128). apply Z.log2_le_mono. lia. }
  rewrite Hlog in Hoff, Hclear. change (2 ^ 7) with 128 in Hclear.
  cbn [fspec_loop] in H. fold bits in H.
  apply bind_returned in H as ([early st1] & w1 & Hitems & H).
  change 8%nat with (S 7) in Hitems. set (fuel := 7%nat) in Hitems. clearbody fuel.
  cbn [items_loop] in Hitems.
  destruct (bits =? 0) eqn:E0; [lia |].
  fold (clear_top bits) in Hitems. rewrite Hoff in Hitems.
  change (wrap16 (1 + (7 - 7)) - 1) with 0 in Hitems.
  rewrite Hslot, Hsize in Hitems. cbv zeta in Hitems.
  change (Z.of_N 2) with 2 in Hitems. cbn [ws_remaining ws_context ws_decoded] in Hitems.
  destruct ((2 =? 0) || (2 >? view_size payload)) eqn:Eroom.
  { inversion Hitems; subst. cbn [fst snd] in H. inversion H; subst. lia. }
  apply orb_false_iff in Eroom as [_ Eroom].
  destruct (Hdec context (take (Z.to_nat 2) payload)) as (context1 & Hd & Hsid).
  rewrite Hd in Hitems.
  rewrite !byte_at_take in Hsid by lia.
  set (Q := fun context0 : T => sid_of context0 = (byte_at payload 0, byte_at payload 1)).
  apply (items_loop_keeps_context Q 1 1 (Hkeep _) ltac:(lia)) in Hitems;
    [| change (2 ^ (8 - 1)) with 128; lia | lia | lia | simpl; lia | exact Hsid].
  cbn [fst snd] in H. destruct early as [r' |].
  - inversion H; subst. exact Hitems.
  - destruct (Z.land fspecByte 1 =? 0).
    + inversion H; subst. exact Hitems.
    + apply (fspec_loop_keeps_context Q 1 payload (Hkeep _)) in H;
        [exact H | | | | exact Hitems]; rewrite wrap16_small by lia; simpl; lia.
Qed.

Lemma decoders_keep_new (Q : T -> Prop) (lo : nat) : decoders_keep Q lo (@new_category T).
Proof.
  unfold decoders_keep, new_category, itemLookup. rewrite drop_replicate.
  apply Forall_replicate. exact I.
Qed.

Lemma decoders_keep_addHandler (Q : T -> Prop) (lo : nat) (p : addr)
    (hd : IAsterixDataItemHandler T) (frn : N) (c0 : AsterixCategoryHandler T) :
  (Z.of_nat lo <= Z.of_N frn - 1 ->
   forall context data context',
     Q context -> decode hd context data = inr context' -> Q context') ->
  decoders_keep Q lo c0 -> decoders_keep Q lo (addHandler (Some (p, hd)) frn c0).
Proof.
  intros Hhd Hc. unfold decoders_keep, addHandler. cbv zeta.
  destruct ((Z.of_N frn =? 0) || (Z.of_N frn >? MAX_FRNS)) eqn:E; [exact Hc |].
  apply orb_false_iff in E as [E1 E2].
  assert (Hgoal : Forall (fun slot =>
            match slot with
            | Some (_, hd1) =>
                forall (context : T) (data : list Z) (context' : T),
                  Q context -> decode hd1 context data = inr context' -> Q context'
            | None => True
            end) (drop lo (<[Z.to_nat (Z.of_N frn - 1) := Some (p, hd)]> (itemLookup c0)))).
  { destruct (decide (lo <= Z.to_nat (Z.of_N frn - 1))%nat) as [Hle | Hgt].
    - rewrite drop_insert_ge by exact Hle. apply Forall_insert; [exact Hc |].
      apply Hhd. lia.
    - rewrite drop_insert_lt by lia. exact Hc. }
  destruct (isMandatory hd); exact Hgoal.
Qed.

End SourceOfReport.

Section ReportSource.

Lemma top_bit_announced (b mask : Z) :
  128 <= mask < 256 -> Z.land 0xFE mask = mask -> Z.land b mask = mask ->
  128 <= Z.land b 0xFE.
Proof.
  intros Hm Hfe Hb.
  assert (Hx : Z.land (Z.land b 0xFE) mask = mask)
    by (rewrite <- Z.land_assoc, Hfe; exact Hb).
  pose proof (land_FE_range b) as Hrange.
  assert (Hall : forallb (fun x => forallb (fun m =>
             negb ((Z.land x m =? m) && (128 <=? m)) || (128 <=? x))
           all_bytes) all_bytes = true) by (vm_compute; reflexivity).
  pose proof (byte_pair_cases _ Hall (Z.land b 0xFE) mask Hrange ltac:(lia)) as H.
  cbv beta in H. rewrite Hx, Z.eqb_refl in H.
  destruct (128 <=? mask) eqn:E; [| lia]. simpl in H. lia.
Qed.

Ltac decoder_keeps_source :=
  let Hlo := fresh "Hlo" in
  let HQ := fresh "HQ" in
  let H := fresh "H" in
  intros Hlo context data context' HQ H;
  first
    [ exfalso; simpl in Hlo; lia
    | cbn [decode FixedLength ExtendedLength
           Cat001.I001_010_Handler Cat001.I001_020_Handler Cat001.I001_040_Handler
           Cat001.I001_070_Handler Cat001.I001_090_Handler Cat001.I001_130_Handler
           Cat001.I001_141_Handler Cat001.I001_050_Handler Cat001.I001_131_Handler
           Cat001.I001_150_Handler
           Cat002.I002_010_Handler Cat002.I002_000_Handler Cat002.I002_020_Handler
           Cat002.I002_030_Handler Cat002.I002_041_Handler Cat002.I002_050_Handler] in H;
      unfold decode_nothing, Cat001.I001_020_decode, Cat001.I001_040_decode,
             Cat001.I001_070_decode, Cat001.I001_090_decode, Cat001.I001_141_decode,
             Cat002.I002_030_decode, Cat002.I002_041_decode in H;
      cbv zeta in H;
      repeat match type of H with
             | context [if ?b then _ else _] => destruct b
             end;
      first [discriminate | injection H as <-; exact HQ] ].

Lemma Asterix1_source_comes_first :
  source_comes_first r1_sourceIdentifier (Cat001.registerHandlers new_category).
Proof.
  exists 0%nat, Cat001.I001_010_Handler. split; [reflexivity |].
  split; [reflexivity |]. intros context data. eexists. split; reflexivity.
Qed.

Lemma Asterix1_decoders_keep_source (s : Z * Z) :
  decoders_keep (fun context => r1_sourceIdentifier context = s) 1
    (Cat001.registerHandlers new_category).
Proof.
  unfold Cat001.registerHandlers, addHandlers. cbn [fold_left fst snd].
  repeat (apply decoders_keep_addHandler; [decoder_keeps_source |]).
  apply decoders_keep_new.
Qed.

Lemma Asterix2_source_comes_first :
  source_comes_first r2_sourceIdentifier (Cat002.registerHandlers new_category).
Proof.
  exists 0%nat, Cat002.I002_010_Handler. split; [reflexivity |].
  split; [reflexivity |]. intros context data. eexists. split; reflexivity.
Qed.

Lemma Asterix2_decoders_keep_source (s : Z * Z) :
  decoders_keep (fun context => r2_sourceIdentifier context = s) 1
    (Cat002.registerHandlers new_category).
Proof.
  unfold Cat002.registerHandlers, addHandlers. cbn [fold_left fst snd].
  repeat (apply decoders_keep_addHandler; [decoder_keeps_source |]).
  apply decoders_keep_new.
Qed.

(** The walk of an accepted record of a category whose one-byte mask
    includes FRN 1 ends with the first two payload bytes as the source
    identifier of the context. *)
Lemma accepted_walk_source {T} (c : AsterixCategoryHandler T) (sid_of : T -> Z * Z)
    (mask : Z) (fspec payload : list Z) (context : T) (w w' : World) (r : Z)
    (st : WalkState T) :
  source_comes_first sid_of c ->
  (forall s, decoders_keep (fun context0 => sid_of context0 = s) 1 c) ->
  mandatoryFspecSize c = 1 -> mandatoryFspec c !! 0%nat = Some mask ->
  128 <= mask < 256 -> Z.land 0xFE mask = mask ->
  view_size fspec <= Constants.MAX_FSPEC_SIZE ->
  _processDataRecordInternal c fspec payload context w = Returned (r, st) w' ->
  0 < r ->
  sid_of (ws_context st) = (byte_at payload 0, byte_at payload 1).
Proof.
  intros Hfirst Hkeep Hsize Hmask Hm Hfe Hlen Hwalk Hr.
  destruct (fspec_violation_dec c fspec) as [Hv | Hv].
  { rewrite internal_on_violation in Hwalk by exact Hv. inversion Hwalk; subst. lia. }
  rewrite internal_without_violation in Hwalk by exact Hv.
  rewrite (one_byte_mask_violation c mask fspec Hsize Hmask) in Hv.
  destruct fspec as [| b rest]; [exfalso; apply Hv; exact I |].
  simpl in Hv.
  assert (Hb : Z.land b mask = mask).
  { destruct (Z.eq_dec (Z.land b mask) mask) as [Heq | Hne]; [exact Heq |].
    exfalso. exact (Hv Hne). }
  apply (walk_reads_source_first c sid_of payload Hfirst Hkeep) in Hwalk;
    [exact Hwalk | | exact Hlen | exact Hr].
  exact (top_bit_announced b mask Hm Hfe Hb).
Qed.

(** X29: the report of an accepted category 001 record carries the SAC and
    SIC found in the first two bytes of the record payload, whatever other
    items the record holds, and the time of day of the report is stored
    under that source. *)
Theorem Cat001_report_carries_payload_source (ls : list nat) (fspec payload : list Z)
    (w w' : World) (r : Z) :
  view_size fspec <= Constants.MAX_FSPEC_SIZE ->
  Cat001.processDataRecord
    (Cat001.mkHandler1 (Cat001.base Cat001.new_Asterix1Handler) ls) fspec payload w
    = Returned r w' ->
  0 < r ->
  let sid := (byte_at payload 0, byte_at payload 1) in
  exists report : Asterix1Report,
    r1_sourceIdentifier report = sid /\
    delivered1 w' = delivered1 w ++ map (fun l => (l, report)) ls /\
    sources w' !! sid = Some (r1_TOD report).
Proof.
  intros Hlen H Hr sid. unfold Cat001.processDataRecord in H.
  apply bind_returned in H as ([r0 st] & w1 & Hwalk & H). cbn [fst snd] in H.
  destruct (r0 >? 0) eqn:E; [| apply ret_returned in H as [-> _]; lia].
  pose proof (internal_effect _ _ _ _ _ _ _ _ Hwalk) as Heff.
  destruct Heff as [-> | [-> _]]; [| lia].
  apply (accepted_walk_source _ r1_sourceIdentifier 0xC0) in Hwalk;
    [| exact Asterix1_source_comes_first | exact Asterix1_decoders_keep_source
     | reflexivity | reflexivity | lia | reflexivity | exact Hlen | lia].
  fold sid in Hwalk. injection H as <- <-.
  eexists (Cat001.set_TOD _ (ws_context st)).
  split; [exact Hwalk |]. split; [reflexivity |].
  cbn [sources Cat001.set_TOD r1_sourceIdentifier r1_TOD].
  rewrite Hwalk. apply lookup_insert_eq.
Qed.

Lemma Cat001_report_carries_payload_source_witness :
  exists (w' : World) (report : Asterix1Report),
    Cat001.processDataRecord
      (Cat001.mkHandler1 (Cat001.base Cat001.new_Asterix1Handler) [5%nat])
      [0xE0] [0x19; 0x2A; 0x20; 0x00; 0x80; 0x40; 0x00] initial_world = Returned 7 w' /\
    r1_sourceIdentifier report = (0x19, 0x2A) /\
    delivered1 w' = [(5%nat, report)].
Proof.
  assert (Hrun : exists w', Cat001.processDataRecord
            (Cat001.mkHandler1 (Cat001.base Cat001.new_Asterix1Handler) [5%nat])
            [0xE0] [0x19; 0x2A; 0x20; 0x00; 0x80; 0x40; 0x00] initial_world = Returned 7 w')
    by (eexists; vm_compute; reflexivity).
  destruct Hrun as [w' Hrun]. exists w'.
  destruct (Cat001_report_carries_payload_source [5%nat] [0xE0]
              [0x19; 0x2A; 0x20; 0x00; 0x80; 0x40; 0x00] initial_world w' 7
              ltac:(vm_compute; discriminate) Hrun ltac:(lia))
    as (report & Hsid & Hdel & _).
  exists report. split; [exact Hrun |]. split; [exact Hsid | exact Hdel].
Defined.

(** X30: the report of an accepted category 002 record carries the SAC and
    SIC found in the first two bytes of the record payload, and its time of
    day is the reference time stored for that source. *)
Theorem Cat002_report_carries_payload_source (ls : list nat) (fspec payload : list Z)
    (w w' : World) (r : Z) :
  view_size fspec <= Constants.MAX_FSPEC_SIZE ->
  Cat002.processDataRecord
    (Cat002.mkHandler2 (Cat002.base Cat002.new_Asterix2Handler) ls) fspec payload w
    = Returned r w' ->
  0 < r ->
  let sid := (byte_at payload 0, byte_at payload 1) in
  exists report : Asterix2Report,
    r2_sourceIdentifier report = sid /\
    delivered2 w' = delivered2 w ++ map (fun l => (l, report)) ls /\
    sources w' !! sid = Some (r2_TOD report).
Proof.
  intros Hlen H Hr sid. unfold Cat002.processDataRecord in H.
  apply bind_returned in H as ([r0 st] & w1 & Hwalk & H). cbn [fst snd] in H.
  destruct (r0 >? 0) eqn:E; [| apply ret_returned in H as [-> _]; lia].
  pose proof (internal_effect _ _ _ _ _ _ _ _ Hwalk) as Heff.
  destruct Heff as [-> | [-> _]]; [| lia].
  apply (accepted_walk_source _ r2_sourceIdentifier 0xD0) in Hwalk;
    [| exact Asterix2_source_comes_first | exact Asterix2_decoders_keep_source
     | reflexivity | reflexivity | lia | reflexivity | exact Hlen | lia].
  fold sid in Hwalk. injection H as <- <-.
  exists (ws_context st).
  split; [exact Hwalk |]. split; [reflexivity |].
  cbn [sources]. rewrite Hwalk. apply lookup_insert_eq.
Qed.

Lemma Cat002_report_carries_payload_source_witness :
  exists (w' : World) (report : Asterix2Report),
    Cat002.processDataRecord
      (Cat002.mkHandler2 (Cat002.base Cat002.new_Asterix2Handler) [5%nat])
      [0xD0] [0x19; 0x2A; 0x01; 0x00; 0x12; 0x34] initial_world = Returned 6 w' /\
    r2_sourceIdentifier report = (0x19, 0x2A) /\
    sources w' !! (0x19, 0x2A) = Some (r2_TOD report).
Proof.
  assert (Hrun : exists w', Cat002.processDataRecord
            (Cat002.mkHandler2 (Cat002.base Cat002.new_Asterix2Handler) [5%nat])
            [0xD0] [0x19; 0x2A; 0x01; 0x00; 0x12; 0x34] initial_world = Returned 6 w')
    by (eexists; vm_compute; reflexivity).
  destruct Hrun as [w' Hrun]. exists w'.
  destruct (Cat002_report_carries_payload_source [5%nat] [0xD0]
              [0x19; 0x2A; 0x01; 0x00; 0x12; 0x34] initial_world w' 6
              ltac:(vm_compute; discriminate) Hrun ltac:(lia))
    as (report & Hsid & _ & Hsrc).
  exists report. split; [exact Hrun |]. split; [exact Hsid | exact Hsrc].
Defined.

End ReportSource.
